(** * Debug-event capture pipeline: browser agents, network interceptor,
      bridge transport and aggregator.

    Shallow embedding of
      - chrome-console-for-claude/content.js  (instrumentation agent),
      - the extension's background service worker (network interceptor and
        the sending side of the bridge transport),
      - the claude-console-bridge server (aggregator / store),
    followed by the properties established about them. *)

From Stdlib Require Import ZArith NArith List String Ascii Bool Lia.
From Stdlib Require Import DecimalString.
From Stdlib Require QArith.QArith_base.
From stdpp Require Import base option gmap.
Import ListNotations.

Set Default Proof Using "Type".
Local Open Scope N_scope.

(* ===================================================================== *)
(** * JavaScript strings *)
(* ===================================================================== *)

(** A JavaScript string is a sequence of UTF-16 code units. *)
Definition jsstring := list N.

(** ASCII literal of the source, as code units. *)
Definition str (s : string) : jsstring :=
  List.map N_of_ascii (list_ascii_of_string s).

Definition in_range (lo hi c : N) : bool := (lo <=? c) && (c <=? hi).

(** [\d] *)
Definition is_digit (c : N) : bool := in_range 48 57 c.

(** [\w] (no [u]/[i] flag involved where it is used) *)
Definition is_word (c : N) : bool :=
  in_range 97 122 c || in_range 65 90 c || is_digit c || (c =? 95).

(** [[\w-]] *)
Definition is_word_dash (c : N) : bool := is_word c || (c =? 45).

(** [\s]: WhiteSpace and LineTerminator code units; also what [trim] strips. *)
Definition is_space (c : N) : bool :=
  in_range 9 13 c || (c =? 32) || (c =? 160) || (c =? 5760)
  || in_range 8192 8202 c || (c =? 8232) || (c =? 8233) || (c =? 8239)
  || (c =? 8287) || (c =? 12288) || (c =? 65279).

(** [\S] *)
Definition is_nonspace (c : N) : bool := negb (is_space c).

(** [[^x]] *)
Definition is_not (x c : N) : bool := negb (c =? x).

(** Simple case folding of the [i] flag: only ASCII letters fold onto ASCII
    letters (a code unit above 127 never canonicalises to one below). *)
Definition fold_case (c : N) : N := if in_range 97 122 c then c - 32 else c.

Definition eq_char (x c : N) : bool := c =? x.
Definition eq_char_i (x c : N) : bool := fold_case c =? fold_case x.

(** [String.prototype.substring(0, n)] *)
Definition substring0 (n : nat) (s : jsstring) : jsstring := firstn n s.

(** [String.prototype.startsWith] *)
Fixpoint startsWith (p s : jsstring) : bool :=
  match p, s with
  | [], _ => true
  | _ :: _, [] => false
  | x :: p', c :: s' => (c =? x) && startsWith p' s'
  end.

(** [String.prototype.includes] *)
Fixpoint includes (p s : jsstring) : bool :=
  startsWith p s || match s with [] => false | _ :: s' => includes p s' end.

Definition jsstring_eqb (a b : jsstring) : bool :=
  bool_decide (a = b).

(** [String.prototype.trim] *)
Fixpoint trimStart (s : jsstring) : jsstring :=
  match s with
  | c :: s' => if is_space c then trimStart s' else s
  | [] => []
  end.

Definition trim (s : jsstring) : jsstring := rev (trimStart (rev (trimStart s))).

(** Decimal rendering of an integer, as in a template literal. *)
Definition js_of_Z (z : Z) : jsstring := str (NilZero.string_of_int (Z.to_int z)).

(* ===================================================================== *)
(** * Regular expressions (the fragment the sources use) *)
(* ===================================================================== *)

Module Regex.

(** Repetition is only ever applied to a character class in the sources
    ([[\w-]+], [\d+], [\s*], [[\w-]{20,}], ...). *)
Inductive regex : Type :=
| Empty                            (* empty pattern *)
| Char (p : N -> bool)             (* one code unit of a class *)
| Seq (r1 r2 : regex)              (* r1 r2 *)
| Alt (r1 r2 : regex)              (* r1|r2, left alternative first *)
| Rep (p : N -> bool) (min : nat)  (* greedy p{min,} *)
| Ahead (r : regex)                (* (?=r) *)
| Eos.                             (* $ (no m flag) *)

Definition Opt (r : regex) : regex := Alt r Empty.          (* r? *)
Definition lit (s : string) : regex :=
  fold_right (fun c r => Seq (Char (eq_char c)) r) Empty (str s).
Definition lit_i (s : string) : regex :=
  fold_right (fun c r => Seq (Char (eq_char_i c)) r) Empty (str s).
Fixpoint seqs (rs : list regex) : regex :=
  match rs with
  | [] => Empty
  | [r] => r
  | r :: rs' => Seq r (seqs rs')
  end.
Fixpoint alts (rs : list regex) : regex :=
  match rs with
  | [] => Empty
  | [r] => r
  | r :: rs' => Alt r (alts rs')
  end.

(** Greedy repetition with backtracking: the longest run first, then
    shorter ones down to [min] code units. *)
Fixpoint rep {A : Type} (p : N -> bool) (min : nat) (s : jsstring)
    (k : jsstring -> option A) : option A :=
  match s with
  | c :: s' =>
      if p c then
        match rep p (Nat.pred min) s' k with
        | Some x => Some x
        | None => if Nat.eqb min 0 then k s else None
        end
      else if Nat.eqb min 0 then k s else None
  | [] => if Nat.eqb min 0 then k [] else None
  end.

(** Backtracking matcher anchored at the head of [s]; [k] is the
    continuation run on what is left of the input. *)
Fixpoint run (r : regex) {A : Type} (s : jsstring) (k : jsstring -> option A)
    {struct r} : option A :=
  match r with
  | Empty => k s
  | Char p => match s with
              | c :: s' => if p c then k s' else None
              | [] => None
              end
  | Seq r1 r2 => run r1 s (fun s' => run r2 s' k)
  | Alt r1 r2 => match run r1 s k with
                 | Some x => Some x
                 | None => run r2 s k
                 end
  | Rep p min => rep p min s k
  | Ahead r' => match run r' s (fun _ => Some tt) with
                | Some _ => k s
                | None => None
                end
  | Eos => match s with [] => k [] | _ :: _ => None end
  end.

(** The match found at the head of [s], as the input left after it. *)
Definition exec_at (r : regex) (s : jsstring) : option jsstring := run r s Some.

(** [RegExp.prototype.test] without the [g] flag: the first position,
    scanning left to right, where the pattern matches. *)
Fixpoint test (r : regex) (s : jsstring) : bool :=
  match exec_at r s with
  | Some _ => true
  | None => match s with
            | [] => false
            | _ :: s' => test r s'
            end
  end.

(** [String.prototype.replace] with a [g] pattern and a replacement text
    without [$] sequences. [skip] counts the code units of the current
    match still to be dropped. An empty match advances by one code unit. *)
Fixpoint replace_from (r : regex) (by_ : jsstring) (skip : nat) (s : jsstring)
    : jsstring :=
  match s with
  | [] => match skip with
          | O => match exec_at r [] with Some _ => by_ | None => [] end
          | S _ => []
          end
  | c :: s' =>
      match skip with
      | S n => replace_from r by_ n s'
      | O => match exec_at r s with
             | Some rest =>
                 match (length s - length rest)%nat with
                 | O => by_ ++ c :: replace_from r by_ 0 s'
                 | S n => by_ ++ replace_from r by_ n s'
                 end
             | None => c :: replace_from r by_ 0 s'
             end
      end
  end.

Definition replace_all (r : regex) (by_ : jsstring) (s : jsstring) : jsstring :=
  replace_from r by_ 0 s.

End Regex.
Import Regex.

(** Outcome of a JavaScript evaluation that may throw. *)
Inductive outcome (A : Type) : Type :=
| Ok (a : A)
| Throw (e : jsstring).
Arguments Ok {A} a.
Arguments Throw {A} e.

(** [Array.prototype.join] *)
Fixpoint join (sep : jsstring) (parts : list jsstring) : jsstring :=
  match parts with
  | [] => []
  | [p] => p
  | p :: ps => p ++ sep ++ join sep ps
  end.

(** [String.prototype.split] on a one-code-unit separator. *)
Fixpoint split (sep : N) (s : jsstring) : list jsstring :=
  match s with
  | [] => [[]]
  | c :: s' =>
      if c =? sep then [] :: split sep s'
      else match split sep s' with
           | seg :: segs => (c :: seg) :: segs
           | [] => [[c]]
           end
  end.

(** A string is truthy when it is present and not empty. *)
Definition truthy_str (s : option jsstring) : option jsstring :=
  match s with
  | Some (c :: s') => Some (c :: s')
  | _ => None
  end.

(** [Array.prototype.slice(-n)] *)
Definition slice_last {A : Type} (n : nat) (l : list A) : list A :=
  skipn (length l - n) l.

(** array.push(x); if (array.length > cap) array.shift(); *)
Definition push_capped {A : Type} (cap : nat) (x : A) (l : list A) : list A :=
  let l := l ++ [x] in
  if (cap <? length l)%nat then tl l else l.

(* ===================================================================== *)
(** * content.js: the instrumentation agent *)
(* ===================================================================== *)

Module Content.

Definition MAX_ERRORS : nat := 100.

(** Patterns to filter out junk from stack traces, in source order. *)
Definition JUNK_PATTERNS : list regex :=
  [ (* /\(anonymous\)@__[\w-]+\.js:\d+__/g *)
    seqs [lit "(anonymous)@__"; Rep is_word_dash 1; lit ".js:"; Rep is_digit 1; lit "__"];
    (* /__xhr@__[\w-]+\.js:\d+__/g *)
    seqs [lit "__xhr@__"; Rep is_word_dash 1; lit ".js:"; Rep is_digit 1; lit "__"];
    (* /__\w+@__[\w-]+\.js:\d+__/g *)
    seqs [lit "__"; Rep is_word 1; lit "@__"; Rep is_word_dash 1; lit ".js:";
          Rep is_digit 1; lit "__"];
    (* /webpack-internal:\/\/\/\([\w-]+\)\//g *)
    seqs [lit "webpack-internal:///("; Rep is_word_dash 1; lit ")/"];
    (* /webpack:\/\/\S+\/_next\/static\/chunks\/[\w-]+\.js/g *)
    seqs [lit "webpack://"; Rep is_nonspace 1; lit "/_next/static/chunks/";
          Rep is_word_dash 1; lit ".js"];
    (* /_next\/static\/chunks\/[\w-]{20,}\.js/g *)
    seqs [lit "_next/static/chunks/"; Rep is_word_dash 20; lit ".js"];
    (* /@[\w-]{20,}\.js:\d+/g *)
    seqs [lit "@"; Rep is_word_dash 20; lit ".js:"; Rep is_digit 1];
    (* /chrome-extension:\/\/[\w]+\//g *)
    seqs [lit "chrome-extension://"; Rep is_word 1; lit "/"];
    (* /[\w-]{32,}\.js/g *)
    seqs [Rep is_word_dash 32; lit ".js"];
    (* /Promise\.then_\w+@/g *)
    seqs [lit "Promise.then_"; Rep is_word 1; lit "@"];
    (* /<computed>@/g *)
    lit "<computed>@";
    (* /__+/g *)
    seqs [lit "_"; Rep (eq_char 95) 1];
    (* /node_modules\/\.pnpm\/[^/]+\//g *)
    seqs [lit "node_modules/.pnpm/"; Rep (is_not 47) 1; lit "/"];
    (* /\[turbopack\]/g *)
    lit "[turbopack]" ].

(** /webpack-internal:\/\/\/\([^)]+\)\//g *)
Definition WEBPACK_INTERNAL : regex :=
  seqs [lit "webpack-internal:///("; Rep (is_not 41) 1; lit ")/"].

(** Patterns for stack trace lines to remove entirely; each starts with [^]
    and is therefore tried at the head of the line only. *)
Definition is_frame_name (c : N) : bool :=
  is_word c || (c =? 46) || (c =? 60) || (c =? 62).

Definition REMOVE_LINE_PATTERNS : list regex :=
  [ (* /^\s*at\s+[\w.<>]+\s+\([\w-]{20,}\.js:\d+:\d+\)\s*$/ *)
    seqs [Rep is_space 0; lit "at"; Rep is_space 1; Rep is_frame_name 1;
          Rep is_space 1; lit "("; Rep is_word_dash 20; lit ".js:"; Rep is_digit 1;
          lit ":"; Rep is_digit 1; lit ")"; Rep is_space 0; Eos];
    (* /^\s*@[\w-]{20,}\.js:\d+\s*$/ *)
    seqs [Rep is_space 0; lit "@"; Rep is_word_dash 20; lit ".js:"; Rep is_digit 1;
          Rep is_space 0; Eos];
    (* /^\s*at\s+webpack_require/ *)
    seqs [Rep is_space 0; lit "at"; Rep is_space 1; lit "webpack_require"];
    (* /^\s*at\s+__webpack_/ *)
    seqs [Rep is_space 0; lit "at"; Rep is_space 1; lit "__webpack_"];
    (* /^\s*at\s+Object\.(\d+)\s*\[as/ *)
    seqs [Rep is_space 0; lit "at"; Rep is_space 1; lit "Object."; Rep is_digit 1;
          Rep is_space 0; lit "[as"];
    (* /^\s*at\s+Module\.\d+\s*\(/ *)
    seqs [Rep is_space 0; lit "at"; Rep is_space 1; lit "Module."; Rep is_digit 1;
          Rep is_space 0; lit "("] ].

Definition test_at_start (r : regex) (s : jsstring) : bool :=
  match exec_at r s with Some _ => true | None => false end.

(** [.] of a pattern without the [s] flag: anything but a line terminator. *)
Definition is_dot (c : N) : bool :=
  negb ((c =? 10) || (c =? 13) || (c =? 8232) || (c =? 8233)).

(** React-specific error patterns to identify, in key order. *)
Definition REACT_ERROR_PATTERNS : list (jsstring * regex) :=
  [ (str "hydration",
     alts [lit_i "hydrat"; lit_i "mismatch";
           seqs [lit_i "server"; Rep is_dot 0; lit_i "client"];
           lit_i "text content does not match"]);
    (str "hooks",
     alts [lit_i "hook"; lit_i "useState"; lit_i "useEffect"; lit_i "useRef";
           lit_i "useMemo"; lit_i "useCallback"; lit_i "useContext";
           lit_i "useReducer"]);
    (str "render",
     alts [lit_i "render"; lit_i "component"; lit_i "element"; lit_i "jsx";
           lit_i "Invalid prop"; lit_i "Failed prop"]);
    (str "nextjs",
     alts [lit_i "getServerSideProps"; lit_i "getStaticProps"; lit_i "_app";
           lit_i "_document"; lit_i "next/"; lit_i "middleware"]) ].

Definition identifyReactErrorType (message : option jsstring) : option jsstring :=
  match message with
  | None | Some [] => None
  | Some m =>
      match List.find (fun tp => test (snd tp) m) REACT_ERROR_PATTERNS with
      | Some tp => Some (fst tp)
      | None => None
      end
  end.

Definition apply_junk (s : jsstring) : jsstring :=
  fold_left (fun cleaned pattern => replace_all pattern [] cleaned) JUNK_PATTERNS s.

Definition cleanErrorMessage (message : jsstring) : jsstring :=
  match message with
  | [] => message
  | _ =>
      (* Apply junk patterns *)
      let cleaned := apply_junk message in
      (* Clean up multiple spaces and newlines *)
      let cleaned := replace_all (Rep is_space 2) (str " ") cleaned in
      let cleaned := replace_all (Rep (eq_char 10) 3) [10; 10] cleaned in
      (* Remove empty parentheses left over *)
      let cleaned := replace_all (seqs [lit "("; Rep is_space 0; lit ")"]) [] cleaned in
      (* Clean up Next.js webpack paths *)
      let cleaned := replace_all WEBPACK_INTERNAL [] cleaned in
      let cleaned := replace_all (lit ".next/server/") [] cleaned in
      let cleaned := replace_all (lit ".next/static/chunks/") [] cleaned in
      trim cleaned
  end.


(** cleanedLine.match(/at\s+(\S+)\s+\(([^)]+):(\d+):(\d+)\)/) at the head of
    [s]: the four captures (function, file, line, column). *)
Definition between (a b : jsstring) : jsstring := firstn (length a - length b) a.

Definition frame_at (s : jsstring)
    : option (jsstring * jsstring * jsstring * jsstring) :=
  run (lit "at") s (fun s1 =>
  rep is_space 1 s1 (fun s2 =>
  rep is_nonspace 1 s2 (fun s3 =>
  rep is_space 1 s3 (fun s4 =>
  run (lit "(") s4 (fun s5 =>
  rep (is_not 41) 1 s5 (fun s6 =>
  run (lit ":") s6 (fun s7 =>
  rep is_digit 1 s7 (fun s8 =>
  run (lit ":") s8 (fun s9 =>
  rep is_digit 1 s9 (fun s10 =>
  run (lit ")") s10 (fun _ =>
    Some (between s2 s3, between s5 s6, between s7 s8, between s9 s10)))))))))))).

Fixpoint match_frame (s : jsstring)
    : option (jsstring * jsstring * jsstring * jsstring) :=
  match frame_at s with
  | Some caps => Some caps
  | None => match s with
            | [] => None
            | _ :: s' => match_frame s'
            end
  end.

(** One iteration of the loop of cleanStackTrace over the lines. *)
Definition clean_line (acc : list jsstring * jsstring) (line : jsstring)
    : list jsstring * jsstring :=
  let '(cleanedLines, lastFile) := acc in
  if existsb (fun pattern => test_at_start pattern line) REMOVE_LINE_PATTERNS
  then acc
  else
    let cleanedLine := apply_junk line in
    let cleanedLine := replace_all WEBPACK_INTERNAL [] cleanedLine in
    (* /\?[\da-f]+/g : remove cache busters *)
    let cleanedLine :=
      replace_all (seqs [lit "?"; Rep (fun c => is_digit c || in_range 97 102 c) 1])
                  [] cleanedLine in
    match match_frame cleanedLine with
    | Some (func, file, line, col) =>
        let shortFile := join (str "/") (slice_last 2 (split 47 file)) in
        if jsstring_eqb shortFile lastFile then acc
        else (cleanedLines ++
                [str "  at " ++ func ++ str " (" ++ shortFile ++ str ":" ++ line
                 ++ str ":" ++ col ++ str ")"],
              shortFile)
    | None =>
        match trim cleanedLine with
        | [] => acc
        | _ :: _ =>
            if includes (str "webpack") cleanedLine then acc
            else (cleanedLines ++ [cleanedLine], lastFile)
        end
    end.

Definition cleanStackTrace (stack : option jsstring) : jsstring :=
  match stack with
  | None | Some [] => []
  | Some st =>
      let lines := split 10 st in
      let '(cleanedLines, _) := fold_left clean_line lines ([], []) in
      join [10] (firstn 10 cleanedLines)
  end.

(** The payload handed to addError. A [stack] that is not a string is
    ignored by cleanStackTrace and is represented as absent. *)
Record ErrorData : Type := {
  type : option jsstring;
  message : option jsstring;
  stack : option jsstring;
  componentStack : option jsstring;
  source : option jsstring;
  lineno : option Z;
  colno : option Z
}.

(** An entry of the [errors] buffer. [timestamp] is the capture time in
    milliseconds; the ISO text it is stored as reads back to the same value. *)
Record FormattedError : Type := {
  raw : ErrorData;
  cleaned : jsstring;
  timestamp : Z;
  url : jsstring;
  reactType : option jsstring
}.

Section Agent.
(** [String.prototype.toUpperCase] and [toLowerCase] of the platform. *)
Variable toUpperCase : jsstring -> jsstring.
Variable toLowerCase : jsstring -> jsstring.

Definition formatError (errorData : ErrorData) : jsstring :=
  let reactType := identifyReactErrorType (message errorData) in
  let typeLabel :=
    match truthy_str (option_map toUpperCase (type errorData)) with
    | Some t => t
    | None => str "ERROR"
    end in
  let typeLabel :=
    match reactType with
    | Some rt => typeLabel ++ str " (React " ++ rt ++ str ")"
    | None => typeLabel
    end in
  let parts := [str "[" ++ typeLabel ++ str "]"] in
  let parts :=
    match truthy_str (message errorData) with
    | Some m => parts ++ [cleanErrorMessage m]
    | None => parts
    end in
  let parts :=
    match truthy_str (source errorData) with
    | Some src =>
        (* source.replace(/[\w-]{32,}(?=\.js)/g, '[hash]') *)
        let src := replace_all (seqs [Rep is_word_dash 32; Ahead (lit ".js")])
                               (str "[hash]") src in
        let src := replace_all (lit "_next/static/chunks/") [] src in
        let filename := hd [] (split 63 (List.last (split 47 src) [])) in
        match filename with
        | [] => parts
        | _ :: _ =>
            if jsstring_eqb filename (str "[hash].js") then parts
            else parts ++ [[10] ++ str "  File: " ++ filename]
        end
    | None => parts
    end in
  let parts :=
    match lineno errorData with
    | Some l =>
        if (0 <? l)%Z then
          parts ++ [str "Line: " ++ js_of_Z l ++
                    match colno errorData with
                    | Some c => if (c =? 0)%Z then []
                                else str ", Col: " ++ js_of_Z c
                    | None => []
                    end]
        else parts
    | None => parts
    end in
  let parts :=
    match truthy_str (componentStack errorData) with
    | Some cs => parts ++ [[10] ++ str "  Component Stack:" ++ [10] ++ cs]
    | None => parts
    end in
  let parts :=
    match truthy_str (stack errorData) with
    | Some _ =>
        match cleanStackTrace (stack errorData) with
        | [] => parts
        | cleanedStack => parts ++ [[10] ++ str "  Stack:" ++ [10] ++ cleanedStack]
        end
    | None => parts
    end in
  join (str " ") parts.

(** What the agent reads from its surroundings during one call. *)
Record Env : Type := {
  nowAt : nat -> Z;        (* Date.now() read while testing the i-th entry *)
  stamp : Z;               (* new Date() of the entry being created *)
  href : jsstring;         (* window.location.href *)
  runtime_ok : bool;       (* chrome.runtime present and sendMessage not throwing *)
  here_stack : jsstring    (* new Error().stack *)
}.

Inductive level : Type := LError | LWarn.

(** An argument of a console call, by what the wrappers observe of it. *)
Inductive jsarg : Type :=
| AError (text : outcome jsstring) (st : option jsstring)
    (* arg instanceof Error; [text] is `${arg.name}: ${arg.message}` *)
| AObject (json : outcome jsstring) (string : outcome jsstring)
    (* typeof arg === 'object', not null; [json] is
       JSON.stringify(arg, replacer, 2).substring(0, 2000),
       [string] is String(arg) *)
| AString (s : jsstring)
| AOther (string : outcome jsstring).   (* any other value: String(arg) *)

Inductive console_call : Type :=
| Original (l : level) (args : list jsarg)   (* originalConsole.<l>.apply(console, args) *)
| Debug (ty : option jsstring) (key : jsstring).

(** The agent's state: the [errors] array, the ERROR_CAPTURED messages
    handed to the extension runtime, and what reached the page console. *)
Record Agent : Type := {
  errors : list FormattedError;
  sent : list FormattedError;
  console : list console_call
}.

Definition msgKey (errorData : ErrorData) : jsstring :=
  substring0 100 (default [] (message errorData)).

(** errors.some(e => key(e) === msgKey && Date.now() - time(e) < 1000),
    from index [i] on. *)
Fixpoint some_dupe (now : nat -> Z) (key : jsstring) (i : nat)
    (es : list FormattedError) : bool :=
  match es with
  | [] => false
  | e :: es' =>
      (jsstring_eqb (msgKey (raw e)) key && (now i - timestamp e <? 1000)%Z)
      || some_dupe now key (S i) es'
  end.

Definition isDupe (env : Env) (errorData : ErrorData) (es : list FormattedError)
    : bool :=
  some_dupe (nowAt env) (msgKey errorData) 0 es.

Definition addError (env : Env) (errorData : ErrorData) (a : Agent) : Agent :=
  if isDupe env errorData (errors a) then a
  else
    let formattedError :=
      {| raw := errorData;
         cleaned := formatError errorData;
         timestamp := stamp env;
         url := href env;
         reactType := identifyReactErrorType (message errorData) |} in
    (* errors.push(formattedError); keep only the last MAX_ERRORS *)
    let es := push_capped MAX_ERRORS formattedError (errors a) in
    {| errors := es;
       sent := if runtime_ok env then sent a ++ [formattedError] else sent a;
       console := console a ++
                    [Debug (type errorData) (substring0 50 (msgKey errorData))] |}.


(* ------------------------------------------------------------------ *)
(** ** Intercepted console methods and global handlers *)

Definition stringifyArg (arg : jsarg) : outcome jsstring :=
  match arg with
  | AError text _ => text
  | AObject json string =>
      match json with
      | Ok s => Ok s
      | Throw _ => string          (* catch { return String(arg); } *)
      end
  | AString s => Ok s
  | AOther string => string
  end.

(** args.map(f): left to right, the first exception ends the call. *)
Fixpoint map_outcome {A B : Type} (f : A -> outcome B) (l : list A)
    : outcome (list B) :=
  match l with
  | [] => Ok []
  | x :: l' =>
      match f x with
      | Throw e => Throw e
      | Ok y => match map_outcome f l' with
                | Throw e => Throw e
                | Ok ys => Ok (y :: ys)
                end
      end
  end.

Definition is_error_arg (arg : jsarg) : bool :=
  match arg with AError _ _ => true | _ => false end.

Definition error_stack (arg : option jsarg) : option jsstring :=
  match arg with
  | Some (AError _ st) => truthy_str st
  | _ => None
  end.

Definition is_component_stack (arg : jsarg) : bool :=
  match arg with
  | AString s => includes (str "at ") s
  | _ => false
  end.

Definition as_string (arg : option jsarg) : option jsstring :=
  match arg with
  | Some (AString s) => Some s
  | _ => None
  end.

Definition print (l : level) (args : list jsarg) (a : Agent) : Agent :=
  {| errors := errors a; sent := sent a;
     console := console a ++ [Original l args] |}.

(** console.error = function(...args) { ... } *)
Definition console_error (env : Env) (args : list jsarg) (a : Agent)
    : Agent * outcome unit :=
  match map_outcome stringifyArg args with
  | Throw e => (a, Throw e)
  | Ok texts =>
      let message := join (str " ") texts in
      let errorObj := List.find is_error_arg args in
      let a :=
        addError env
          {| type := Some (str "error");
             message := Some message;
             stack := match error_stack errorObj with
                      | Some st => Some st
                      | None => Some (here_stack env)
                      end;
             componentStack := as_string (List.find is_component_stack args);
             source := None; lineno := None; colno := None |} a in
      (print LError args a, Ok tt)
  end.

(** console.warn = function(...args) { ... } *)
Definition console_warn (env : Env) (args : list jsarg) (a : Agent)
    : Agent * outcome unit :=
  match map_outcome stringifyArg args with
  | Throw e => (a, Throw e)
  | Ok texts =>
      let message := join (str " ") texts in
      let pattern (i : nat) := snd (nth i REACT_ERROR_PATTERNS (str "", Empty)) in
      let isReactWarning :=
        test (pattern 0%nat) message || test (pattern 1%nat) message
        || test (pattern 2%nat) message in
      let a :=
        if isReactWarning
           || includes (str "error") (toLowerCase message)
           || includes (str "warning") (toLowerCase message)
           || includes (str "failed") (toLowerCase message)
        then addError env
               {| type := Some (str "warn");
                  message := Some message;
                  stack := Some (here_stack env);
                  componentStack := None;
                  source := None; lineno := None; colno := None |} a
        else a in
      (print LWarn args a, Ok tt)
  end.

(** The fields of an ErrorEvent that the 'error' listener reads. *)
Record ErrorEvent : Type := {
  ev_message : jsstring;               (* event.message *)
  ev_error_string : outcome jsstring;  (* String(event.error) *)
  ev_filename : option jsstring;
  ev_lineno : option Z;
  ev_colno : option Z;
  ev_error_stack : option jsstring     (* event.error?.stack *)
}.

(** window.addEventListener('error', ...) *)
Definition on_error (env : Env) (event : ErrorEvent) (a : Agent)
    : Agent * outcome unit :=
  let message :=
    match ev_message event with
    | [] => ev_error_string event
    | m => Ok m
    end in
  match message with
  | Throw e => (a, Throw e)
  | Ok m =>
      (addError env
         {| type := Some (str "error");
            message := Some m;
            source := ev_filename event;
            lineno := ev_lineno event;
            colno := ev_colno event;
            stack := ev_error_stack event;
            componentStack := None |} a,
       Ok tt)
  end.

(** event.reason of a PromiseRejectionEvent, by what the listener reads. *)
Inductive reason : Type :=
| RFalsy
| RError (text : outcome jsstring) (st : option jsstring)
| RString (s : jsstring)                      (* a non-empty string *)
| ROther (json : outcome jsstring) (string : outcome jsstring).
    (* [json] is JSON.stringify(reason).substring(0, 1000) *)

(** window.addEventListener('unhandledrejection', ...) *)
Definition on_unhandledrejection (env : Env) (r : reason) (a : Agent)
    : Agent * outcome unit :=
  let result : outcome (jsstring * option jsstring) :=
    match r with
    | RFalsy => Ok (str "Unhandled Promise Rejection", None)
    | RError text st =>
        match text with
        | Ok m => Ok (m, truthy_str st)
        | Throw e => Throw e
        end
    | RString s => Ok (s, None)
    | ROther json string =>
        match json with
        | Ok m => Ok (m, None)
        | Throw _ =>
            match string with
            | Ok m => Ok (m, None)
            | Throw e => Throw e
            end
        end
    end in
  match result with
  | Throw e => (a, Throw e)
  | Ok (m, st) =>
      (addError env
         {| type := Some (str "promise");
            message := Some m;
            stack := match st with
                     | Some x => Some x
                     | None => Some (here_stack env)
                     end;
            componentStack := None;
            source := None; lineno := None; colno := None |} a,
       Ok tt)
  end.

(** hook.onCommitFiberRoot = function(id, root, ...args) { try {...} catch {}
    return original(...) }: the capture of a boundary error either
    completes or is dropped, and the original hook runs in both cases. *)
Definition on_commit_fiber_root (env : Env) (boundary : outcome (option ErrorData))
    (a : Agent) : Agent * bool :=
  match boundary with
  | Ok (Some d) => (addError env d a, true)
  | Ok None => (a, true)
  | Throw _ => (a, true)     (* Ignore errors in our patch *)
  end.

End Agent.

End Content.

(* ===================================================================== *)
(** * Network events, as the interceptor builds them and the popup lists them *)
(* ===================================================================== *)

Module Net.

Inductive net_type : Type := request | response | failure.

Record NetEvent : Type := {
  id : jsstring;                  (* params.requestId: the correlation id *)
  type : net_type;
  timestamp : jsstring;           (* new Date().toISOString() *)
  url : option jsstring;          (* absent on failure events *)
  method : option jsstring;
  status : option Z;
  body : option jsstring;
  errorText : option jsstring;
  resourceType : option jsstring;
  other : jsstring                (* headers, postData, timing, ...: never read *)
}.

Definition net_type_eqb (a b : net_type) : bool :=
  match a, b with
  | request, request | response, response | failure, failure => true
  | _, _ => false
  end.

(** r.type === 'failure' || (r.type === 'response' && r.status >= 400) *)
Definition is_failed (n : NetEvent) : bool :=
  net_type_eqb (type n) failure
  || (net_type_eqb (type n) response
      && match status n with Some st => (400 <=? st)%Z | None => false end).

End Net.

(* ===================================================================== *)
(** * The background service worker: network interceptor and bridge client *)
(* ===================================================================== *)

Module Background.

(** URL patterns to exclude. *)
Record Patterns : Type := {
  base64 : bool;       (* data: URLs and base64 encoded content *)
  fonts : bool;        (* .woff, .woff2, .ttf, .eot, .otf *)
  images : bool;       (* .png, .jpg, .jpeg, .gif, .svg, .webp, .ico *)
  sourcemaps : bool    (* .map files *)
}.

(** Default resource type exclusions. *)
Definition default_excludedResourceTypes : gmap jsstring bool :=
  <[str "Font" := true]> (<[str "Image" := true]> (<[str "Stylesheet" := false]>
  (<[str "Script" := false]> (<[str "Media" := true]> (<[str "Other" := false]> ∅))))).

Definition default_excludedPatterns : Patterns :=
  {| base64 := true; fonts := true; images := true; sourcemaps := true |}.

(** /\.(woff2?|ttf|eot|otf)(\?|$)/i *)
Definition FONT_URL : regex :=
  seqs [lit_i ".";
        alts [Seq (lit_i "woff") (Opt (lit_i "2")); lit_i "ttf"; lit_i "eot"; lit_i "otf"];
        Alt (lit_i "?") Eos].

(** /\.(png|jpe?g|gif|svg|webp|ico|bmp|avif)(\?|$)/i *)
Definition IMAGE_URL : regex :=
  seqs [lit_i ".";
        alts [lit_i "png"; seqs [lit_i "jp"; Opt (lit_i "e"); lit_i "g"]; lit_i "gif";
              lit_i "svg"; lit_i "webp"; lit_i "ico"; lit_i "bmp"; lit_i "avif"];
        Alt (lit_i "?") Eos].

(** /\.map(\?|$)/i *)
Definition MAP_URL : regex :=
  seqs [lit_i ".map"; Alt (lit_i "?") Eos].

(** excludedResourceTypes[resourceType]: the settings object is read at the
    name the protocol declares, one of the ResourceType names of the
    debugger protocol (a missing [type] reads the key undefined). *)
Definition type_key (resourceType : option jsstring) : jsstring :=
  default (str "undefined") resourceType.

(** Check if a request should be excluded based on settings. *)
Definition shouldExcludeRequest (excludedResourceTypes : gmap jsstring bool)
    (excludedPatterns : Patterns) (resourceType : option jsstring) (url : jsstring)
    : bool :=
  if default false (excludedResourceTypes !! type_key resourceType) then true
  else match url with
  | [] => false
  | _ =>
      if base64 excludedPatterns
         && (startsWith (str "data:") url || includes (str "base64") url) then true
      else if fonts excludedPatterns && test FONT_URL url then true
      else if images excludedPatterns && test IMAGE_URL url then true
      else if sourcemaps excludedPatterns && test MAP_URL url then true
      else false
  end.


(** WebSocket.readyState *)
Inductive readyState : Type := CONNECTING | OPEN | CLOSING | CLOSED.

(** Envelopes pushed to the bridge by the interceptor. *)
Inductive BridgeMessage : Type :=
| console_error (tabId : Z) (data : Content.FormattedError)
| network_request (tabId : Z) (data : Net.NetEvent)
| network_response (tabId : Z) (data : Net.NetEvent)
| network_failure (tabId : Z) (data : Net.NetEvent).

(** The sending side of the bridge: the two module variables, and what the
    browser holds for them (every socket created with its readyState, the
    timeouts not fired yet with their delay, the frames put on the wire).
    Handles are the positive integers the platform hands out. *)
Record Bridge : Type := {
  wsConnection : option positive;
  wsReconnectTimer : option positive;
  sockets : gmap positive readyState;
  timers : list (positive * Z);
  next_handle : positive;
  wire : list (positive * BridgeMessage);
  bridgeConnected : bool           (* chrome.storage.local *)
}.

Definition is_open (b : Bridge) : bool :=
  match wsConnection b with
  | Some h => match sockets b !! h with Some OPEN => true | _ => false end
  | None => false
  end.

(** function connectToBridge(); [ctor_ok] tells whether [new WebSocket(...)]
    returned (otherwise it threw and the catch block only logs). *)
Definition connectToBridge (ctor_ok : bool) (b : Bridge) : Bridge :=
  if is_open b then b
  else if ctor_ok then
    {| wsConnection := Some (next_handle b);
       wsReconnectTimer := wsReconnectTimer b;
       sockets := <[next_handle b := CONNECTING]> (sockets b);
       timers := timers b;
       next_handle := Pos.succ (next_handle b);
       wire := wire b;
       bridgeConnected := bridgeConnected b |}
  else b.

(** wsConnection.onopen, fired by the browser on a socket. *)
Definition onopen (h : positive) (b : Bridge) : Bridge :=
  {| wsConnection := wsConnection b;
     wsReconnectTimer := wsReconnectTimer b;
     sockets := <[h := OPEN]> (sockets b);
     timers := timers b;
     next_handle := next_handle b;
     wire := wire b;
     bridgeConnected := true |}.

(** wsConnection.onclose, fired by the browser on a socket: forget the
    connection and try to reconnect after 5 seconds unless a timer is set. *)
Definition onclose (h : positive) (b : Bridge) : Bridge :=
  match wsReconnectTimer b with
  | None =>
      {| wsConnection := None;
         wsReconnectTimer := Some (next_handle b);
         sockets := <[h := CLOSED]> (sockets b);
         timers := timers b ++ [(next_handle b, 5000%Z)];
         next_handle := Pos.succ (next_handle b);
         wire := wire b;
         bridgeConnected := false |}
  | Some t =>
      {| wsConnection := None;
         wsReconnectTimer := Some t;
         sockets := <[h := CLOSED]> (sockets b);
         timers := timers b;
         next_handle := next_handle b;
         wire := wire b;
         bridgeConnected := false |}
  end.

(** The callback of the reconnect timeout. *)
Definition reconnect_timeout (t : positive) (ctor_ok : bool) (b : Bridge) : Bridge :=
  connectToBridge ctor_ok
    {| wsConnection := wsConnection b;
       wsReconnectTimer := None;
       sockets := sockets b;
       timers := List.filter (fun td => negb (Pos.eqb (fst td) t)) (timers b);
       next_handle := next_handle b;
       wire := wire b;
       bridgeConnected := bridgeConnected b |}.

(** wsConnection.close() *)
Definition close (b : Bridge) : Bridge :=
  match wsConnection b with
  | Some h =>
      match sockets b !! h with
      | Some CONNECTING | Some OPEN =>
          {| wsConnection := wsConnection b;
             wsReconnectTimer := wsReconnectTimer b;
             sockets := <[h := CLOSING]> (sockets b);
             timers := timers b;
             next_handle := next_handle b;
             wire := wire b;
             bridgeConnected := bridgeConnected b |}
      | _ => b
      end
  | None => b
  end.

(** function sendToBridge(message) *)
Definition sendToBridge (message : BridgeMessage) (b : Bridge) : Bridge :=
  if is_open b then
    {| wsConnection := wsConnection b;
       wsReconnectTimer := wsReconnectTimer b;
       sockets := sockets b;
       timers := timers b;
       next_handle := next_handle b;
       wire := wire b ++ [(default 1%positive (wsConnection b), message)];
       bridgeConnected := bridgeConnected b |}
  else b.

(** What the browser may deliver to the bridge client. *)
Inductive bridge_event : Type :=
| Startup (ctor_ok : bool)               (* the storage callback at load *)
| SetBridgePort (ctor_ok : bool)         (* SET_BRIDGE_PORT from the popup *)
| SocketOpened (h : positive)
| SocketClosed (h : positive)
| TimerFired (t : positive) (ctor_ok : bool).

Definition bridge_step (b : Bridge) (e : bridge_event) : Bridge :=
  match e with
  | Startup ok => connectToBridge ok b
  | SetBridgePort ok => connectToBridge ok (close b)
  | SocketOpened h =>
      match sockets b !! h with
      | Some CONNECTING => onopen h b
      | _ => b
      end
  | SocketClosed h =>
      match sockets b !! h with
      | Some CONNECTING | Some OPEN | Some CLOSING => onclose h b
      | _ => b
      end
  | TimerFired t ok =>
      if existsb (fun td => Pos.eqb (fst td) t) (timers b)
      then reconnect_timeout t ok b
      else b
  end.

Definition bridge_init : Bridge :=
  {| wsConnection := None; wsReconnectTimer := None; sockets := ∅; timers := [];
     next_handle := 1%positive; wire := []; bridgeConnected := false |}.

Definition bridge_run (evs : list bridge_event) : Bridge :=
  fold_left bridge_step evs bridge_init.

(* ------------------------------------------------------------------ *)
(** ** The interceptor's buffers *)

Record Worker : Type := {
  allErrors : gmap Z (list Content.FormattedError);     (* tabId -> errors[] *)
  allNetworkRequests : gmap Z (list Net.NetEvent);      (* tabId -> requests[] *)
  pendingRequests : gmap jsstring Net.NetEvent;         (* requestId -> request data *)
  excludedResourceTypes : gmap jsstring bool;
  excludedPatterns : Patterns;
  badge : gmap Z (jsstring * jsstring);                 (* chrome.action: text, colour *)
  body_fetches : list (Z * jsstring);                   (* Network.getResponseBody issued *)
  bridge : Bridge
}.

Definition set_requests (tabId : Z) (requests : list Net.NetEvent) (w : Worker)
    : Worker :=
  {| allErrors := allErrors w;
     allNetworkRequests := <[tabId := requests]> (allNetworkRequests w);
     pendingRequests := pendingRequests w;
     excludedResourceTypes := excludedResourceTypes w;
     excludedPatterns := excludedPatterns w;
     badge := badge w; body_fetches := body_fetches w; bridge := bridge w |}.

Definition set_pending (requestId : jsstring) (r : Net.NetEvent) (w : Worker) : Worker :=
  {| allErrors := allErrors w;
     allNetworkRequests := allNetworkRequests w;
     pendingRequests := <[requestId := r]> (pendingRequests w);
     excludedResourceTypes := excludedResourceTypes w;
     excludedPatterns := excludedPatterns w;
     badge := badge w; body_fetches := body_fetches w; bridge := bridge w |}.

Definition set_errors (tabId : Z) (es : list Content.FormattedError) (w : Worker)
    : Worker :=
  {| allErrors := <[tabId := es]> (allErrors w);
     allNetworkRequests := allNetworkRequests w;
     pendingRequests := pendingRequests w;
     excludedResourceTypes := excludedResourceTypes w;
     excludedPatterns := excludedPatterns w;
     badge := badge w; body_fetches := body_fetches w; bridge := bridge w |}.

Definition send (message : BridgeMessage) (w : Worker) : Worker :=
  {| allErrors := allErrors w;
     allNetworkRequests := allNetworkRequests w;
     pendingRequests := pendingRequests w;
     excludedResourceTypes := excludedResourceTypes w;
     excludedPatterns := excludedPatterns w;
     badge := badge w; body_fetches := body_fetches w;
     bridge := sendToBridge message (bridge w) |}.

Definition fetch_body (tabId : Z) (requestId : jsstring) (w : Worker) : Worker :=
  {| allErrors := allErrors w;
     allNetworkRequests := allNetworkRequests w;
     pendingRequests := pendingRequests w;
     excludedResourceTypes := excludedResourceTypes w;
     excludedPatterns := excludedPatterns w;
     badge := badge w; body_fetches := body_fetches w ++ [(tabId, requestId)];
     bridge := bridge w |}.

(** function updateBadge(tabId) *)
Definition updateBadge (tabId : Z) (w : Worker) : Worker :=
  let errors := default [] (allErrors w !! tabId) in
  let requests := default [] (allNetworkRequests w !! tabId) in
  let failedRequests := List.filter Net.is_failed requests in
  let count := (length errors + length failedRequests)%nat in
  {| allErrors := allErrors w;
     allNetworkRequests := allNetworkRequests w;
     pendingRequests := pendingRequests w;
     excludedResourceTypes := excludedResourceTypes w;
     excludedPatterns := excludedPatterns w;
     badge := <[tabId := (if (0 <? count)%nat then js_of_Z (Z.of_nat count) else [],
                          if (0 <? length errors)%nat then str "#e74c3c"
                          else str "#f39c12")]> (badge w);
     body_fetches := body_fetches w; bridge := bridge w |}.

(** The parameters of the protocol events the listener reads. *)
Inductive debugger_event : Type :=
| requestWillBeSent (requestId : jsstring) (ty : option jsstring)
    (req_url : jsstring) (req_method : jsstring) (rest : jsstring)
| responseReceived (requestId : jsstring) (ty : option jsstring)
    (resp_url : jsstring) (resp_status : Z) (rest : jsstring)
| loadingFailed (requestId : jsstring) (error_text : jsstring) (rest : jsstring)
| other_method.

(** chrome.debugger.onEvent.addListener((source, method, params) => ...);
    [now] is the text of [new Date().toISOString()]. The body of a response
    is fetched later and is not part of this step. *)
Definition onEvent (tabId : Z) (now : jsstring) (ev : debugger_event) (w : Worker)
    : Worker :=
  let w := match allNetworkRequests w !! tabId with
           | Some _ => w
           | None => set_requests tabId [] w
           end in
  let requests := default [] (allNetworkRequests w !! tabId) in
  match ev with
  | requestWillBeSent requestId ty req_url req_method rest =>
      (* Check if this request should be excluded *)
      if shouldExcludeRequest (excludedResourceTypes w) (excludedPatterns w) ty req_url
      then w
      else
        let request :=
          {| Net.id := requestId; Net.type := Net.request; Net.timestamp := now;
             Net.url := Some req_url; Net.method := Some req_method;
             Net.status := None; Net.body := None; Net.errorText := None;
             Net.resourceType := ty; Net.other := rest |} in
        let w := set_pending requestId request w in
        (* Add to list, keep only last 100 *)
        let w := set_requests tabId (push_capped 100 request requests) w in
        let w := updateBadge tabId w in
        send (network_request tabId request) w
  | responseReceived requestId ty resp_url resp_status rest =>
      if negb (bool_decide (is_Some (pendingRequests w !! requestId)))
         && shouldExcludeRequest (excludedResourceTypes w) (excludedPatterns w)
                                 ty resp_url
      then w
      else
        let response :=
          {| Net.id := requestId; Net.type := Net.response; Net.timestamp := now;
             Net.url := Some resp_url; Net.method := None;
             Net.status := Some resp_status; Net.body := None; Net.errorText := None;
             Net.resourceType := None; Net.other := rest |} in
        let w := fetch_body tabId requestId w in
        let w := set_requests tabId (push_capped 100 response requests) w in
        send (network_response tabId response) w
  | loadingFailed requestId error_text rest =>
      let failure :=
        {| Net.id := requestId; Net.type := Net.failure; Net.timestamp := now;
           Net.url := None; Net.method := None; Net.status := None;
           Net.body := None; Net.errorText := Some error_text;
           Net.resourceType := None; Net.other := rest |} in
      let w := set_requests tabId (requests ++ [failure]) w in
      send (network_failure tabId failure) w
  | other_method => w
  end.

(** chrome.runtime.onMessage, type ERROR_CAPTURED from a tab. *)
Definition onErrorCaptured (tabId : Z) (error : Content.FormattedError) (w : Worker)
    : Worker :=
  let errors := default [] (allErrors w !! tabId) in
  let w := set_errors tabId (push_capped 100 error errors) w in
  let w := updateBadge tabId w in
  send (console_error tabId error) w.

Definition worker_init : Worker :=
  {| allErrors := ∅; allNetworkRequests := ∅; pendingRequests := ∅;
     excludedResourceTypes := default_excludedResourceTypes;
     excludedPatterns := default_excludedPatterns;
     badge := ∅; body_fetches := []; bridge := bridge_init |}.

End Background.

(* ===================================================================== *)
(** * JSON values, as JSON.parse hands them to the bridge server *)
(* ===================================================================== *)

(** [let! x := e in k]: evaluate [e]; an exception ends the evaluation. *)
Definition bind {A B : Type} (x : outcome A) (f : A -> outcome B) : outcome B :=
  match x with
  | Ok a => f a
  | Throw e => Throw e
  end.

Notation "'let!' x ':=' e 'in' k" := (bind e (fun x => k))
  (at level 10, x name, e at level 100, k at level 200).

(** A callback applied to each element in order; the first exception ends
    the loop (Array.prototype.map, filter and find with a callback that may
    throw). *)
Fixpoint traverse {A B : Type} (f : A -> outcome B) (l : list A) : outcome (list B) :=
  match l with
  | [] => Ok []
  | x :: l' => let! y := f x in let! ys := traverse f l' in Ok (y :: ys)
  end.

Fixpoint filter_outcome {A : Type} (f : A -> outcome bool) (l : list A)
    : outcome (list A) :=
  match l with
  | [] => Ok []
  | x :: l' =>
      let! keep := f x in
      let! rest := filter_outcome f l' in
      Ok (if keep then x :: rest else rest)
  end.

Fixpoint find_outcome {A : Type} (f : A -> outcome bool) (l : list A)
    : outcome (option A) :=
  match l with
  | [] => Ok None
  | x :: l' => let! hit := f x in if hit then Ok (Some x) else find_outcome f l'
  end.

Module Json.

(** A number that JSON.parse can give: a finite value or an infinity (never
    NaN; the two zeros behave alike in everything the server does). *)
Inductive number : Type :=
| Finite (q : QArith_base.Q)
| Infinite (negative : bool).

(** A parsed value. [VUndefined] is what reading an absent property gives.
    An object is the list of its own properties, one entry per name. *)
#[warnings="-register-all"] Inductive jsval : Type :=
| VUndefined
| VNull
| VBool (b : bool)
| VNumber (n : number)
| VString (s : jsstring)
| VArray (items : list jsval)
| VObject (fields : list (jsstring * jsval)).

Definition TypeError : jsstring := str "TypeError".
Definition SyntaxError : jsstring := str "SyntaxError".

Definition number_of_Z (z : Z) : number := Finite (QArith_base.inject_Z z).

(** x < k for an integer literal k *)
Definition number_ltb (x : number) (k : Z) : bool :=
  match x with
  | Finite q => negb (QArith_base.Qle_bool (QArith_base.inject_Z k) q)
  | Infinite negative => negative
  end.

(** x === y on numbers *)
Definition number_eqb (x y : number) : bool :=
  match x, y with
  | Finite p, Finite q => QArith_base.Qeq_bool p q
  | Infinite a, Infinite b => Bool.eqb a b
  | _, _ => false
  end.

(** ToBoolean *)
Definition truthy (v : jsval) : bool :=
  match v with
  | VUndefined | VNull => false
  | VBool b => b
  | VNumber n => negb (number_eqb n (number_of_Z 0))
  | VString s => match s with [] => false | _ :: _ => true end
  | VArray _ | VObject _ => true
  end.

Definition nullish (v : jsval) : bool :=
  match v with
  | VUndefined | VNull => true
  | _ => false
  end.

Fixpoint lookup (key : jsstring) (fields : list (jsstring * jsval)) : jsval :=
  match fields with
  | [] => VUndefined
  | (k, v) :: rest => if jsstring_eqb k key then v else lookup key rest
  end.

Definition has_own (key : jsstring) (fields : list (jsstring * jsval)) : bool :=
  existsb (fun kv => jsstring_eqb (fst kv) key) fields.

(** [v?.key], for the property names the server reads (type, data, raw,
    cleaned, context, url, status, ...): none of them is defined on a
    prototype, so only an object can have one. *)
Definition get_opt (key : string) (v : jsval) : jsval :=
  match v with
  | VObject fields => lookup (str key) fields
  | _ => VUndefined
  end.

(** [v.key], for the same names: a TypeError on undefined and on null. *)
Definition get (key : string) (v : jsval) : outcome jsval :=
  if nullish v then Throw TypeError else Ok (get_opt key v).

(** a || b *)
Definition or_else (a b : jsval) : jsval := if truthy a then a else b.

(** v === 'text' *)
Definition is_str (text : string) (v : jsval) : bool :=
  match v with
  | VString s => jsstring_eqb s (str text)
  | _ => false
  end.

(** a === b for values of two different entries: objects and arrays parsed
    from different frames are never the same object. *)
Definition strict_eq (a b : jsval) : bool :=
  match a, b with
  | VUndefined, VUndefined => true
  | VNull, VNull => true
  | VBool x, VBool y => Bool.eqb x y
  | VNumber x, VNumber y => number_eqb x y
  | VString x, VString y => jsstring_eqb x y
  | _, _ => false
  end.

(** v.substring(0, n): only a string has the method. *)
Definition substring (n : nat) (v : jsval) : outcome jsstring :=
  match v with
  | VString s => Ok (firstn n s)
  | _ => Throw TypeError
  end.

Section Conversions.
(** Number::toString and StringToNumber of the platform (no result for a
    text that reads as NaN). *)
Variable Number_toString : number -> jsstring.
Variable StringToNumber : jsstring -> option number.

(** ToString, as a template literal or a string concatenation applies it.
    An array joins its elements with commas (nothing for null). An object
    parsed from JSON gives [object Object] unless it has a property named
    toString of its own: that one is not a function, valueOf gives the
    object back, and the conversion throws. *)
Fixpoint to_string (v : jsval) : outcome jsstring :=
  match v with
  | VUndefined => Ok (str "undefined")
  | VNull => Ok (str "null")
  | VBool b => Ok (if b then str "true" else str "false")
  | VNumber n => Ok (Number_toString n)
  | VString s => Ok s
  | VArray items =>
      (fix join_items (l : list jsval) : outcome jsstring :=
         match l with
         | [] => Ok []
         | x :: l' =>
             let! s := match x with
                       | VUndefined | VNull => Ok []
                       | _ => to_string x
                       end in
             match l' with
             | [] => Ok s
             | _ :: _ => let! t := join_items l' in Ok (s ++ str "," ++ t)
             end
         end) items
  | VObject fields =>
      if has_own (str "toString") fields then Throw TypeError
      else Ok (str "[object Object]")
  end.

(** ToNumber (no result stands for NaN): an array or object goes through
    its text. *)
Definition to_number (v : jsval) : outcome (option number) :=
  match v with
  | VUndefined => Ok None
  | VNull => Ok (Some (number_of_Z 0))
  | VBool b => Ok (Some (number_of_Z (if b then 1 else 0)))
  | VNumber n => Ok (Some n)
  | VString s => Ok (StringToNumber s)
  | VArray _ | VObject _ => let! s := to_string v in Ok (StringToNumber s)
  end.

(** v < k and v >= k for an integer literal k; both are false on NaN. *)
Definition less_than (v : jsval) (k : Z) : outcome bool :=
  let! n := to_number v in
  Ok (match n with Some x => number_ltb x k | None => false end).

Definition at_least (v : jsval) (k : Z) : outcome bool :=
  let! n := to_number v in
  Ok (match n with Some x => negb (number_ltb x k) | None => false end).

End Conversions.

End Json.

(* ===================================================================== *)
(** * The bridge server: aggregator and store *)
(* ===================================================================== *)

Module Bridge.
Import Json.

(** Store for captured data. The buffers hold whatever value sat at the
    [data] property of the message that was stored. *)
Record CapturedData : Type := {
  errors : list jsval;
  network : list jsval;
  lastUpdate : option jsstring;
  pageUrl : option jsstring
}.

(** The two data files: the one in the home directory and the one in the
    working directory, each absent or holding a text. *)
Record Files : Type := {
  DATA_FILE : option jsstring;
  PROJECT_DATA_FILE : option jsstring
}.

Record Server : Type := {
  capturedData : CapturedData;
  files : Files
}.

(** What one handler run reads from its surroundings. *)
Record Env : Type := {
  now : jsstring;          (* new Date().toISOString() *)
  cwd : jsstring;          (* process.cwd() *)
  home_write_ok : bool;    (* fs.writeFileSync(DATA_FILE, ...) did not throw *)
  project_write_ok : bool  (* fs.writeFileSync(PROJECT_DATA_FILE, ...) did not throw *)
}.

Record Request : Type := {
  req_method : jsstring;
  req_url : jsstring;
  req_body : jsstring
}.

Record Response : Type := {
  statusCode : Z;
  contentType : option jsstring;
  content : jsstring
}.

Definition quoted (s : string) : jsstring := [34] ++ str s ++ [34].

(** JSON.stringify({ success: true }) and the other fixed answers. *)
Definition SUCCESS : jsstring := str "{" ++ quoted "success" ++ str ":true}".
Definition INVALID_JSON : jsstring :=
  str "{" ++ quoted "error" ++ str ":" ++ quoted "Invalid JSON" ++ str "}".
Definition NOT_FOUND : jsstring :=
  str "{" ++ quoted "error" ++ str ":" ++ quoted "Not found" ++ str "}".
Definition DATA_CLEARED : jsstring :=
  str "{" ++ quoted "success" ++ str ":true," ++ quoted "message" ++ str ":"
  ++ quoted "Data cleared" ++ str "}".

Definition nl : jsstring := [10].
Definition js_of_nat (n : nat) : jsstring := js_of_Z (Z.of_nat n).

(** [l.slice(-n).forEach((x, i) => ...)]: the elements with their index. *)
Definition indexed {A : Type} (l : list A) : list (nat * A) :=
  combine (seq 0 (length l)) l.

Section Server.
(** Platform functions: case conversion, [new URL(url)] (the pathname
    followed by the search part, or nothing when the constructor throws),
    the two number conversions, JSON.stringify(_, null, 2) on the store and
    on its two buffers, and JSON.parse (nothing when it throws). *)
Variable toUpperCase : jsstring -> jsstring.
Variable URL_path : jsstring -> option jsstring.
Variable Number_toString : number -> jsstring.
Variable StringToNumber : jsstring -> option number.
Variable stringify_data : CapturedData -> jsstring.
Variable stringify_errors : list jsval -> jsstring.
Variable stringify_network : list jsval -> jsstring.
Variable JSON_parse : jsstring -> option jsval.

Definition text (v : jsval) : outcome jsstring := to_string Number_toString v.
Definition below (v : jsval) (k : Z) : outcome bool :=
  less_than Number_toString StringToNumber v k.
Definition not_below (v : jsval) (k : Z) : outcome bool :=
  at_least Number_toString StringToNumber v k.

(** v.toUpperCase(): only a string has the method. *)
Definition upper (v : jsval) : outcome jsstring :=
  match v with
  | VString s => Ok (toUpperCase s)
  | _ => Throw TypeError
  end.

(** function truncateUrl(url). The URL constructor converts its argument
    to a text first; when the conversion or the constructor throws, the
    catch block calls substring on the argument itself. *)
Definition truncateUrl (url : jsval) : outcome jsstring :=
  if negb (truthy url) then Ok []
  else
    match match text url with
          | Ok s => URL_path s
          | Throw _ => None
          end with
    | Some p => Ok (if (70 <? length p)%nat then firstn 70 p ++ str "..." else p)
    | None => substring 70 url
    end.

(** e.cleaned || e.raw?.message || 'Unknown', for an entry that is neither
    undefined nor null. *)
Definition entry_message (e : jsval) : jsval :=
  or_else (get_opt "cleaned" e)
          (or_else (get_opt "message" (get_opt "raw" e)) (VString (str "Unknown"))).

(** e.raw?.type?.toUpperCase() || 'ERROR', for such an entry. *)
Definition upper_type (e : jsval) : outcome jsstring :=
  let ty := get_opt "type" (get_opt "raw" e) in
  if nullish ty then Ok (str "ERROR")
  else
    let! t := upper ty in
    Ok (match t with [] => str "ERROR" | _ :: _ => t end).

(** function logError(error): the line handed to console.log, without the
    clock and the colour codes. *)
Definition logError (error : jsval) : outcome (list jsstring) :=
  let! _ := get "raw" error in
  let! type := upper_type error in
  let! msg := substring 150 (entry_message error) in
  Ok [str "[" ++ type ++ str "] " ++ msg].

(** function logServerError(data), for a truthy [data]. *)
Definition logServerError (data : jsval) : outcome (list jsstring) :=
  let context := get_opt "context" data in
  let model := get_opt "model" context in
  let! source :=
    if truthy model then Ok (str "PRISMA")
    else upper (or_else (get_opt "type" (get_opt "raw" data)) (VString (str "SERVER"))) in
  let! msg := substring 150 (entry_message data) in
  let route := or_else (get_opt "route" context) (VString []) in
  let! arrow :=
    if truthy route
    then let! r := text route in Ok (r ++ str " " ++ [8594] ++ str " ")
    else Ok [] in
  let line := str "[" ++ source ++ str "] " ++ arrow ++ msg in
  (* Show additional context for Prisma errors *)
  if truthy model then
    let! m := text model in
    let! a := text (get_opt "action" context) in
    Ok [line; str "     " ++ [9492; 9472] ++ str " " ++ m ++ str "." ++ a]
  else Ok [line].

(** status < 300 ? check : status < 400 ? hooked arrow : heavy cross *)
Definition status_icon (status : jsval) : outcome jsstring :=
  let! ok := below status 300 in
  if ok then Ok [10003]
  else
    let! redirect := below status 400 in
    Ok (if redirect then [8618] else [10006]).

(** function logNetwork(data) *)
Definition logNetwork (data : jsval) : outcome (list jsstring) :=
  let! ty := get "type" data in
  if is_str "request" ty then
    let! m := text (get_opt "method" data) in
    let! u := truncateUrl (get_opt "url" data) in
    Ok [m ++ str " " ++ u]
  else if is_str "response" ty then
    let status := get_opt "status" data in
    let! _ := status_icon status in       (* the colour *)
    let! _ := status_icon status in       (* the icon *)
    let! s := text status in
    let! u := truncateUrl (get_opt "url" data) in
    let line := s ++ str " " ++ u in
    (* Show error response body *)
    let! high := not_below status 400 in
    if high && truthy (get_opt "body" data) then
      let! b := substring 100 (get_opt "body" data) in
      Ok [line; str "     " ++ [9492; 9472] ++ str " " ++ b]
    else Ok [line]
  else if is_str "failure" ty then
    let! t := text (or_else (get_opt "errorText" data)
                            (VString (str "Connection failed"))) in
    Ok [str "FAILED " ++ t]
  else Ok [].

(** Save data to files (both home dir and project dir). *)
Definition saveData (env : Env) (sv : Server) : Server :=
  let data :=
    {| errors := errors (capturedData sv);
       network := network (capturedData sv);
       lastUpdate := Some (now env);
       pageUrl := pageUrl (capturedData sv) |} in
  let json := stringify_data data in
  {| capturedData := data;
     files :=
       {| DATA_FILE :=
            if home_write_ok env then Some json else DATA_FILE (files sv);
          PROJECT_DATA_FILE :=
            if project_write_ok env then Some json
            else PROJECT_DATA_FILE (files sv) |} |}.

(** e.serverEvent, as a condition *)
Definition serverEvent (e : jsval) : outcome bool :=
  let! v := get "serverEvent" e in Ok (truthy v).

Definition server_error_section (ie : nat * jsval) : outcome jsstring :=
  let '(i, e) := ie in
  let context := get_opt "context" e in
  let model := get_opt "model" context in
  let source := if truthy model then str "PRISMA" else str "SERVER" in
  let type := or_else (get_opt "type" (get_opt "raw" e)) (VString (str "Error")) in
  let msg := entry_message e in
  let route := or_else (get_opt "route" context) (VString []) in
  let! t := text type in
  let! route_line :=
    if truthy route
    then let! r := text route in Ok (str "**Route:** `" ++ r ++ str "`" ++ nl)
    else Ok [] in
  let! model_line :=
    if truthy model
    then let! m := text model in
         let! a := text (get_opt "action" context) in
         Ok (str "**Model:** `" ++ m ++ str "." ++ a ++ str "`" ++ nl)
    else Ok [] in
  let! shown := substring 500 msg in
  let stack := get_opt "stack" (get_opt "raw" e) in
  let! stack_part :=
    if truthy stack
    then let! st := substring 1000 stack in
         Ok (str "<details><summary>Stack trace</summary>" ++ nl ++ nl
             ++ str "```" ++ nl ++ st ++ nl ++ str "```" ++ nl
             ++ str "</details>" ++ nl)
    else Ok [] in
  Ok (str "### " ++ js_of_nat (i + 1) ++ str ". [" ++ source ++ str "] " ++ t ++ nl
      ++ route_line ++ model_line
      ++ str "```" ++ nl ++ shown ++ nl ++ str "```" ++ nl
      ++ stack_part ++ nl).

Definition browser_error_section (ie : nat * jsval) : outcome jsstring :=
  let '(i, e) := ie in
  let! type := upper_type e in
  let! shown := substring 500 (entry_message e) in
  Ok (str "### " ++ js_of_nat (i + 1) ++ str ". [" ++ type ++ str "]" ++ nl
      ++ str "```" ++ nl ++ shown ++ nl ++ str "```" ++ nl ++ nl).

(** n.type === 'failure' || (n.type === 'response' && n.status >= 400) *)
Definition is_failed (n : jsval) : outcome bool :=
  let! ty := get "type" n in
  if is_str "failure" ty then Ok true
  else if is_str "response" ty then not_below (get_opt "status" n) 400
  else Ok false.

Definition is_request (n : jsval) : outcome bool :=
  let! ty := get "type" n in Ok (is_str "request" ty).

Definition failed_line (inn : nat * jsval) : outcome jsstring :=
  let '(i, n) := inn in
  let! line :=
    if is_str "failure" (get_opt "type" n) then
      let! t := text (get_opt "errorText" n) in
      Ok (js_of_nat (i + 1) ++ str ". **FAILED** - " ++ t ++ nl)
    else
      let! s := text (get_opt "status" n) in
      let! u := truncateUrl (get_opt "url" n) in
      let! body :=
        if truthy (get_opt "body" n)
        then let! b := substring 300 (get_opt "body" n) in
             Ok (str "   ```json" ++ nl ++ str "   " ++ b ++ nl ++ str "   ```" ++ nl)
        else Ok [] in
      Ok (js_of_nat (i + 1) ++ str ". **" ++ s ++ str "** `" ++ u ++ str "`" ++ nl
          ++ body) in
  Ok (line ++ nl).

(** network.find(n => n.type === 'response' && n.url === r.url) *)
Definition find_response (network : list jsval) (r : jsval) : outcome (option jsval) :=
  find_outcome (fun n => let! ty := get "type" n in
                         Ok (is_str "response" ty
                             && strict_eq (get_opt "url" n) (get_opt "url" r)))
               network.

Definition request_line (network : list jsval) (r : jsval) : outcome jsstring :=
  let! response := find_response network r in
  let status :=
    match response with
    | Some n => get_opt "status" n
    | None => VString (str "...")
    end in
  let! statusIcon :=
    match response with
    | None => Ok [9203]                           (* hourglass *)
    | Some n => status_icon (get_opt "status" n)
    end in
  let! m := text (get_opt "method" r) in
  let! u := truncateUrl (get_opt "url" r) in
  let! s := text status in
  Ok (str "- " ++ statusIcon ++ str " `" ++ m ++ str "` " ++ u ++ str " " ++ [8594]
      ++ str " " ++ s ++ nl).

Definition failed_requests (network : list jsval) : outcome (list jsval) :=
  filter_outcome is_failed network.

Definition recent_requests (network : list jsval) : outcome (list jsval) :=
  let! requests := filter_outcome is_request network in Ok (slice_last 10 requests).

Definition sections {A : Type} (f : A -> outcome jsstring) (l : list A)
    : outcome jsstring :=
  let! parts := traverse f l in Ok (concat parts).

(** Generate summary for Claude CLI. *)
Definition generateSummary (env : Env) (d : CapturedData) : outcome jsstring :=
  (* Separate browser and server errors *)
  let! browserErrors :=
    filter_outcome (fun e => let! s := serverEvent e in Ok (negb s)) (errors d) in
  let! serverErrors := filter_outcome serverEvent (errors d) in
  let network := network d in
  (* Server Errors (show first - they're often the root cause) *)
  let! server_part :=
    match serverErrors with
    | [] => Ok []
    | _ :: _ =>
        let! body := sections server_error_section
                       (indexed (slice_last 10 serverErrors)) in
        Ok (str "## Server Errors (" ++ js_of_nat (length serverErrors) ++ str ")"
            ++ nl ++ nl ++ body)
    end in
  (* Browser/Console Errors *)
  let! browser_part :=
    match browserErrors with
    | [] => Ok ([10003] ++ str " No browser errors" ++ nl ++ nl)
    | _ :: _ => sections browser_error_section (indexed (slice_last 15 browserErrors))
    end in
  (* Failed Requests *)
  let! failed := failed_requests network in
  let! failed_part :=
    match failed with
    | [] => Ok ([10003] ++ str " No failed requests" ++ nl ++ nl)
    | _ :: _ => sections failed_line (indexed (slice_last 10 failed))
    end in
  (* Recent Requests *)
  let! requests := recent_requests network in
  let! recent_part := sections (request_line network) requests in
  Ok (str "# Debug Summary" ++ nl ++ nl
      ++ str "Generated: " ++ now env ++ nl
      ++ str "Working Directory: " ++ cwd env ++ nl ++ nl
      ++ server_part
      ++ str "## Browser Errors (" ++ js_of_nat (length browserErrors) ++ str ")"
      ++ nl ++ nl ++ browser_part
      ++ str "## Failed/Error Requests (" ++ js_of_nat (length failed) ++ str ")"
      ++ nl ++ nl ++ failed_part
      ++ str "## Recent Requests" ++ nl ++ nl ++ recent_part).

Definition with_errors (es : list jsval) (sv : Server) : Server :=
  {| capturedData :=
       {| errors := es; network := network (capturedData sv);
          lastUpdate := lastUpdate (capturedData sv);
          pageUrl := pageUrl (capturedData sv) |};
     files := files sv |}.

Definition with_network (ns : list jsval) (sv : Server) : Server :=
  {| capturedData :=
       {| errors := errors (capturedData sv); network := ns;
          lastUpdate := lastUpdate (capturedData sv);
          pageUrl := pageUrl (capturedData sv) |};
     files := files sv |}.

(** The rest of a case of the message handler once the entry is in its
    buffer: the logger runs, and saveData only if it returned. *)
Definition log_and_save (env : Env) (logged : outcome (list jsstring)) (sv : Server)
    : Server :=
  match logged with
  | Ok _ => saveData env sv
  | Throw _ => sv
  end.

(** ws.on('message', (data) => { try { ... } catch (e) { } }): every
    exception inside is swallowed, with whatever was done before it. *)
Definition on_message (env : Env) (data : jsstring) (sv : Server) : Server :=
  match JSON_parse data with
  | None => sv                                   (* Ignore parse errors *)
  | Some msg =>
      match get "type" msg with
      | Throw _ => sv
      | Ok ty =>
          let entry := get_opt "data" msg in
          if is_str "console_error" ty then
            log_and_save env (logError entry)
              (with_errors (push_capped 100 entry (errors (capturedData sv))) sv)
          else if is_str "network_request" ty then
            log_and_save env (logNetwork entry)
              (with_network (push_capped 200 entry (network (capturedData sv))) sv)
          else if is_str "network_response" ty then
            log_and_save env (logNetwork entry)
              (with_network (push_capped 200 entry (network (capturedData sv))) sv)
          else if is_str "network_failure" ty then
            log_and_save env (logNetwork entry)
              (with_network (network (capturedData sv) ++ [entry]) sv)
          else sv
      end
  end.

Definition json_response (code : Z) (body : jsstring) : Response :=
  {| statusCode := code; contentType := Some (str "application/json");
     content := body |}.

(** The path of the request: req.url.split('?')[0]. *)
Definition path_of (u : jsstring) : jsstring := hd [] (split 63 u).

Definition cleared : CapturedData :=
  {| errors := []; network := []; lastUpdate := None; pageUrl := None |}.

(** The try block of POST /ingest: the store it leaves, and whether it ran
    to its end or threw. *)
Definition ingest (env : Env) (body : jsstring) (sv : Server) : Server * outcome unit :=
  match JSON_parse body with
  | None => (sv, Throw SyntaxError)
  | Some msg =>
      match get "type" msg with
      | Throw e => (sv, Throw e)
      | Ok ty =>
          let entry := get_opt "data" msg in
          if is_str "server_error" ty && truthy entry then
            let sv := with_errors (push_capped 100 entry (errors (capturedData sv))) sv in
            match logServerError entry with
            | Ok _ => (saveData env sv, Ok tt)
            | Throw e => (sv, Throw e)
            end
          else (sv, Ok tt)
      end
  end.

(** http.createServer((req, res) => { ... }); a POST /ingest is answered
    once its body has been read. The result is the store the handler
    leaves and its answer; an exception in place of the answer is one that
    leaves the handler uncaught, which ends the process. *)
Definition handle (env : Env) (req : Request) (sv : Server) : Server * outcome Response :=
  if jsstring_eqb (req_method req) (str "OPTIONS") then
    (sv, Ok {| statusCode := 204; contentType := None; content := [] |})
  else
    let url := path_of (req_url req) in
    if jsstring_eqb url (str "/ingest") && jsstring_eqb (req_method req) (str "POST")
    then
      match ingest env (req_body req) sv with
      | (sv', Ok _) => (sv', Ok (json_response 200 SUCCESS))
      | (sv', Throw _) => (sv', Ok (json_response 400 INVALID_JSON))
      end
    else if jsstring_eqb url (str "/") || jsstring_eqb url (str "/data") then
      (sv, Ok (json_response 200 (stringify_data (capturedData sv))))
    else if jsstring_eqb url (str "/errors") then
      (sv, Ok (json_response 200 (stringify_errors (errors (capturedData sv)))))
    else if jsstring_eqb url (str "/network") then
      (sv, Ok (json_response 200 (stringify_network (network (capturedData sv)))))
    else if jsstring_eqb url (str "/summary") then
      match generateSummary env (capturedData sv) with
      | Ok summary =>
          (sv, Ok {| statusCode := 200; contentType := Some (str "text/markdown");
                     content := summary |})
      | Throw e => (sv, Throw e)
      end
    else if jsstring_eqb url (str "/clear") then
      (saveData env {| capturedData := cleared; files := files sv |},
       Ok (json_response 200 DATA_CLEARED))
    else (sv, Ok (json_response 404 NOT_FOUND)).

End Server.

(** The server as it starts: nothing captured; the data files hold
    whatever an earlier run left. *)
Definition server_start (fs : Files) : Server :=
  {| capturedData := cleared; files := fs |}.

Definition server_init : Server :=
  server_start {| DATA_FILE := None; PROJECT_DATA_FILE := None |}.

End Bridge.

(* ===================================================================== *)
(** * inject.js: the early capture agent *)
(* ===================================================================== *)

Module Early.

(** An entry of window.__CLAUDE_EARLY_ERRORS__: the captured payload with
    the capture time and the page URL added. *)
Record EarlyError : Type := {
  data : Content.ErrorData;
  timestamp : jsstring;           (* new Date().toISOString() *)
  url : jsstring                  (* window.location.href *)
}.

(** The page side: the early buffer, and the payloads posted to the content
    script with window.postMessage, oldest first. *)
Record Page : Type := {
  earlyErrors : list EarlyError;
  posted : list Content.ErrorData
}.

(** function captureError(errorData) *)
Definition captureError (now href : jsstring) (errorData : Content.ErrorData)
    (p : Page) : Page :=
  {| earlyErrors :=
       (* Keep only last 50 early errors *)
       push_capped 50 {| data := errorData; timestamp := now; url := href |}
                   (earlyErrors p);
     posted := posted p ++ [errorData] |}.

Definition page_init : Page := {| earlyErrors := []; posted := [] |}.

End Early.

(* ===================================================================== *)
(** * The background service worker: bodies, commands and tab lifecycle *)
(* ===================================================================== *)

Module Service.
Import Background.

(** function truncateBody(body) *)
Definition truncateBody (body : option jsstring) : option jsstring :=
  match truthy_str body with
  | None => None
  | Some b =>
      if (5000 <? length b)%nat
      then Some (firstn 5000 b ++ str "... [truncated]")
      else Some b
  end.

(** map.get(tabId) || [] where the tab id may be undefined. *)
Definition get_tab {A : Type} (m : gmap Z (list A)) (tabId : option Z) : list A :=
  match tabId with
  | Some t => default [] (m !! t)
  | None => []
  end.

(** Commands from the bridge, by their [type]. *)
Inductive command : Type :=
| get_errors | get_network | get_all | clear | start_capture | other_command.

Record BridgeCommand : Type := {
  cmd : command;
  cmd_tabId : option Z;                (* message.tabId *)
  cmd_requestId : option jsstring      (* message.requestId *)
}.

(** What handleBridgeMessage hands to sendToBridge. *)
Inductive reply : Type :=
| errors_reply (requestId : option jsstring) (data : list Content.FormattedError)
| network_reply (requestId : option jsstring) (data : list Net.NetEvent)
| all_data (requestId : option jsstring) (errors : list Content.FormattedError)
    (network : list Net.NetEvent)
| cleared (requestId : option jsstring)
| capture_started (requestId : option jsstring).

(** message.tabId || await getActiveTabId(); [active] is the id of the
    active tab when there is one. *)
Definition resolve_tab (active : option Z) (message : BridgeCommand) : option Z :=
  match cmd_tabId message with
  | Some t => if (t =? 0)%Z then active else Some t
  | None => active
  end.

Definition with_buffers (es : gmap Z (list Content.FormattedError))
    (ns : gmap Z (list Net.NetEvent)) (ps : gmap jsstring Net.NetEvent)
    (w : Worker) : Worker :=
  {| allErrors := es; allNetworkRequests := ns; pendingRequests := ps;
     excludedResourceTypes := excludedResourceTypes w;
     excludedPatterns := excludedPatterns w;
     badge := badge w; body_fetches := body_fetches w; bridge := bridge w |}.

Definition with_badge (b : gmap Z (jsstring * jsstring)) (w : Worker) : Worker :=
  {| allErrors := allErrors w; allNetworkRequests := allNetworkRequests w;
     pendingRequests := pendingRequests w;
     excludedResourceTypes := excludedResourceTypes w;
     excludedPatterns := excludedPatterns w;
     badge := b; body_fetches := body_fetches w; bridge := bridge w |}.

(** async function handleBridgeMessage(message), from the point where the
    tab id is known, on the buffers of the worker: the new worker and the
    reply handed to sendToBridge, if any (it goes out when the bridge is
    open). start_capture only touches the debugger attachment, which is not
    part of [Worker]. A command for no tab at all updates the badge of no
    tab in particular, which [Worker] does not record either. *)
Definition handleBridgeMessage (active : option Z) (message : BridgeCommand)
    (w : Worker) : Worker * option reply :=
  let tabId := resolve_tab active message in
  let requestId := cmd_requestId message in
  match cmd message with
  | get_errors => (w, Some (errors_reply requestId (get_tab (allErrors w) tabId)))
  | get_network =>
      (w, Some (network_reply requestId (get_tab (allNetworkRequests w) tabId)))
  | get_all =>
      (w, Some (all_data requestId (get_tab (allErrors w) tabId)
                         (get_tab (allNetworkRequests w) tabId)))
  | clear =>
      let w :=
        match tabId with
        | Some t =>
            updateBadge t
              (with_buffers (delete t (allErrors w)) (delete t (allNetworkRequests w))
                            ∅ w)
        | None => with_buffers (allErrors w) (allNetworkRequests w) ∅ w
        end in
      (w, Some (cleared requestId))
  | start_capture => (w, Some (capture_started requestId))
  | other_command => (w, None)
  end.

(** chrome.tabs.onRemoved *)
Definition onRemoved (tabId : Z) (w : Worker) : Worker :=
  with_buffers (delete tabId (allErrors w)) (delete tabId (allNetworkRequests w))
               (pendingRequests w) w.

(** chrome.tabs.onUpdated with changeInfo.status === 'loading': the buffers
    of the tab go, and the text of its badge is emptied (its colour stays;
    an empty colour stands for the one the browser starts with). *)
Definition onUpdated_loading (tabId : Z) (w : Worker) : Worker :=
  with_badge
    (<[tabId := ([] : jsstring, default [] (snd <$> badge w !! tabId))]> (badge w))
    (with_buffers (delete tabId (allErrors w)) (delete tabId (allNetworkRequests w))
                  (pendingRequests w) w).

(** The keys of message.patterns that are present. *)
Record PatternsPatch : Type := {
  patch_base64 : option bool;
  patch_fonts : option bool;
  patch_images : option bool;
  patch_sourcemaps : option bool
}.

(** { ...excludedPatterns, ...message.patterns } *)
Definition merge_patterns (old : Patterns) (patch : PatternsPatch) : Patterns :=
  {| base64 := default (base64 old) (patch_base64 patch);
     fonts := default (fonts old) (patch_fonts patch);
     images := default (images old) (patch_images patch);
     sourcemaps := default (sourcemaps old) (patch_sourcemaps patch) |}.

(** Messages of the popup to chrome.runtime.onMessage that act on the
    buffers and settings. *)
Inductive runtime_msg : Type :=
| GET_TAB_ERRORS (tabId : Z)
| GET_TAB_NETWORK (tabId : Z)
| CLEAR_TAB_ERRORS (tabId : Z)
| CLEAR_TAB_NETWORK (tabId : Z)
| GET_ALL_DATA (tabId : Z)
| GET_EXCLUSION_SETTINGS
| SET_EXCLUSION_SETTINGS (resourceTypes : option (gmap jsstring bool))
    (patterns : option PatternsPatch).

Inductive runtime_reply : Type :=
| reply_errors (errors : list Content.FormattedError)
| reply_requests (requests : list Net.NetEvent)
| reply_all (errors : list Content.FormattedError) (network : list Net.NetEvent)
| reply_settings (resourceTypes : gmap jsstring bool) (patterns : Patterns)
| reply_success.

Definition with_settings (types : gmap jsstring bool) (patterns : Patterns)
    (w : Worker) : Worker :=
  {| allErrors := allErrors w; allNetworkRequests := allNetworkRequests w;
     pendingRequests := pendingRequests w;
     excludedResourceTypes := types; excludedPatterns := patterns;
     badge := badge w; body_fetches := body_fetches w; bridge := bridge w |}.

(** chrome.runtime.onMessage.addListener, for the messages above. *)
Definition onMessage (message : runtime_msg) (w : Worker) : Worker * runtime_reply :=
  match message with
  | GET_TAB_ERRORS t => (w, reply_errors (default [] (allErrors w !! t)))
  | GET_TAB_NETWORK t => (w, reply_requests (default [] (allNetworkRequests w !! t)))
  | CLEAR_TAB_ERRORS t =>
      (updateBadge t
         (with_buffers (delete t (allErrors w)) (allNetworkRequests w)
                       (pendingRequests w) w),
       reply_success)
  | CLEAR_TAB_NETWORK t =>
      (with_buffers (allErrors w) (delete t (allNetworkRequests w))
                    (pendingRequests w) w,
       reply_success)
  | GET_ALL_DATA t =>
      (w, reply_all (default [] (allErrors w !! t))
                    (default [] (allNetworkRequests w !! t)))
  | GET_EXCLUSION_SETTINGS =>
      (w, reply_settings (excludedResourceTypes w) (excludedPatterns w))
  | SET_EXCLUSION_SETTINGS resourceTypes patterns =>
      let types :=
        match resourceTypes with
        | Some patch => patch ∪ excludedResourceTypes w
        | None => excludedResourceTypes w
        end in
      let pats :=
        match patterns with
        | Some patch => merge_patterns (excludedPatterns w) patch
        | None => excludedPatterns w
        end in
      (with_settings types pats w, reply_success)
  end.

End Service.

(* ===================================================================== *)
(** * popup.js: the filter form and the network list *)
(* ===================================================================== *)

Module Popup.

(** The checkboxes of the filter form; one is absent when its element is
    missing from the document. *)
Record FilterForm : Type := {
  excludeFont : option bool;
  excludeImage : option bool;
  excludeStylesheet : option bool;
  excludeScript : option bool;
  excludeMedia : option bool;
  excludeBase64 : option bool;
  excludeSourcemaps : option bool
}.

(** async function saveExclusionSettings(): the message sent to the worker. *)
Definition saveExclusionSettings (form : FilterForm) : Service.runtime_msg :=
  Service.SET_EXCLUSION_SETTINGS
    (Some (<[str "Font" := default true (excludeFont form)]>
           (<[str "Image" := default true (excludeImage form)]>
           (<[str "Stylesheet" := default false (excludeStylesheet form)]>
           (<[str "Script" := default false (excludeScript form)]>
           (<[str "Media" := default true (excludeMedia form)]> ∅))))))
    (Some {| Service.patch_base64 := Some (default true (excludeBase64 form));
             Service.patch_fonts := Some (default true (excludeFont form));
             Service.patch_images := Some (default true (excludeImage form));
             Service.patch_sourcemaps := Some (default true (excludeSourcemaps form)) |}).

(** function truncateBody(body) of the popup *)
Definition truncateBody (body : option jsstring) : jsstring :=
  match truthy_str body with
  | None => []
  | Some b => if (500 <? length b)%nat then firstn 500 b ++ str "..." else b
  end.

(** The options of the network tab. *)
Record NetworkOptions : Type := {
  showRequests : bool;
  showResponses : bool;
  onlyFetch : bool;
  onlyErrors : bool;
  networkFilter : jsstring          (* networkFilter.value *)
}.

Section List.
Variable toLowerCase : jsstring -> jsstring.

(** The items renderNetwork shows: the [filtered] list it builds. *)
Definition filtered (o : NetworkOptions) (currentNetwork : list Net.NetEvent)
    : list Net.NetEvent :=
  let filter := toLowerCase (networkFilter o) in
  (* Filter by type *)
  let items :=
    List.filter (fun item =>
      if Net.net_type_eqb (Net.type item) Net.request && negb (showRequests o)
      then false
      else if Net.net_type_eqb (Net.type item) Net.response && negb (showResponses o)
      then false
      else true) currentNetwork in
  (* Filter fetch/XHR only *)
  let items :=
    if onlyFetch o then
      List.filter (fun item =>
        bool_decide (Net.resourceType item = Some (str "Fetch"))
        || bool_decide (Net.resourceType item = Some (str "XHR"))
        || Net.net_type_eqb (Net.type item) Net.response
        || Net.net_type_eqb (Net.type item) Net.failure) items
    else items in
  (* Filter errors only *)
  let items := if onlyErrors o then List.filter Net.is_failed items else items in
  (* URL filter *)
  match filter with
  | [] => items
  | _ => List.filter (fun item =>
           includes filter (toLowerCase (default [] (truthy_str (Net.url item)))))
         items
  end.

End List.

End Popup.

(* ===================================================================== *)
(** * content.js: messages of the page and of the extension *)
(* ===================================================================== *)

Module ContentScript.
Import Content.

(** A message event on the window, by what the listener reads of it. *)
Inductive page_message : Type :=
| from_other_source                           (* event.source !== window *)
| console_error_message (error : ErrorData)   (* type __CLAUDE_CONSOLE_ERROR__ *)
| other_message.

(** window.addEventListener('message', ...): errors from the injected page
    script. *)
Definition on_window_message (toUpperCase : jsstring -> jsstring) (env : Env)
    (event : page_message) (a : Agent) : Agent :=
  match event with
  | from_other_source => a
  | console_error_message error => addError toUpperCase env error a
  | other_message => a
  end.

Inductive content_msg : Type := GET_ERRORS | CLEAR_ERRORS | PING | other_runtime_msg.

Inductive content_reply : Type :=
| reply_errors (errors : list FormattedError)
| reply_success
| reply_status (errorCount : nat).       (* { status: 'active', errorCount } *)

(** chrome.runtime.onMessage.addListener of the content script. *)
Definition on_runtime_message (message : content_msg) (a : Agent)
    : Agent * option content_reply :=
  match message with
  | GET_ERRORS => (a, Some (reply_errors (errors a)))
  | CLEAR_ERRORS =>
      (* errors.length = 0 *)
      ({| errors := []; sent := sent a; console := console a |}, Some reply_success)
  | PING => (a, Some (reply_status (length (errors a))))
  | other_runtime_msg => (a, None)
  end.

(** The state the script starts in. *)
Definition agent_start : Agent := {| errors := []; sent := []; console := [] |}.

End ContentScript.

(* ===================================================================== *)
(** * Vocabulary of the statements *)
(* ===================================================================== *)

Local Open Scope nat_scope.

(** ** The server on a platform *)

(** The platform functions the server is run with. *)
Record Platform : Type := {
  toUpperCase : jsstring -> jsstring;
  URL_path : jsstring -> option jsstring;
  Number_toString : Json.number -> jsstring;
  StringToNumber : jsstring -> option Json.number;
  stringify_data : Bridge.CapturedData -> jsstring;
  stringify_errors : list Json.jsval -> jsstring;
  stringify_network : list Json.jsval -> jsstring;
  JSON_parse : jsstring -> option Json.jsval
}.

(** The functions of the server on a platform. *)
Module Node.
Section On.
Variable P : Platform.

Definition text := Bridge.text (Number_toString P).
Definition truncateUrl := Bridge.truncateUrl (URL_path P) (Number_toString P).
Definition status_icon := Bridge.status_icon (Number_toString P) (StringToNumber P).
Definition logError := Bridge.logError (toUpperCase P).
Definition logServerError := Bridge.logServerError (toUpperCase P) (Number_toString P).
Definition logNetwork :=
  Bridge.logNetwork (URL_path P) (Number_toString P) (StringToNumber P).
Definition saveData := Bridge.saveData (stringify_data P).
Definition is_failed := Bridge.is_failed (Number_toString P) (StringToNumber P).
Definition failed_requests :=
  Bridge.failed_requests (Number_toString P) (StringToNumber P).
Definition request_line :=
  Bridge.request_line (URL_path P) (Number_toString P) (StringToNumber P).
Definition generateSummary :=
  Bridge.generateSummary (toUpperCase P) (URL_path P) (Number_toString P)
    (StringToNumber P).
Definition on_message :=
  Bridge.on_message (toUpperCase P) (URL_path P) (Number_toString P) (StringToNumber P)
    (stringify_data P) (JSON_parse P).
Definition ingest :=
  Bridge.ingest (toUpperCase P) (Number_toString P) (stringify_data P) (JSON_parse P).
Definition handle :=
  Bridge.handle (toUpperCase P) (URL_path P) (Number_toString P) (StringToNumber P)
    (stringify_data P) (stringify_errors P) (stringify_network P) (JSON_parse P).

End On.
End Node.

(** ** Sample surroundings, used to exercise the statements *)

Module Sample.
Import Json Bridge.

Definition upper (s : jsstring) : jsstring := List.map fold_case s.
(** The URL reader of the samples: a text that starts with a slash is its
    own path, anything else is not a URL. *)
Definition url_path (u : jsstring) : option jsstring :=
  match u with
  | 47%N :: _ => Some u
  | _ => None
  end.

(** Number texts of the samples: the integer part of a finite number. *)
Definition number_text (n : number) : jsstring :=
  match n with
  | Finite q => js_of_Z (QArith_base.Qnum q / Z.pos (QArith_base.Qden q))
  | Infinite negative => if negative then str "-Infinity" else str "Infinity"
  end.

(** Numbers read from the sample texts: runs of decimal digits. *)
Definition string_number (s : jsstring) : option number :=
  if forallb is_digit s
  then Some (number_of_Z (fold_left (fun acc c => acc * 10 + (Z.of_N c - 48))%Z s 0%Z))
  else None.

Definition show_data (d : CapturedData) : jsstring :=
  js_of_nat (length (errors d)) ++ str "/" ++ js_of_nat (length (network d))
  ++ str "@" ++ default [] (lastUpdate d).
Definition show_errors (es : list jsval) : jsstring := js_of_nat (length es).
Definition show_network (ns : list jsval) : jsstring := js_of_nat (length ns).

Definition net_event (t : Net.net_type) (rid : string) (u : option jsstring)
    (st : option Z) : Net.NetEvent :=
  {| Net.id := str rid; Net.type := t; Net.timestamp := str "2024-01-01T00:00:00.000Z";
     Net.url := u; Net.method := match t with Net.request => Some (str "GET") | _ => None end;
     Net.status := st; Net.body := None;
     Net.errorText := match t with Net.failure => Some (str "net::ERR_FAILED") | _ => None end;
     Net.resourceType := None; Net.other := [] |}.

Definition field (name : string) (v : option jsval) : list (jsstring * jsval) :=
  match v with
  | Some x => [(str name, x)]
  | None => []
  end.

(** An event of the interceptor as the server reads it back from the
    frame: the properties that are present. *)
Definition json_of (n : Net.NetEvent) : jsval :=
  VObject
    ([(str "id", VString (Net.id n));
      (str "type", VString (match Net.type n with
                            | Net.request => str "request"
                            | Net.response => str "response"
                            | Net.failure => str "failure"
                            end));
      (str "timestamp", VString (Net.timestamp n))]
     ++ field "url" (option_map VString (Net.url n))
     ++ field "method" (option_map VString (Net.method n))
     ++ field "status" (option_map (fun z => VNumber (number_of_Z z)) (Net.status n))
     ++ field "body" (option_map VString (Net.body n))
     ++ field "errorText" (option_map VString (Net.errorText n))
     ++ field "resourceType" (option_map VString (Net.resourceType n))).

Definition message (ty : string) (data : jsval) : jsval :=
  VObject [(str "type", VString (str ty)); (str "data", data)].

(** A console error of the content script with the given message. *)
Definition console_entry (m : jsstring) : jsval :=
  VObject [(str "raw", VObject [(str "type", VString (str "error"));
                                (str "message", VString m)]);
           (str "cleaned", VString m)].

(** The text of a server_error message whose data has the number 5 for
    its cleaned property. *)
Definition NUMBER_CLEANED : jsstring :=
  str "{" ++ quoted "type" ++ str ":" ++ quoted "server_error" ++ str ","
  ++ quoted "data" ++ str ":{" ++ quoted "cleaned" ++ str ":5}}".

(** The text of a console_error message without data. *)
Definition NO_DATA : jsstring :=
  str "{" ++ quoted "type" ++ str ":" ++ quoted "console_error" ++ str "}".

(** A decoder for the sample texts: null, the empty object, the two texts
    above, and frames of the form <letter><text>: q for a request, p for a
    response with status 500, f for a failure, c for a console error; the
    text is the URL of a request or response (the correlation id is 1) or
    the message of the error. Anything else is not JSON. *)
Definition parse (data : jsstring) : option jsval :=
  if jsstring_eqb data (str "null") then Some VNull
  else if jsstring_eqb data (str "{}") then Some (VObject [])
  else if jsstring_eqb data NUMBER_CLEANED then
    Some (message "server_error" (VObject [(str "cleaned", VNumber (number_of_Z 5))]))
  else if jsstring_eqb data NO_DATA then
    Some (VObject [(str "type", VString (str "console_error"))])
  else
    match data with
    | 113%N :: u =>
        Some (message "network_request" (json_of (net_event Net.request "1" (Some u) None)))
    | 112%N :: u =>
        Some (message "network_response"
                (json_of (net_event Net.response "1" (Some u) (Some 500%Z))))
    | 102%N :: _ =>
        Some (message "network_failure" (json_of (net_event Net.failure "1" None None)))
    | 99%N :: m => Some (message "console_error" (console_entry m))
    | _ => None
    end.

Definition platform : Platform :=
  {| toUpperCase := upper; URL_path := url_path; Number_toString := number_text;
     StringToNumber := string_number; stringify_data := show_data;
     stringify_errors := show_errors; stringify_network := show_network;
     JSON_parse := parse |}.

Definition env : Env :=
  {| now := str "2024-01-01T00:00:00.000Z"; cwd := str "/srv/app";
     home_write_ok := true; project_write_ok := true |}.

Definition on_message := Node.on_message platform.
Definition handle := Node.handle platform.
Definition get (path : string) : Request :=
  {| req_method := str "GET"; req_url := str path; req_body := [] |}.
End Sample.

Definition GET : jsstring := str "GET".
Definition POST : jsstring := str "POST".

(** What the ingest handler tests of a parsed body: msg.type ===
    'server_error' && msg.data. *)
Definition is_server_error (m : Json.jsval) : bool :=
  Json.is_str "server_error" (Json.get_opt "type" m)
  && Json.truthy (Json.get_opt "data" m).

Definition ingest (text : jsstring) : Bridge.Request :=
  {| Bridge.req_method := POST; Bridge.req_url := str "/ingest";
     Bridge.req_body := text |}.

(** url === '/ingest' && req.method === 'POST' *)
Definition is_ingest (req : Bridge.Request) : bool :=
  jsstring_eqb (Bridge.path_of (Bridge.req_url req)) (str "/ingest")
  && jsstring_eqb (Bridge.req_method req) POST.

(** The status code of an answer, if the handler gave one. *)
Definition status_of (answer : outcome Bridge.Response) : option Z :=
  match answer with
  | Ok r => Some (Bridge.statusCode r)
  | Throw _ => None
  end.

Module SampleAgent.
Import Content.

Definition env_at (t : Z) : Env :=
  {| nowAt := fun _ => t; stamp := t; href := str "http://localhost:3000/";
     runtime_ok := true; here_stack := str "Error" ++ [10%N] ++ str "    at <anonymous>:1:1" |}.

Definition error_data (m : string) : ErrorData :=
  {| type := Some (str "error"); message := Some (str m); stack := None;
     componentStack := None; source := None; lineno := None; colno := None |}.

Definition agent_init : Agent := {| errors := []; sent := []; console := [] |}.

Definition addError := Content.addError Sample.upper.
Definition console_error := Content.console_error Sample.upper.
End SampleAgent.


(** [matches r m rest]: the pattern [r] can consume [m] when [rest] is
    what follows in the input. *)
Inductive matches : regex -> jsstring -> jsstring -> Prop :=
| m_empty rest : matches Empty [] rest
| m_char p c rest : p c = true -> matches (Char p) [c] rest
| m_seq r1 r2 m1 m2 rest :
    matches r1 m1 (m2 ++ rest) -> matches r2 m2 rest ->
    matches (Seq r1 r2) (m1 ++ m2) rest
| m_alt_l r1 r2 m rest : matches r1 m rest -> matches (Alt r1 r2) m rest
| m_alt_r r1 r2 m rest : matches r2 m rest -> matches (Alt r1 r2) m rest
| m_rep p min m rest :
    forallb p m = true -> min <= length m -> matches (Rep p min) m rest
| m_ahead r m rest : matches r m rest -> matches (Ahead r) [] (m ++ rest)
| m_eos : matches Eos [] [].

Definition folded (s : jsstring) : jsstring := List.map fold_case s.

(** Patterns made of case-insensitive literals, alternatives and [$] only:
    a syntax for them, the pattern each one stands for, and the finite list
    of (case-folded) texts it accepts, each with a flag telling whether the
    input must end there. *)
Inductive literal_pattern : Type :=
| LEmpty
| LChar (c : N)
| LSeq (a b : literal_pattern)
| LAlt (a b : literal_pattern)
| LEos.

Fixpoint denote (r : literal_pattern) : regex :=
  match r with
  | LEmpty => Empty
  | LChar c => Char (eq_char_i c)
  | LSeq a b => Seq (denote a) (denote b)
  | LAlt a b => Alt (denote a) (denote b)
  | LEos => Eos
  end.

Fixpoint words (r : literal_pattern) : list (jsstring * bool) :=
  match r with
  | LEmpty => [([] : jsstring, false)]
  | LChar c => [([fold_case c], false)]
  | LSeq a b =>
      flat_map (fun w1 : jsstring * bool =>
        flat_map (fun w2 : jsstring * bool =>
          if snd w1 then match fst w2 with
                         | [] => [(fst w1, true)]
                         | _ :: _ => []
                         end
          else [(fst w1 ++ fst w2, snd w2)]) (words b)) (words a)
  | LAlt a b => words a ++ words b
  | LEos => [([] : jsstring, true)]
  end.

Definition accepts (we : jsstring * bool) (m rest : jsstring) : Prop :=
  folded m = fst we /\ (snd we = true -> rest = []).

Definition llit (s : string) : literal_pattern :=
  fold_right (fun c r => LSeq (LChar c) r) LEmpty (str s).
Definition LOpt (r : literal_pattern) : literal_pattern := LAlt r LEmpty.
Fixpoint lseqs (rs : list literal_pattern) : literal_pattern :=
  match rs with
  | [] => LEmpty
  | [r] => r
  | r :: rs' => LSeq r (lseqs rs')
  end.
Fixpoint lalts (rs : list literal_pattern) : literal_pattern :=
  match rs with
  | [] => LEmpty
  | [r] => r
  | r :: rs' => LAlt r (lalts rs')
  end.

Definition FONT_L : literal_pattern :=
  lseqs [llit ".";
         lalts [LSeq (llit "woff") (LOpt (llit "2")); llit "ttf"; llit "eot"; llit "otf"];
         LAlt (llit "?") LEos].
Definition IMAGE_L : literal_pattern :=
  lseqs [llit ".";
         lalts [llit "png"; lseqs [llit "jp"; LOpt (llit "e"); llit "g"]; llit "gif";
                llit "svg"; llit "webp"; llit "ico"; llit "bmp"; llit "avif"];
         LAlt (llit "?") LEos].
Definition MAP_L : literal_pattern := lseqs [llit ".map"; LAlt (llit "?") LEos].

(** The URL carries one of the extensions: a dot, the extension in any
    letter case, and then the end of the URL or a question mark. *)
Definition has_extension (exts : list string) (u : jsstring) : Prop :=
  exists pre e rest ext,
    u = pre ++ [46%N] ++ e ++ rest /\ In ext exts /\ folded e = folded (str ext)
    /\ (rest = [] \/ exists q, rest = 63%N :: q).

Definition FONT_EXTENSIONS : list string := ["woff"; "woff2"; "ttf"; "eot"; "otf"]%string.
Definition IMAGE_EXTENSIONS : list string :=
  ["png"; "jpg"; "jpeg"; "gif"; "svg"; "webp"; "ico"; "bmp"; "avif"]%string.
Definition MAP_EXTENSIONS : list string := ["map"]%string.

Definition ext_words (exts : list string) : list (jsstring * bool) :=
  flat_map (fun ext => [(46%N :: folded (str ext) ++ [63%N], false);
                        (46%N :: folded (str ext), true)]) exts.

Definition incl_b (l1 l2 : list (jsstring * bool)) : bool :=
  forallb (fun x => existsb (fun y => bool_decide (x = y)) l2) l1.

(** The request entry the listener builds for Network.requestWillBeSent. *)
Definition request_entry (requestId : jsstring) (ty : option jsstring)
    (url method rest now : jsstring) : Net.NetEvent :=
  {| Net.id := requestId; Net.type := Net.request; Net.timestamp := now;
     Net.url := Some url; Net.method := Some method;
     Net.status := None; Net.body := None; Net.errorText := None;
     Net.resourceType := ty; Net.other := rest |}.

(** No suffix of [s] has a match of [r] at its head. *)
Definition unmatched (r : regex) (s : jsstring) : Prop :=
  forall pre t, s = pre ++ t -> exec_at r t = None.

(** [needs bad r]: every text [r] consumes contains a code unit of [bad]. *)
Fixpoint needs (bad : N -> bool) (r : regex) : Prop :=
  match r with
  | Char p => forall c, p c = true -> bad c = true
  | Seq r1 r2 => needs bad r1 \/ needs bad r2
  | Alt r1 r2 => needs bad r1 /\ needs bad r2
  | Rep p min => 1 <= min /\ forall c, p c = true -> bad c = true
  | Empty | Ahead _ | Eos => False
  end.

Definition free_of (bad : N -> bool) (s : jsstring) : bool :=
  forallb (fun c => negb (bad c)) s.

Definition head_space (s : jsstring) : bool :=
  match s with
  | c :: _ => is_space c
  | [] => false
  end.

(** No two adjacent whitespace code units. *)
Fixpoint no_ws_pair (s : jsstring) : bool :=
  match s with
  | [] => true
  | c :: s' => negb (is_space c && head_space s') && no_ws_pair s'
  end.

Definition WS2 : regex := Rep is_space 2.
Definition collapse (s : jsstring) : jsstring := replace_all WS2 (str " ") s.

(** [g] returns its argument or something strictly shorter. *)
Definition shrinking (g : jsstring -> jsstring) : Prop :=
  forall s, length (g s) <= length s /\ (length (g s) = length s -> g s = s).

(** The code units the removal rules key on: every rule other than the
    whitespace ones consumes at least one of them. *)
Definition RULE_KEYS : jsstring := str "([@/_.".
Definition is_key (c : N) : bool := existsb (N.eqb c) RULE_KEYS.

Ltac key_class :=
  let c := fresh "c" in
  let H := fresh "H" in
  intros c H; unfold eq_char in H; apply N.eqb_eq in H; subst c; reflexivity.

Ltac find_key := first [ key_class | left; find_key | right; find_key ].

(** ** Runs of the bridge server *)

(** What reaches the server: a WebSocket frame of the extension, or an HTTP
    request (a POST /ingest once its body has been read). *)
Inductive server_event : Type :=
| Frame (env : Bridge.Env) (data : jsstring)
| Http (env : Bridge.Env) (req : Bridge.Request).

Definition event_env (e : server_event) : Bridge.Env :=
  match e with
  | Frame env _ => env
  | Http env _ => env
  end.

(** The server process: its store and files, and whether it still runs
    (an exception that leaves a handler uncaught ends it). *)
Record Process : Type := {
  server : Bridge.Server;
  running : bool
}.

Section ServerRuns.
Variable P : Platform.

Definition server_step (p : Process) (e : server_event) : Process :=
  if running p then
    match e with
    | Frame env data =>
        {| server := Node.on_message P env data (server p); running := true |}
    | Http env req =>
        {| server := fst (Node.handle P env req (server p));
           running := match snd (Node.handle P env req (server p)) with
                      | Ok _ => true
                      | Throw _ => false
                      end |}
    end
  else p.

(** A run from the start, with the data files as an earlier run left them. *)
Definition server_run (fs : Bridge.Files) (evs : list server_event) : Process :=
  fold_left server_step evs {| server := Bridge.server_start fs; running := true |}.

(** The type of the message a frame decodes to. *)
Definition frame_type (data : jsstring) : Json.jsval :=
  match JSON_parse P data with
  | Some msg => Json.get_opt "type" msg
  | None => Json.VUndefined
  end.

(** The frames that decode to a network_failure message. *)
Definition is_failure_frame (e : server_event) : bool :=
  match e with
  | Frame _ data => Json.is_str "network_failure" (frame_type data)
  | Http _ _ => false
  end.

(** The logger returns on the entry the event stores, if it stores one:
    the event then ends in saveData. *)
Definition logged (e : server_event) : bool :=
  match e with
  | Frame _ data =>
      let entry := match JSON_parse P data with
                   | Some msg => Json.get_opt "data" msg
                   | None => Json.VUndefined
                   end in
      if Json.is_str "console_error" (frame_type data) then
        match Node.logError P entry with Ok _ => true | Throw _ => false end
      else if Json.is_str "network_request" (frame_type data)
              || Json.is_str "network_response" (frame_type data)
              || Json.is_str "network_failure" (frame_type data) then
        match Node.logNetwork P entry with Ok _ => true | Throw _ => false end
      else true
  | Http _ req =>
      match JSON_parse P (Bridge.req_body req) with
      | Some msg =>
          if is_ingest req && is_server_error msg then
            match Node.logServerError P (Json.get_opt "data" msg) with
            | Ok _ => true
            | Throw _ => false
            end
          else true
      | None => true
      end
  end.

End ServerRuns.

(** Both writes of saveData go through. *)
Definition writes_ok (env : Bridge.Env) : Prop :=
  Bridge.home_write_ok env = true /\ Bridge.project_write_ok env = true.

(** Both data files hold the text of the store. *)
Definition mirrored (P : Platform) (sv : Bridge.Server) : Prop :=
  Bridge.DATA_FILE (Bridge.files sv)
    = Some (stringify_data P (Bridge.capturedData sv))
  /\ Bridge.PROJECT_DATA_FILE (Bridge.files sv)
      = Some (stringify_data P (Bridge.capturedData sv)).

(** [m] is a response with the URL of [r]: what the summary looks for. *)
Definition answers (r m : Json.jsval) : bool :=
  Json.is_str "response" (Json.get_opt "type" m)
  && Json.strict_eq (Json.get_opt "url" m) (Json.get_opt "url" r).

(** ** Runs of the service worker *)

Inductive worker_event : Type :=
| DebuggerEvent (tabId : Z) (now : jsstring) (ev : Background.debugger_event)
| ErrorCaptured (tabId : Z) (error : Content.FormattedError)
| RuntimeMessage (message : Service.runtime_msg)
| TabRemoved (tabId : Z)
| TabLoading (tabId : Z)
| Command (active : option Z) (message : Service.BridgeCommand)
| Connection (e : Background.bridge_event).

Definition worker_step (w : Background.Worker) (e : worker_event)
    : Background.Worker :=
  match e with
  | DebuggerEvent tabId now ev => Background.onEvent tabId now ev w
  | ErrorCaptured tabId error => Background.onErrorCaptured tabId error w
  | RuntimeMessage message => fst (Service.onMessage message w)
  | TabRemoved tabId => Service.onRemoved tabId w
  | TabLoading tabId => Service.onUpdated_loading tabId w
  | Command active message => fst (Service.handleBridgeMessage active message w)
  | Connection e =>
      {| Background.allErrors := Background.allErrors w;
         Background.allNetworkRequests := Background.allNetworkRequests w;
         Background.pendingRequests := Background.pendingRequests w;
         Background.excludedResourceTypes := Background.excludedResourceTypes w;
         Background.excludedPatterns := Background.excludedPatterns w;
         Background.badge := Background.badge w;
         Background.body_fetches := Background.body_fetches w;
         Background.bridge := Background.bridge_step (Background.bridge w) e |}
  end.

(** The tab an event is about, if any. *)
Definition event_tab (e : worker_event) : option Z :=
  match e with
  | DebuggerEvent tabId _ _ => Some tabId
  | ErrorCaptured tabId _ => Some tabId
  | RuntimeMessage (Service.GET_TAB_ERRORS t) => Some t
  | RuntimeMessage (Service.GET_TAB_NETWORK t) => Some t
  | RuntimeMessage (Service.CLEAR_TAB_ERRORS t) => Some t
  | RuntimeMessage (Service.CLEAR_TAB_NETWORK t) => Some t
  | RuntimeMessage (Service.GET_ALL_DATA t) => Some t
  | RuntimeMessage _ => None
  | TabRemoved tabId => Some tabId
  | TabLoading tabId => Some tabId
  | Command active message => Service.resolve_tab active message
  | Connection _ => None
  end.

Definition is_clear_command (e : worker_event) : bool :=
  match e with
  | Command _ message =>
      match Service.cmd message with
      | Service.clear => true
      | _ => false
      end
  | _ => false
  end.

(** Network.loadingFailed events of a tab. *)
Definition is_failure_on (t : Z) (e : worker_event) : bool :=
  match e with
  | DebuggerEvent tabId _ (Background.loadingFailed _ _ _) => bool_decide (tabId = t)
  | _ => false
  end.

Definition tab_errors (w : Background.Worker) (t : Z) : list Content.FormattedError :=
  default [] (Background.allErrors w !! t).
Definition tab_network (w : Background.Worker) (t : Z) : list Net.NetEvent :=
  default [] (Background.allNetworkRequests w !! t).

(** The response entry the listener builds for Network.responseReceived. *)
Definition response_entry (requestId : jsstring) (url : jsstring) (status : Z)
    (rest now : jsstring) : Net.NetEvent :=
  {| Net.id := requestId; Net.type := Net.response; Net.timestamp := now;
     Net.url := Some url; Net.method := None;
     Net.status := Some status; Net.body := None; Net.errorText := None;
     Net.resourceType := None; Net.other := rest |}.

(** Reduction of the fields of the store and of the worker. *)
Ltac store_fields :=
  cbn [Bridge.errors Bridge.network Bridge.capturedData Bridge.files
       Bridge.saveData Bridge.with_errors Bridge.with_network Bridge.cleared
       Bridge.log_and_save Bridge.server_start fst snd].

Ltac worker_fields :=
  cbn [Background.allErrors Background.allNetworkRequests Background.pendingRequests
       Background.excludedResourceTypes Background.excludedPatterns
       Background.badge Background.body_fetches Background.bridge
       Background.set_requests Background.set_pending Background.set_errors
       Background.send Background.fetch_body Background.updateBadge
       Service.with_buffers Service.with_badge Service.with_settings fst snd].

(** ** Sample data of the service worker *)

Module SampleWorker.

Definition error (m : string) : Content.FormattedError :=
  {| Content.raw := SampleAgent.error_data m; Content.cleaned := str m;
     Content.timestamp := 0%Z; Content.url := str "http://localhost:3000/";
     Content.reactType := None |}.

Definition now : jsstring := str "2024-01-01T00:00:00.000Z".

Definition request (rid url : string) : Background.debugger_event :=
  Background.requestWillBeSent (str rid) (Some (str "Fetch")) (str url) (str "GET") [].

Definition response (rid : string) (ty : string) (url : string) (status : Z)
    : Background.debugger_event :=
  Background.responseReceived (str rid) (Some (str ty)) (str url) status [].

Definition clear_command (t : Z) : Service.BridgeCommand :=
  {| Service.cmd := Service.clear; Service.cmd_tabId := Some t;
     Service.cmd_requestId := Some (str "r1") |}.

Definition form : Popup.FilterForm :=
  {| Popup.excludeFont := Some false; Popup.excludeImage := Some true;
     Popup.excludeStylesheet := Some true; Popup.excludeScript := None;
     Popup.excludeMedia := Some false; Popup.excludeBase64 := Some false;
     Popup.excludeSourcemaps := Some true |}.

End SampleWorker.

(** A checkbox reads as ticked; [dflt] is what an absent one counts as. *)
Definition ticked (box : option bool) (dflt : bool) : Prop := default dflt box = true.

(** The resource types the filter form has a checkbox for. *)
Definition FORM_TYPES : list string :=
  ["Font"; "Image"; "Stylesheet"; "Script"; "Media"]%string.

(** ** Vocabulary of the content-script statements *)

(** The text contains the keyword, in any letter case. *)
Definition mentions (kw : string) (m : jsstring) : Prop :=
  exists pre w post, m = pre ++ w ++ post /\ folded w = folded (str kw).

Definition HYDRATION_KEYWORDS : list string :=
  ["hydrat"; "mismatch"; "text content does not match"]%string.
Definition HOOKS_KEYWORDS : list string :=
  ["hook"; "useState"; "useEffect"; "useRef"; "useMemo"; "useCallback";
   "useContext"; "useReducer"]%string.
Definition RENDER_KEYWORDS : list string :=
  ["render"; "component"; "element"; "jsx"; "Invalid prop"; "Failed prop"]%string.
Definition NEXTJS_KEYWORDS : list string :=
  ["getServerSideProps"; "getStaticProps"; "_app"; "_document"; "next/";
   "middleware"]%string.

(** The text contains one of the keywords, in any letter case. *)
Definition mentions_one (kws : list string) (m : jsstring) : Prop :=
  exists kw, In kw kws /\ mentions kw m.

(** The text has server and, later on the same line, client, in any
    letter case. *)
Definition server_then_client (m : jsstring) : Prop :=
  exists pre s mid c post,
    m = pre ++ s ++ mid ++ c ++ post
    /\ folded s = folded (str "server")
    /\ forallb Content.is_dot mid = true
    /\ folded c = folded (str "client").

(** What each of the four patterns looks for. *)
Definition hydration_like (m : jsstring) : Prop :=
  mentions_one HYDRATION_KEYWORDS m \/ server_then_client m.
Definition hooks_like (m : jsstring) : Prop := mentions_one HOOKS_KEYWORDS m.
Definition render_like (m : jsstring) : Prop := mentions_one RENDER_KEYWORDS m.
Definition nextjs_like (m : jsstring) : Prop := mentions_one NEXTJS_KEYWORDS m.

Definition is_ascii_letter (c : N) : bool := in_range 97 122 c || in_range 65 90 c.

(** One call of captureError in the page: the clock, the location and the
    payload. *)
Record capture : Type := {
  capture_now : jsstring;
  capture_href : jsstring;
  capture_data : Content.ErrorData
}.

Definition early_entry (c : capture) : Early.EarlyError :=
  {| Early.data := capture_data c; Early.timestamp := capture_now c;
     Early.url := capture_href c |}.

Definition early_run (calls : list capture) : Early.Page :=
  fold_left (fun p c => Early.captureError (capture_now c) (capture_href c)
                          (capture_data c) p)
            calls Early.page_init.

(** What the content script reacts to. *)
Inductive agent_event : Type :=
| ConsoleError (env : Content.Env) (args : list Content.jsarg)
| ConsoleWarn (env : Content.Env) (args : list Content.jsarg)
| WindowError (env : Content.Env) (event : Content.ErrorEvent)
| Rejection (env : Content.Env) (r : Content.reason)
| FiberRoot (env : Content.Env) (boundary : outcome (option Content.ErrorData))
| WindowMessage (env : Content.Env) (event : ContentScript.page_message)
| DirectCapture (env : Content.Env) (error : Content.ErrorData)
    (* addError called by the overlay observer or the import of early errors *)
| ExtensionMessage (message : ContentScript.content_msg).

(** The extension runtime takes the ERROR_CAPTURED message of the event. *)
Definition event_runtime_ok (e : agent_event) : bool :=
  match e with
  | ConsoleError env _ => Content.runtime_ok env
  | ConsoleWarn env _ => Content.runtime_ok env
  | WindowError env _ => Content.runtime_ok env
  | Rejection env _ => Content.runtime_ok env
  | FiberRoot env _ => Content.runtime_ok env
  | WindowMessage env _ => Content.runtime_ok env
  | DirectCapture env _ => Content.runtime_ok env
  | ExtensionMessage _ => true
  end.

Definition is_clear_errors (e : agent_event) : bool :=
  match e with
  | ExtensionMessage ContentScript.CLEAR_ERRORS => true
  | _ => false
  end.

Section AgentRuns.
Variable toUpperCase : jsstring -> jsstring.
Variable toLowerCase : jsstring -> jsstring.

Definition agent_step (a : Content.Agent) (e : agent_event) : Content.Agent :=
  match e with
  | ConsoleError env args => fst (Content.console_error toUpperCase env args a)
  | ConsoleWarn env args => fst (Content.console_warn toUpperCase toLowerCase env args a)
  | WindowError env event => fst (Content.on_error toUpperCase env event a)
  | Rejection env r => fst (Content.on_unhandledrejection toUpperCase env r a)
  | FiberRoot env boundary => fst (Content.on_commit_fiber_root toUpperCase env boundary a)
  | WindowMessage env event => ContentScript.on_window_message toUpperCase env event a
  | DirectCapture env error => Content.addError toUpperCase env error a
  | ExtensionMessage message => fst (ContentScript.on_runtime_message message a)
  end.

Definition agent_run (evs : list agent_event) : Content.Agent :=
  fold_left agent_step evs ContentScript.agent_start.

End AgentRuns.

(** ** Sample data of the popup *)

Module SamplePopup.

Definition lower (s : jsstring) : jsstring :=
  List.map (fun c => if in_range 65 90 c then (c + 32)%N else c) s.

Definition options : Popup.NetworkOptions :=
  {| Popup.showRequests := true; Popup.showResponses := true;
     Popup.onlyFetch := false; Popup.onlyErrors := false;
     Popup.networkFilter := str "API" |}.

Definition items : list Net.NetEvent :=
  [Sample.net_event Net.request "1" (Some (str "https://app.test/api/a")) None;
   Sample.net_event Net.failure "1" None None;
   Sample.net_event Net.response "2" (Some (str "https://app.test/img")) (Some 404%Z)].

End SamplePopup.

(* ===================================================================== *)
(** * Properties *)
(* ===================================================================== *)

(** ** Bounded buffers *)

Lemma tl_skipn_snoc {A : Type} (k : nat) (ys : list A) (x : A) :
  k <= length ys -> tl (skipn k ys ++ [x]) = skipn (S k) (ys ++ [x]).
Proof.
  revert k. induction ys as [|y ys IH]; intros k Hk.
  - destruct k; simpl in *; [reflexivity | lia].
  - destruct k as [|k]; [reflexivity|].
    simpl in Hk. simpl skipn at 1. rewrite IH by lia. reflexivity.
Qed.

Lemma length_slice_last {A : Type} (n : nat) (l : list A) :
  length (slice_last n l) = Nat.min n (length l).
Proof. unfold slice_last. rewrite length_skipn. lia. Qed.

(** Pushing onto the last [cap] elements of a history gives the last [cap]
    elements of the extended history. *)
Lemma push_capped_slice_last {A : Type} (cap : nat) (x : A) (ys : list A) :
  push_capped cap x (slice_last cap ys) = slice_last cap (ys ++ [x]).
Proof.
  unfold push_capped. rewrite length_app, length_slice_last. simpl.
  unfold slice_last. rewrite length_app. simpl.
  destruct (Nat.ltb_spec cap (Nat.min cap (length ys) + 1)) as [H|H].
  - replace (length ys + 1 - cap) with (S (length ys - cap)) by lia.
    apply tl_skipn_snoc. lia.
  - replace (length ys - cap) with 0 by lia.
    replace (length ys + 1 - cap) with 0 by lia. reflexivity.
Qed.

Lemma fold_push_capped {A : Type} (cap : nat) (xs ys : list A) :
  fold_left (fun l x => push_capped cap x l) xs (slice_last cap ys)
  = slice_last cap (ys ++ xs).
Proof.
  revert ys. induction xs as [|x xs IH]; intros ys; simpl.
  - rewrite app_nil_r. reflexivity.
  - rewrite push_capped_slice_last, IH, <- app_assoc. reflexivity.
Qed.

(** Insertions through the capped path alone: the buffer never exceeds the
    cap and holds the most recent [cap] insertions in insertion order. *)
Lemma capped_insertions {A : Type} (cap : nat) (xs : list A) :
  let buffer := fold_left (fun l x => push_capped cap x l) xs [] in
  length buffer <= cap /\ buffer = skipn (length xs - cap) xs.
Proof.
  pose proof (fold_push_capped cap xs []) as H. simpl in *.
  change (@nil A) with (slice_last cap (@nil A)) at 1 2.
  rewrite H. split; [rewrite length_slice_last; lia | reflexivity].
Qed.

(** ** The aggregator's buffers *)

Lemma jsstring_eqb_eq (a b : jsstring) : jsstring_eqb a b = true <-> a = b.
Proof. unfold jsstring_eqb. apply bool_decide_eq_true. Qed.

Lemma jsstring_eqb_refl (a : jsstring) : jsstring_eqb a a = true.
Proof. apply jsstring_eqb_eq. reflexivity. Qed.

Lemma is_str_eq (t : string) (v : Json.jsval) :
  Json.is_str t v = true <-> v = Json.VString (str t).
Proof.
  destruct v; simpl; try (split; [discriminate | intros H; discriminate H]).
  rewrite jsstring_eqb_eq. split; congruence.
Qed.

Lemma get_Ok (key : string) (v : Json.jsval) :
  Json.nullish v = false -> Json.get key v = Ok (Json.get_opt key v).
Proof. unfold Json.get. intros ->. reflexivity. Qed.

Lemma get_opt_nullish (key : string) (v : Json.jsval) :
  Json.nullish v = true -> Json.get_opt key v = Json.VUndefined.
Proof. destruct v; simpl; intros H; try discriminate H; reflexivity. Qed.

Lemma get_opt_defined (key : string) (v : Json.jsval) :
  Json.get_opt key v <> Json.VUndefined -> Json.nullish v = false.
Proof. destruct v; simpl; intros H; try reflexivity; contradiction H; reflexivity. Qed.

Section ServerFacts.
Import Json Bridge.
Variable P : Platform.

(** The logger and saveData leave the buffers as the push left them. *)
Lemma log_and_save_buffers env logged sv :
  errors (capturedData (log_and_save (stringify_data P) env logged sv))
  = errors (capturedData sv)
  /\ network (capturedData (log_and_save (stringify_data P) env logged sv))
     = network (capturedData sv).
Proof. destruct logged; split; reflexivity. Qed.

(** What a frame does to the two buffers, by the type of its message:
    console errors, requests and responses go through the capped path, a
    failure is appended with no eviction, whatever the length; every other
    frame leaves both buffers alone. The logger has no say in it. *)
Lemma on_message_buffers env data sv :
  let ty := frame_type P data in
  let entry := match JSON_parse P data with
               | Some msg => get_opt "data" msg
               | None => VUndefined
               end in
  let sv' := Node.on_message P env data sv in
  errors (capturedData sv')
  = (if is_str "console_error" ty
     then push_capped 100 entry (errors (capturedData sv))
     else errors (capturedData sv))
  /\ network (capturedData sv')
     = (if is_str "console_error" ty then network (capturedData sv)
        else if is_str "network_request" ty || is_str "network_response" ty
        then push_capped 200 entry (network (capturedData sv))
        else if is_str "network_failure" ty
        then network (capturedData sv) ++ [entry]
        else network (capturedData sv)).
Proof.
  intros ty entry sv'. subst ty entry sv'.
  unfold Node.on_message, Bridge.on_message, frame_type.
  destruct (JSON_parse P data) as [msg|]; [|split; reflexivity].
  unfold get. destruct (nullish msg) eqn:Hn.
  { rewrite get_opt_nullish by exact Hn. split; reflexivity. }
  destruct (is_str "console_error" (get_opt "type" msg)).
  { split; [rewrite (proj1 (log_and_save_buffers _ _ _))
            | rewrite (proj2 (log_and_save_buffers _ _ _))]; reflexivity. }
  destruct (is_str "network_request" (get_opt "type" msg)).
  { split; [rewrite (proj1 (log_and_save_buffers _ _ _))
            | rewrite (proj2 (log_and_save_buffers _ _ _))]; reflexivity. }
  destruct (is_str "network_response" (get_opt "type" msg)).
  { split; [rewrite (proj1 (log_and_save_buffers _ _ _))
            | rewrite (proj2 (log_and_save_buffers _ _ _))]; reflexivity. }
  destruct (is_str "network_failure" (get_opt "type" msg)).
  { split; [rewrite (proj1 (log_and_save_buffers _ _ _))
            | rewrite (proj2 (log_and_save_buffers _ _ _))]; reflexivity. }
  split; reflexivity.
Qed.

(** The try block of POST /ingest leaves the network buffer alone and
    pushes at most one entry onto the errors buffer. *)
Lemma ingest_buffers env body sv :
  let sv' := fst (Node.ingest P env body sv) in
  network (capturedData sv') = network (capturedData sv)
  /\ (errors (capturedData sv') = errors (capturedData sv)
      \/ exists entry,
           errors (capturedData sv') = push_capped 100 entry (errors (capturedData sv))).
Proof.
  intros sv'. subst sv'. unfold Node.ingest, Bridge.ingest.
  destruct (JSON_parse P body) as [msg|]; [|split; [reflexivity | left; reflexivity]].
  destruct (get "type" msg) as [ty|e]; [|split; [reflexivity | left; reflexivity]].
  destruct (is_str "server_error" ty && truthy (get_opt "data" msg));
    [|split; [reflexivity | left; reflexivity]].
  destruct (logServerError _ _ _);
    (split; [reflexivity | right; eexists; reflexivity]).
Qed.

(** The four queries leave the store and the files alone; three of them
    always answer, the summary answers when it can be built. *)
Lemma queries_leave_the_store env req sv :
  req_method req = GET ->
  In (path_of (req_url req)) [str "/data"; str "/errors"; str "/network"; str "/summary"] ->
  fst (Node.handle P env req sv) = sv.
Proof.
  intros Hm Hp. unfold Node.handle, Bridge.handle. rewrite Hm.
  simpl in Hp. destruct Hp as [<- | [<- | [<- | [<- | []]]]]; try reflexivity.
  cbn. destruct (generateSummary _ _ _ _ _ _); reflexivity.
Qed.

End ServerFacts.

(** C1 (the code departs from the claim). Bounded growth of a buffer class
    under every sequence of insertions, network failure events included.
    On the aggregator, 200 network_request frames fill the network buffer
    to its cap of 200, and one network_failure frame more leaves 201
    entries in it, the oldest request still first: nothing was evicted.
    The interceptor does the same with its cap of 100: after 100 requests
    of a tab, one Network.loadingFailed event leaves 101 entries. *)
Theorem network_failure_not_capped :
  let frames := repeat (str "q/api") 200 ++ [str "f"] in
  let sv := fold_left (fun sv d => Sample.on_message Sample.env d sv) frames
                      Bridge.server_init in
  let buffer := Bridge.network (Bridge.capturedData sv) in
  let events :=
    repeat (Background.requestWillBeSent (str "7") (Some (str "XHR"))
              (str "http://localhost:3000/api") (str "GET") []) 100
    ++ [Background.loadingFailed (str "7") (str "net::ERR_FAILED") []] in
  let w := fold_left (fun w ev => Background.onEvent 1 (Bridge.now Sample.env) ev w)
                     events Background.worker_init in
  let requests := default [] (Background.allNetworkRequests w !! 1%Z) in
  (length frames = 201 /\ length buffer = 201
   /\ hd_error buffer
      = Some (Sample.json_of (Sample.net_event Net.request "1" (Some (str "/api")) None))
   /\ List.last buffer Json.VUndefined
      = Sample.json_of (Sample.net_event Net.failure "1" None None))
  /\ (length events = 101 /\ length requests = 101
      /\ option_map Net.type (hd_error requests) = Some Net.request
      /\ Net.type (List.last requests (Sample.net_event Net.request "" None None))
         = Net.failure).
Proof. vm_compute. repeat split; reflexivity. Qed.

(** ** The query surface of the aggregator *)

(** C9 (the code departs from the claim). A query command other than clear
    is read-only and answers. GET /summary calls generateSummary outside
    any try block, and generateSummary calls substring on the cleaned
    property of a stored error. A POST /ingest with the body
    {type: 'server_error', data: {cleaned: 5}} stores its data (the logger
    throws on it, the answer is 400, nothing is saved); the next
    GET /summary throws a TypeError that nothing catches, and the server
    process ends, its store with it. GET /data, /errors and /network on the
    same store answer 200 and change nothing. *)
Theorem summary_query_throws_on_stored_entry :
  let post := ingest Sample.NUMBER_CLEANED in
  let sv := fst (Sample.handle Sample.env post Bridge.server_init) in
  let p := server_run Sample.platform (Bridge.files Bridge.server_init)
             [Http Sample.env post; Http Sample.env (Sample.get "/summary");
              Http Sample.env (Sample.get "/data")] in
  Sample.parse Sample.NUMBER_CLEANED
  = Some (Json.VObject
            [(str "type", Json.VString (str "server_error"));
             (str "data", Json.VObject [(str "cleaned",
                                          Json.VNumber (Json.number_of_Z 5))])])
  /\ snd (Sample.handle Sample.env post Bridge.server_init)
     = Ok (Bridge.json_response 400 Bridge.INVALID_JSON)
  /\ Bridge.errors (Bridge.capturedData sv)
     = [Json.VObject [(str "cleaned", Json.VNumber (Json.number_of_Z 5))]]
  /\ Bridge.files sv = Bridge.files Bridge.server_init
  /\ Sample.handle Sample.env (Sample.get "/summary") sv = (sv, Throw Json.TypeError)
  /\ running p = false
  /\ (forall path, In path ["/data"; "/errors"; "/network"]%string ->
      exists text,
        Sample.handle Sample.env (Sample.get path) sv
        = (sv, Ok (Bridge.json_response 200 text))).
Proof.
  cbv zeta. repeat split; try (vm_compute; reflexivity).
  intros path [<- | [<- | [<- | []]]]; eexists; vm_compute; reflexivity.
Qed.

(** C6. Handling clear resets the store to empty errors and network buffers
    and persists that state at once: saveData writes the text of the
    cleared store to both data files (a file whose write throws keeps what
    it held, the error being swallowed), and a following GET /data answers
    with that same text, empty buffers included, and changes nothing. *)
Theorem clear_resets_and_persists
    (P : Platform) (env env' : Bridge.Env) (req req' : Bridge.Request)
    (sv : Bridge.Server) :
  Bridge.req_method req = GET -> Bridge.path_of (Bridge.req_url req) = str "/clear" ->
  Bridge.req_method req' = GET -> Bridge.path_of (Bridge.req_url req') = str "/data" ->
  let sv' := fst (Node.handle P env req sv) in
  let data := Bridge.capturedData sv' in
  snd (Node.handle P env req sv) = Ok (Bridge.json_response 200 Bridge.DATA_CLEARED)
  /\ data = {| Bridge.errors := []; Bridge.network := [];
               Bridge.lastUpdate := Some (Bridge.now env); Bridge.pageUrl := None |}
  /\ Bridge.DATA_FILE (Bridge.files sv')
     = (if Bridge.home_write_ok env then Some (stringify_data P data)
        else Bridge.DATA_FILE (Bridge.files sv))
  /\ Bridge.PROJECT_DATA_FILE (Bridge.files sv')
     = (if Bridge.project_write_ok env then Some (stringify_data P data)
        else Bridge.PROJECT_DATA_FILE (Bridge.files sv))
  /\ Node.handle P env' req' sv'
     = (sv', Ok (Bridge.json_response 200 (stringify_data P data))).
Proof.
  intros Hm Hp Hm' Hp'. unfold Node.handle, Bridge.handle.
  rewrite Hm, Hp, Hm', Hp'. cbn [fst snd]. unfold Bridge.saveData.
  repeat split; reflexivity.
Qed.

Lemma clear_resets_and_persists_witness :
  let sv := fold_left (fun sv d => Sample.on_message Sample.env d sv)
                      [str "q/a"; str "p/a"] Bridge.server_init in
  let sv' := fst (Sample.handle Sample.env (Sample.get "/clear") sv) in
  Bridge.network (Bridge.capturedData sv) <> []
  /\ Bridge.network (Bridge.capturedData sv') = []
  /\ Bridge.DATA_FILE (Bridge.files sv') = Some (str "0/0@2024-01-01T00:00:00.000Z").
Proof.
  intros sv sv'.
  pose proof (clear_resets_and_persists Sample.platform
                Sample.env Sample.env (Sample.get "/clear") (Sample.get "/data") sv
                eq_refl eq_refl eq_refl eq_refl) as H.
  cbv zeta in H. destruct H as (_ & Hd & Hf & _).
  split; [vm_compute; discriminate|].
  split; [unfold sv', Sample.handle; rewrite Hd; reflexivity|].
  etransitivity; [exact Hf|]. vm_compute. reflexivity.
Defined.

(** ** POST /ingest *)

(** C10, as stated, fails on the body [null]: it is valid JSON, it carries
    no 'server_error' type, and the answer is the 400 error response. *)
Lemma ingest_null_gets_400 :
  ~ (forall (P : Platform) (env : Bridge.Env) (text : jsstring) (sv : Bridge.Server)
            (m : Json.jsval),
        JSON_parse P text = Some m ->
        Json.get "type" m <> Ok (Json.VString (str "server_error"))
        \/ Json.get_opt "data" m = Json.VUndefined ->
        Node.handle P env (ingest text) sv
        = (sv, Ok (Bridge.json_response 200 Bridge.SUCCESS))).
Proof.
  intro H.
  specialize (H Sample.platform Sample.env (str "null") Bridge.server_init
                Json.VNull eq_refl (or_intror eq_refl)).
  vm_compute in H. discriminate H.
Qed.

(** C10, amended. A POST /ingest whose body parses to a value other than
    null, with a type that is not 'server_error' or with no (truthy) data,
    is answered 200 with success: true and changes neither the store nor
    the files. A body that fails to parse, or that parses to null, is
    answered 400, the store and the files unchanged too; among the bodies
    that are not a server_error with data, no other is answered 400. *)
Theorem ingest_other_types_are_acknowledged
    (P : Platform) (env : Bridge.Env) (text : jsstring) (sv : Bridge.Server) :
  let result := Node.handle P env (ingest text) sv in
  (forall m,
      JSON_parse P text = Some m -> Json.nullish m = false ->
      Json.is_str "server_error" (Json.get_opt "type" m) = false
      \/ Json.truthy (Json.get_opt "data" m) = false ->
      result = (sv, Ok (Bridge.json_response 200 Bridge.SUCCESS)))
  /\ (JSON_parse P text = None
      \/ (exists m, JSON_parse P text = Some m /\ Json.nullish m = true) ->
      result = (sv, Ok (Bridge.json_response 400 Bridge.INVALID_JSON)))
  /\ (~ (exists m, JSON_parse P text = Some m /\ is_server_error m = true) ->
      snd result = Ok (Bridge.json_response 400 Bridge.INVALID_JSON) ->
      JSON_parse P text = None
      \/ (exists m, JSON_parse P text = Some m /\ Json.nullish m = true)).
Proof.
  intro result. subst result.
  unfold Node.handle, Bridge.handle, Bridge.ingest, ingest, POST.
  cbn [Bridge.req_method Bridge.req_url Bridge.req_body].
  change (jsstring_eqb (str "POST") (str "OPTIONS")) with false.
  change (jsstring_eqb (Bridge.path_of (str "/ingest")) (str "/ingest")
          && jsstring_eqb (str "POST") (str "POST")) with true.
  cbv iota.
  split; [|split].
  - intros m -> Hn Hc. rewrite get_Ok by exact Hn.
    destruct Hc as [-> | ->]; [reflexivity|]. rewrite andb_false_r. reflexivity.
  - intros [-> | (m & -> & Hn)]; [reflexivity|].
    unfold Json.get. rewrite Hn. reflexivity.
  - intros Hno. destruct (JSON_parse P text) as [m|]; [|auto].
    destruct (Json.nullish m) eqn:Hn; [intros _; right; eauto|].
    rewrite get_Ok by exact Hn.
    destruct (Json.is_str "server_error" (Json.get_opt "type" m)
              && Json.truthy (Json.get_opt "data" m)) eqn:Hs.
    + contradiction Hno. exists m. split; [reflexivity | exact Hs].
    + cbn. intros H. discriminate H.
Qed.

Lemma ingest_other_types_are_acknowledged_witness :
  Node.handle Sample.platform Sample.env (ingest (str "{}")) Bridge.server_init
  = (Bridge.server_init, Ok (Bridge.json_response 200 Bridge.SUCCESS))
  /\ Node.handle Sample.platform Sample.env (ingest (str "{")) Bridge.server_init
     = (Bridge.server_init, Ok (Bridge.json_response 400 Bridge.INVALID_JSON))
  /\ Node.handle Sample.platform Sample.env (ingest (str "null")) Bridge.server_init
     = (Bridge.server_init, Ok (Bridge.json_response 400 Bridge.INVALID_JSON))
  /\ (JSON_parse Sample.platform (str "null") = None
      \/ exists m, JSON_parse Sample.platform (str "null") = Some m
                   /\ Json.nullish m = true).
Proof.
  split; [|split; [|split]].
  - apply (proj1 (ingest_other_types_are_acknowledged Sample.platform
             Sample.env (str "{}") Bridge.server_init) (Json.VObject [])).
    + reflexivity.
    + reflexivity.
    + left. reflexivity.
  - apply (proj1 (proj2 (ingest_other_types_are_acknowledged Sample.platform
             Sample.env (str "{") Bridge.server_init))).
    left. reflexivity.
  - apply (proj1 (proj2 (ingest_other_types_are_acknowledged Sample.platform
             Sample.env (str "null") Bridge.server_init))).
    right. exists Json.VNull. split; reflexivity.
  - apply (proj2 (proj2 (ingest_other_types_are_acknowledged Sample.platform
             Sample.env (str "null") Bridge.server_init))).
    + intros (m & Hm & Hs). vm_compute in Hm. injection Hm as <-. discriminate Hs.
    + reflexivity.
Defined.
(** ** Correlation of requests and responses in the summary *)

Lemma number_ltb_of_Z (a k : Z) : Json.number_ltb (Json.number_of_Z a) k = (a <? k)%Z.
Proof.
  unfold Json.number_ltb, Json.number_of_Z, QArith_base.Qle_bool, QArith_base.inject_Z.
  cbn [QArith_base.Qnum QArith_base.Qden]. rewrite !Z.mul_1_r.
  destruct (Z.leb_spec k a), (Z.ltb_spec a k); simpl; try reflexivity; lia.
Qed.

Section Resolution.
Import Json Bridge.

(** The callback of find, entry by entry: it throws on undefined and null,
    and otherwise tells whether the entry is a response with the URL of
    the request. *)
Lemma find_response_cons (m : jsval) (network : list jsval) (r : jsval) :
  find_response (m :: network) r
  = if nullish m then Throw TypeError
    else if answers r m then Ok (Some m)
    else find_response network r.
Proof.
  unfold find_response. cbn [find_outcome]. unfold get.
  destruct (nullish m); reflexivity.
Qed.

Lemma answers_not_nullish (r m : jsval) : answers r m = true -> nullish m = false.
Proof.
  unfold answers. intros H. apply andb_true_iff in H. destruct H as [H _].
  apply (get_opt_defined "type"). apply is_str_eq in H. rewrite H. discriminate.
Qed.

Lemma find_response_Some (network : list jsval) (r n : jsval) :
  find_response network r = Ok (Some n)
  <-> exists before after,
        network = before ++ n :: after
        /\ answers r n = true
        /\ Forall (fun m => nullish m = false /\ answers r m = false) before.
Proof.
  induction network as [|m network IH].
  - split; [intros H; discriminate H|].
    intros (before & after & H & _). destruct before; discriminate H.
  - rewrite find_response_cons. destruct (nullish m) eqn:Hn.
    + split; [intros H; discriminate H|].
      intros ([|b before] & after & H & Ha & Hb); injection H as -> ->.
      * apply answers_not_nullish in Ha. congruence.
      * apply List.Forall_cons_iff in Hb. destruct Hb as [[Hb _] _]. congruence.
    + destruct (answers r m) eqn:Hm.
      * split.
        -- intros [= <-]. exists [], network. auto.
        -- intros ([|b before] & after & H & Ha & Hb); injection H as -> ->.
           ++ reflexivity.
           ++ apply List.Forall_cons_iff in Hb. destruct Hb as [[_ Hb] _]. congruence.
      * rewrite IH. split.
        -- intros (before & after & -> & Ha & Hb).
           exists (m :: before), after. repeat split; auto.
        -- intros ([|b before] & after & H & Ha & Hb); injection H as -> ->.
           ++ congruence.
           ++ apply List.Forall_cons_iff in Hb. destruct Hb as [_ Hb].
              exists before, after. auto.
Qed.

Lemma find_response_None (network : list jsval) (r : jsval) :
  find_response network r = Ok None
  <-> Forall (fun m => nullish m = false /\ answers r m = false) network.
Proof.
  induction network as [|m network IH].
  - split; auto.
  - rewrite find_response_cons, List.Forall_cons_iff.
    destruct (nullish m) eqn:Hn.
    + split; [intros H; discriminate H | intros [[H _] _]; discriminate H].
    + destruct (answers r m) eqn:Hm.
      * split; [intros H; discriminate H | intros [[_ H] _]; discriminate H].
      * rewrite IH. tauto.
Qed.

End Resolution.

(** C4, as stated, fails: the response shown for a request is not found by
    the shared correlation id. A request with id 1 is resolved to the
    response with id 2 that happens to carry the same URL. *)
Lemma summary_matches_other_correlation_id :
  ~ (forall (network : list Json.jsval) (r n : Json.jsval),
        In r network -> Json.is_str "request" (Json.get_opt "type" r) = true ->
        Bridge.find_response network r = Ok (Some n) ->
        Json.get_opt "id" n = Json.get_opt "id" r).
Proof.
  intro H.
  pose (r := Sample.json_of (Sample.net_event Net.request "1" (Some (str "/api")) None)).
  pose (n := Sample.json_of
               (Sample.net_event Net.response "2" (Some (str "/api")) (Some 200%Z))).
  specialize (H [r; n] r n (or_introl eq_refl) eq_refl eq_refl).
  vm_compute in H. discriminate H.
Qed.

(** C4, amended. Request, response and failure frames are stored as
    entries of their own (a request or response is pushed onto the network
    buffer, a failure is appended), none is merged into another. When the
    summary is built, a request is resolved to the first buffered response
    that has the same URL, and to none when the buffer holds no such
    response; the correlation id is not consulted. The line of the request
    shows the status of that response, or an hourglass and three dots.
    Scenario B: a network_request for correlation id 1 followed by a
    network_response with status 500 for the same id and URL gives a
    summary whose failed section lists exactly that one response, with its
    URL and status. *)
Theorem summary_resolves_requests_by_url (P : Platform) :
  let net sv := Bridge.network (Bridge.capturedData sv) in
  (forall env data msg sv,
      JSON_parse P data = Some msg ->
      let ty := Json.get_opt "type" msg in
      let entry := Json.get_opt "data" msg in
      (Json.is_str "network_request" ty = true
       \/ Json.is_str "network_response" ty = true ->
       net (Node.on_message P env data sv) = push_capped 200 entry (net sv))
      /\ (Json.is_str "network_failure" ty = true ->
          net (Node.on_message P env data sv) = net sv ++ [entry]))
  /\ (forall network r n,
         Bridge.find_response network r = Ok (Some n)
         <-> exists before after,
               network = before ++ n :: after
               /\ answers r n = true
               /\ Forall (fun m => Json.nullish m = false /\ answers r m = false)
                         before)
  /\ (forall network r,
         Bridge.find_response network r = Ok None
         <-> Forall (fun m => Json.nullish m = false /\ answers r m = false) network)
  /\ (forall network r found m u,
         Bridge.find_response network r = Ok found ->
         Node.text P (Json.get_opt "method" r) = Ok m ->
         Node.truncateUrl P (Json.get_opt "url" r) = Ok u ->
         Node.request_line P network r
         = match found with
           | Some n =>
               match Node.status_icon P (Json.get_opt "status" n),
                     Node.text P (Json.get_opt "status" n) with
               | Ok icon, Ok s =>
                   Ok (str "- " ++ icon ++ str " `" ++ m ++ str "` " ++ u ++ str " "
                       ++ [8594]%N ++ str " " ++ s ++ [10]%N)
               | Throw e, _ => Throw e
               | Ok _, Throw e => Throw e
               end
           | None =>
               Ok (str "- " ++ [9203]%N ++ str " `" ++ m ++ str "` " ++ u ++ str " "
                   ++ [8594]%N ++ str " ..." ++ [10]%N)
           end)
  /\ (forall env1 env2 env3 fs d1 d2 m1 m2 req resp u m,
         JSON_parse P d1 = Some m1 -> JSON_parse P d2 = Some m2 ->
         Json.get_opt "type" m1 = Json.VString (str "network_request") ->
         Json.get_opt "data" m1 = req ->
         Json.get_opt "type" m2 = Json.VString (str "network_response") ->
         Json.get_opt "data" m2 = resp ->
         Json.get_opt "type" req = Json.VString (str "request") ->
         Json.get_opt "type" resp = Json.VString (str "response") ->
         Json.get_opt "id" req = Json.VString (str "1") ->
         Json.get_opt "id" resp = Json.VString (str "1") ->
         Json.get_opt "url" req = Json.VString u ->
         Json.get_opt "url" resp = Json.VString u ->
         Json.get_opt "status" resp = Json.VNumber (Json.number_of_Z 500) ->
         Json.get_opt "body" resp = Json.VUndefined ->
         Node.text P (Json.get_opt "method" req) = Ok m ->
         let sv := Node.on_message P env2 d2
                     (Node.on_message P env1 d1 (Bridge.server_start fs)) in
         net sv = [req; resp]
         /\ Node.failed_requests P (net sv) = Ok [resp]
         /\ exists t,
              Node.truncateUrl P (Json.VString u) = Ok t
              /\ Node.generateSummary P env3 (Bridge.capturedData sv)
                 = Ok (str "# Debug Summary" ++ [10; 10]%N
                       ++ str "Generated: " ++ Bridge.now env3 ++ [10]%N
                       ++ str "Working Directory: " ++ Bridge.cwd env3 ++ [10; 10]%N
                       ++ str "## Browser Errors (0)" ++ [10; 10]%N
                       ++ [10003]%N ++ str " No browser errors" ++ [10; 10]%N
                       ++ str "## Failed/Error Requests (1)" ++ [10; 10]%N
                       ++ str "1. **" ++ Number_toString P (Json.number_of_Z 500)
                       ++ str "** `" ++ t ++ str "`" ++ [10; 10]%N
                       ++ str "## Recent Requests" ++ [10; 10]%N
                       ++ str "- " ++ [10006]%N ++ str " `" ++ m ++ str "` " ++ t
                       ++ str " " ++ [8594]%N ++ str " "
                       ++ Number_toString P (Json.number_of_Z 500) ++ [10]%N)).
Proof.
  intros net. subst net. split; [|split; [|split; [|split]]].
  - intros env data msg sv Hp ty entry. subst ty entry.
    pose proof (proj2 (on_message_buffers P env data sv)) as H. cbv zeta in H.
    unfold frame_type in H. rewrite Hp in H. split.
    + intros Ht. rewrite H.
      destruct (Json.is_str "console_error" (Json.get_opt "type" msg)) eqn:Hc.
      { apply is_str_eq in Hc. rewrite Hc in Ht. destruct Ht as [Ht | Ht]; discriminate Ht. }
      apply orb_true_iff in Ht. rewrite Ht. reflexivity.
    + intros Ht. rewrite H. apply is_str_eq in Ht. rewrite Ht. reflexivity.
  - apply find_response_Some.
  - apply find_response_None.
  - intros network r found m u Hf Hm Hu.
    unfold Node.request_line, Bridge.request_line.
    unfold Node.text, Node.truncateUrl in Hm, Hu. rewrite Hf. cbn [bind].
    destruct found as [n|].
    + unfold Node.status_icon, Node.text.
      destruct (Bridge.status_icon _ _ _) as [icon|e]; cbn [bind]; [|reflexivity].
      rewrite Hm. cbn [bind]. rewrite Hu. cbn [bind].
      destruct (Bridge.text _ _) as [s|e]; reflexivity.
    + rewrite Hm. cbn [bind]. rewrite Hu. reflexivity.
  - intros env1 env2 env3 fs d1 d2 m1 m2 req resp u m P1 P2 T1 D1 T2 D2 Tq Tp I1 I2
      U1 U2 S B M.
    assert (Hnet : Bridge.network (Bridge.capturedData
                     (Node.on_message P env2 d2
                        (Node.on_message P env1 d1 (Bridge.server_start fs))))
                   = [req; resp]).
    { rewrite (proj2 (on_message_buffers P env2 d2 _)).
      rewrite (proj2 (on_message_buffers P env1 d1 _)).
      unfold frame_type. rewrite P1, P2, T1, T2, D1, D2. reflexivity. }
    assert (Herr : Bridge.errors (Bridge.capturedData
                     (Node.on_message P env2 d2
                        (Node.on_message P env1 d1 (Bridge.server_start fs))))
                   = []).
    { rewrite (proj1 (on_message_buffers P env2 d2 _)).
      rewrite (proj1 (on_message_buffers P env1 d1 _)).
      unfold frame_type. rewrite P1, P2, T1, T2. reflexivity. }
    assert (Nq : Json.nullish req = false).
    { apply (get_opt_defined "type"). rewrite Tq. discriminate. }
    assert (Np : Json.nullish resp = false).
    { apply (get_opt_defined "type"). rewrite Tp. discriminate. }
    assert (Hf : Node.failed_requests P [req; resp] = Ok [resp]).
    { unfold Node.failed_requests, Bridge.failed_requests, Bridge.is_failed.
      cbn [filter_outcome]. rewrite !get_Ok by assumption. rewrite Tq, Tp, S.
      cbn [bind Json.is_str]. unfold Bridge.not_below, Json.at_least.
      cbn [Json.to_number bind]. rewrite number_ltb_of_Z. reflexivity. }
    cbv zeta. rewrite Hnet. split; [reflexivity|]. split; [exact Hf|].
    assert (Ht : exists t, Node.truncateUrl P (Json.VString u) = Ok t).
    { unfold Node.truncateUrl, Bridge.truncateUrl.
      destruct (negb _); [eauto|]. cbn [Bridge.text Json.to_string Json.substring].
      destruct (URL_path P u); eauto. }
    destruct Ht as [t Ht]. exists t. split; [exact Ht|].
    unfold Node.generateSummary, Bridge.generateSummary.
    rewrite Herr, Hnet. cbn [filter_outcome bind].
    unfold Node.failed_requests in Hf. rewrite Hf. cbn [bind].
    unfold Bridge.recent_requests, Bridge.is_request. cbn [filter_outcome].
    rewrite !get_Ok by assumption. rewrite Tq, Tp.
    cbn [bind Json.is_str]. 
    change (jsstring_eqb (str "request") (str "request")) with true.
    change (jsstring_eqb (str "response") (str "request")) with false.
    cbv iota.
    change (slice_last 10 [req]) with [req].
    change (slice_last 10 [resp]) with [resp].
    unfold Bridge.sections, Bridge.indexed.
    cbn [length seq combine traverse Bridge.failed_line].
    rewrite Tp, S, U2, B.
    change (Json.is_str "failure" (Json.VString (str "response"))) with false.
    cbv iota. cbn [Bridge.text Json.to_string bind Json.truthy].
    unfold Node.truncateUrl in Ht. rewrite Ht. cbn [bind].
    assert (Hr : Bridge.find_response [req; resp] req = Ok (Some resp)).
    { apply find_response_Some. exists [req], []. split; [reflexivity|].
      unfold answers. rewrite Tp, U1, U2.
      cbn [Json.is_str Json.strict_eq]. rewrite !jsstring_eqb_refl.
      split; [reflexivity|]. constructor; [|constructor].
      split; [exact Nq | unfold answers; rewrite Tq; reflexivity]. }
    unfold Bridge.request_line. rewrite Hr. cbn [bind].
    rewrite S, U1. unfold Bridge.status_icon, Bridge.below, Json.less_than.
    cbn [Json.to_number bind]. rewrite !number_ltb_of_Z.
    change (500 <? 300)%Z with false. change (500 <? 400)%Z with false.
    cbv iota. unfold Node.text in M. unfold Bridge.text in M |- *. rewrite M. cbn [bind].
    rewrite Ht. cbn [bind Json.to_string concat].
    generalize (Number_toString P (Json.number_of_Z 500)), (Bridge.now env3),
      (Bridge.cwd env3).
    intros n500 c w. f_equal. unfold Bridge.nl.
    change (Bridge.js_of_nat (0 + 1)) with (str "1").
    change (Bridge.js_of_nat (length (@nil Json.jsval))) with (str "0").
    change (Bridge.js_of_nat (length [resp])) with (str "1").
    rewrite ?app_nil_r, ?app_nil_l. repeat rewrite <- app_assoc.
    reflexivity.
Qed.

Lemma summary_resolves_requests_by_url_witness :
  let request := Sample.json_of (Sample.net_event Net.request "1" (Some (str "/api")) None) in
  let other := Sample.json_of (Sample.net_event Net.response "3" (Some (str "/x")) (Some 200%Z)) in
  let first := Sample.json_of (Sample.net_event Net.response "2" (Some (str "/api")) (Some 200%Z)) in
  let second := Sample.json_of (Sample.net_event Net.response "1" (Some (str "/api")) (Some 500%Z)) in
  let sv := Sample.on_message Sample.env (str "p/api")
              (Sample.on_message Sample.env (str "q/api") Bridge.server_init) in
  Bridge.find_response [request; other; first; second] request = Ok (Some first)
  /\ Bridge.find_response [request; other] request = Ok None
  /\ Node.failed_requests Sample.platform (Bridge.network (Bridge.capturedData sv))
     = Ok [second].
Proof.
  intros request other first second sv.
  pose proof (summary_resolves_requests_by_url Sample.platform) as H.
  cbv zeta in H. destruct H as (_ & Hsome & Hnone & _ & HB).
  split; [|split].
  - apply Hsome. exists [request; other], [second].
    split; [reflexivity|]. split; [reflexivity|].
    repeat constructor.
  - apply Hnone. repeat constructor.
  - pose proof (HB Sample.env Sample.env Sample.env
                  (Bridge.files Bridge.server_init) (str "q/api") (str "p/api")
                  _ _ request second (str "/api") (str "GET")
                  eq_refl eq_refl eq_refl eq_refl eq_refl eq_refl eq_refl eq_refl
                  eq_refl eq_refl eq_refl eq_refl eq_refl eq_refl eq_refl) as H.
    exact (proj1 (proj2 H)).
Defined.
(** ** The reconnect timer of the bridge client *)

Section Reconnect.
Import Background.







End Reconnect.



(** ** Deduplication in the instrumentation agent *)

Section Dedup.
Import Content.
Variable toUpperCase : jsstring -> jsstring.

Lemma some_dupe_hit (now : nat -> Z) key (i : nat) es (j : nat) e :
  nth_error es j = Some e ->
  msgKey (raw e) = key -> (now (i + j)%nat - timestamp e < 1000)%Z ->
  some_dupe now key i es = true.
Proof.
  revert i j. induction es as [|x es IH]; intros i j Hn Hk Ht.
  - destruct j; discriminate.
  - simpl. destruct j as [|j]; simpl in Hn.
    + injection Hn as ->. rewrite Nat.add_0_r in Ht.
      rewrite (proj2 (jsstring_eqb_eq _ _) Hk).
      rewrite (proj2 (Z.ltb_lt _ _) Ht). reflexivity.
    + rewrite (IH (S i) j Hn Hk); [apply orb_true_r|].
      replace (S i + j) with (i + S j) by lia. exact Ht.
Qed.

Lemma push_capped_last {A : Type} (cap : nat) (x : A) (l : list A) :
  1 <= cap -> nth_error (push_capped cap x l) (length (push_capped cap x l) - 1) = Some x.
Proof.
  intros Hc. unfold push_capped. rewrite length_app. simpl.
  destruct (Nat.ltb_spec cap (length l + 1)) as [H|H].
  - destruct l as [|y l]; simpl in *; [lia|].
    rewrite length_app. simpl. rewrite nth_error_app2 by lia.
    replace (length l + 1 - 1 - length l) with 0 by lia. reflexivity.
  - rewrite length_app. simpl. rewrite nth_error_app2 by lia.
    replace (length l + 1 - 1 - length l) with 0 by lia. reflexivity.
Qed.

Lemma addError_retains env d a :
  isDupe env d (errors a) = false ->
  let es := errors (addError toUpperCase env d a) in
  exists e, nth_error es (length es - 1) = Some e
            /\ raw e = d /\ timestamp e = stamp env.
Proof.
  intros Hd es. subst es. unfold addError. rewrite Hd. cbn [errors].
  eexists. split; [apply push_capped_last; unfold MAX_ERRORS; lia|].
  split; reflexivity.
Qed.

End Dedup.

(** C3, as stated, fails: the window is measured against the entries kept
    in the buffer, not against every incoming event. Three events with the
    same message arrive at 0 ms, 900 ms and 1500 ms: the second is dropped
    as a duplicate of the first, and the third, 600 ms after the second, is
    kept. *)
Lemma dedup_window_counts_from_retained_entry :
  ~ (forall (env1 env2 : Content.Env) (d1 d2 : Content.ErrorData) (a : Content.Agent),
        Content.msgKey d1 = Content.msgKey d2 ->
        (forall i, Content.nowAt env1 i = Content.stamp env1) ->
        (forall i, Content.nowAt env2 i = Content.stamp env2) ->
        (0 <= Content.stamp env2 - Content.stamp env1 < 1000)%Z ->
        SampleAgent.addError env2 d2 (SampleAgent.addError env1 d1 a)
        = SampleAgent.addError env1 d1 a).
Proof.
  intro H.
  pose (d := SampleAgent.error_data "Warning: hydration failed").
  pose (a := SampleAgent.addError (SampleAgent.env_at 0) d SampleAgent.agent_init).
  specialize (H (SampleAgent.env_at 900) (SampleAgent.env_at 1500) d d a eq_refl
                (fun _ => eq_refl) (fun _ => eq_refl)).
  assert (L : length (Content.errors
                (SampleAgent.addError (SampleAgent.env_at 1500) d
                   (SampleAgent.addError (SampleAgent.env_at 900) d a))) = 2).
  { vm_compute. reflexivity. }
  rewrite H in L; [|simpl; lia].
  vm_compute in L. discriminate L.
Qed.

(** C3, amended. An incoming event is discarded, and the agent left exactly
    as it was, whenever the buffer holds an entry with the same
    first-100-character raw message whose capture time is less than one
    second before the clock reading taken at that entry. In particular, for
    a pair of events with the same prefix, if the first was retained (it
    was not itself a duplicate) and the second arrives next, less than one
    second later, only the first is in the buffer afterwards. *)
Theorem duplicate_of_buffered_entry_is_discarded
    (toUpperCase : jsstring -> jsstring) :
  (forall (env : Content.Env) (d : Content.ErrorData) (a : Content.Agent)
          (i : nat) (e : Content.FormattedError),
      nth_error (Content.errors a) i = Some e ->
      substring0 100 (default [] (Content.message (Content.raw e)))
      = substring0 100 (default [] (Content.message d)) ->
      (Content.nowAt env i - Content.timestamp e < 1000)%Z ->
      Content.addError toUpperCase env d a = a)
  /\ (forall (env1 env2 : Content.Env) (d1 d2 : Content.ErrorData) (a : Content.Agent),
         Content.isDupe env1 d1 (Content.errors a) = false ->
         Content.msgKey d1 = Content.msgKey d2 ->
         (forall i, Content.nowAt env2 i - Content.stamp env1 < 1000)%Z ->
         let a1 := Content.addError toUpperCase env1 d1 a in
         Content.addError toUpperCase env2 d2 a1 = a1
         /\ exists e, List.last (Content.errors a1) e = e
                      /\ In e (Content.errors a1)
                      /\ Content.raw e = d1
                      /\ Content.timestamp e = Content.stamp env1).
Proof.
  assert (G : forall env d a i e,
             nth_error (Content.errors a) i = Some e ->
             Content.msgKey (Content.raw e) = Content.msgKey d ->
             (Content.nowAt env i - Content.timestamp e < 1000)%Z ->
             Content.addError toUpperCase env d a = a).
  { intros env d a i e Hn Hk Ht. unfold Content.addError, Content.isDupe.
    rewrite (some_dupe_hit (Content.nowAt env) _ 0 _ i e Hn Hk Ht). reflexivity. }
  split; [exact G|].
  intros env1 env2 d1 d2 a Hd Hk Ht a1.
  destruct (addError_retains toUpperCase env1 d1 a Hd) as (e & Hn & Hr & Hs).
  fold a1 in Hn. split.
  - apply (G env2 d2 a1 _ e Hn).
    + rewrite Hr. exact Hk.
    + rewrite Hs. apply Ht.
  - exists e. split; [|split; [|split]]; auto.
    + clear -Hn. destruct (Content.errors a1) as [|x l] using rev_ind;
        [destruct (length [] - 1); discriminate|].
      rewrite length_app in Hn. simpl in Hn.
      rewrite nth_error_app2 in Hn by lia.
      replace (length l + 1 - 1 - length l) with 0 in Hn by lia.
      injection Hn as ->. apply last_last.
    + eapply nth_error_In, Hn.
Qed.

Lemma duplicate_of_buffered_entry_is_discarded_witness :
  let d := SampleAgent.error_data "Warning: hydration failed" in
  let a1 := SampleAgent.addError (SampleAgent.env_at 0) d SampleAgent.agent_init in
  length (Content.errors a1) = 1
  /\ SampleAgent.addError (SampleAgent.env_at 999) d a1 = a1.
Proof.
  intros d a1. split; [vm_compute; reflexivity|].
  refine (proj1 (proj2 (duplicate_of_buffered_entry_is_discarded Sample.upper)
            (SampleAgent.env_at 0) (SampleAgent.env_at 999) d d SampleAgent.agent_init
            _ _ _)).
  - reflexivity.
  - reflexivity.
  - intros i. simpl. lia.
Defined.

(** ** The wrapped console methods *)

Section Wrappers.
Import Content.
Variable toUpperCase : jsstring -> jsstring.
Variable toLowerCase : jsstring -> jsstring.

(** When every argument can be turned into text, the wrapper returns and
    the saved original method is called with the same arguments. *)
Lemma console_error_prints env args a texts :
  map_outcome stringifyArg args = Ok texts ->
  exists a',
    console_error toUpperCase env args a = (a', Ok tt)
    /\ List.last (console a') (Original LError []) = Original LError args.
Proof.
  intros H. unfold console_error. rewrite H. eexists. split; [reflexivity|].
  unfold print. cbn [console]. apply last_last.
Qed.

Lemma console_warn_prints env args a texts :
  map_outcome stringifyArg args = Ok texts ->
  exists a',
    console_warn toUpperCase toLowerCase env args a = (a', Ok tt)
    /\ List.last (console a') (Original LWarn []) = Original LWarn args.
Proof.
  intros H. unfold console_warn. rewrite H. eexists. split; [reflexivity|].
  unfold print. cbn [console]. apply last_last.
Qed.

End Wrappers.

(** C7 (the code departs from the claim). The capture path of the wrapped
    console methods is not guarded: when turning an argument into text
    throws (an object whose JSON rendering and whose string conversion
    both throw), the exception leaves console.error and console.warn, and
    the saved original method is never called: the agent, its console
    output included, is exactly as before. The patched React hook, by
    contrast, swallows a failing capture and always runs the original. *)
Theorem console_wrapper_lets_exception_escape
    (toUpperCase toLowerCase : jsstring -> jsstring)
    (env : Content.Env) (a : Content.Agent) (e1 e2 : jsstring)
    (rest : list Content.jsarg) :
  let arg := Content.AObject (Throw e1) (Throw e2) in
  Content.console_error toUpperCase env (arg :: rest) a = (a, Throw e2)
  /\ Content.console_warn toUpperCase toLowerCase env (arg :: rest) a = (a, Throw e2)
  /\ Content.on_commit_fiber_root toUpperCase env (Throw e1) a = (a, true).
Proof. intro arg. repeat split. Qed.

(** ** What the matcher computes *)

Lemma rep_sound {A : Type} p min s (k : jsstring -> option A) x :
  rep p min s k = Some x ->
  exists m rest, s = m ++ rest /\ forallb p m = true /\ min <= length m
                 /\ k rest = Some x.
Proof.
  revert min. induction s as [|c s IH]; intros min H; simpl in H.
  - destruct (Nat.eqb_spec min 0) as [E0|]; [subst min|discriminate].
    exists [], []. auto.
  - assert (Z0 : (if Nat.eqb min 0 then k (c :: s) else None) = Some x ->
                 exists m rest, c :: s = m ++ rest /\ forallb p m = true
                                /\ min <= length m /\ k rest = Some x).
    { destruct (Nat.eqb_spec min 0) as [E0|]; [subst min|discriminate].
      intros Hk. exists [], (c :: s). auto. }
    destruct (p c) eqn:Hp; [|apply Z0, H].
    destruct (rep p (Nat.pred min) s k) as [y|] eqn:Hr; [|apply Z0, H].
    injection H as ->. destruct (IH _ Hr) as (m & rest & -> & Hm & Hl & Hk).
    exists (c :: m), rest. simpl. rewrite Hp, Hm. repeat split; auto. lia.
Qed.

Lemma rep_complete {A : Type} p min m rest (k : jsstring -> option A) x :
  forallb p m = true -> min <= length m -> k rest = Some x ->
  exists y, rep p min (m ++ rest) k = Some y.
Proof.
  revert min. induction m as [|c m IH]; intros min Hm Hl Hk; simpl in *.
  - assert (min = 0) as -> by lia.
    destruct rest as [|c rest]; simpl; [eauto|].
    destruct (p c); [|eauto].
    destruct (rep p 0 rest k); eauto.
  - apply andb_true_iff in Hm. destruct Hm as [Hc Hm]. rewrite Hc.
    destruct (IH (Nat.pred min) Hm ltac:(lia) Hk) as [y ->]. eauto.
Qed.

Lemma run_sound r : forall {A : Type} s (k : jsstring -> option A) x,
  run r s k = Some x ->
  exists m rest, s = m ++ rest /\ matches r m rest /\ k rest = Some x.
Proof.
  induction r as [|p|r1 IH1 r2 IH2|r1 IH1 r2 IH2|p min|r IH|]; intros A s k x H;
    simpl in H.
  - exists [], s. repeat split; [constructor | exact H].
  - destruct s as [|c s]; [discriminate|]. destruct (p c) eqn:Hp; [|discriminate].
    exists [c], s. repeat split; [constructor; exact Hp | exact H].
  - destruct (IH1 _ _ _ _ H) as (m1 & rest1 & -> & M1 & H2).
    destruct (IH2 _ _ _ _ H2) as (m2 & rest & -> & M2 & Hk).
    exists (m1 ++ m2), rest. rewrite <- app_assoc.
    repeat split; [constructor; assumption | exact Hk].
  - destruct (run r1 s k) as [y|] eqn:H1.
    + injection H as ->. destruct (IH1 _ _ _ _ H1) as (m & rest & -> & M & Hk).
      exists m, rest. repeat split; [apply m_alt_l, M | exact Hk].
    + destruct (IH2 _ _ _ _ H) as (m & rest & -> & M & Hk).
      exists m, rest. repeat split; [apply m_alt_r, M | exact Hk].
  - destruct (rep_sound _ _ _ _ _ H) as (m & rest & -> & Hm & Hl & Hk).
    exists m, rest. repeat split; [constructor; assumption | exact Hk].
  - destruct (run r s (fun _ => Some tt)) as [u|] eqn:Hr; [|discriminate].
    destruct (IH _ _ _ _ Hr) as (m & rest & -> & M & _).
    exists [], (m ++ rest). repeat split; [constructor; exact M | exact H].
  - destruct s; [|discriminate]. exists [], []. repeat split; [constructor | exact H].
Qed.

Lemma run_complete r m rest :
  matches r m rest ->
  forall {A : Type} (k : jsstring -> option A) x,
    k rest = Some x -> exists y, run r (m ++ rest) k = Some y.
Proof.
  induction 1 as [rest|p c rest Hp|r1 r2 m1 m2 rest _ IH1 _ IH2|r1 r2 m rest _ IH
                  |r1 r2 m rest _ IH|p min m rest Hm Hl|r m rest _ IH|];
    intros A k x Hk; simpl.
  - eauto.
  - rewrite Hp. eauto.
  - destruct (IH2 _ k x Hk) as [y Hy].
    rewrite <- app_assoc. apply (IH1 _ (fun s' => run r2 s' k) y Hy).
  - destruct (IH _ k x Hk) as [y ->]. eauto.
  - destruct (run r1 (m ++ rest) k); [eauto|]. apply (IH _ k x Hk).
  - eapply rep_complete; eassumption.
  - destruct (IH _ (fun _ => Some tt) tt eq_refl) as [y ->]. eauto.
  - eauto.
Qed.

Lemma exec_at_Some r s rest :
  exec_at r s = Some rest -> exists m, s = m ++ rest /\ matches r m rest.
Proof.
  intros H. destruct (run_sound r s Some rest H) as (m & rest' & -> & M & [= ->]).
  eauto.
Qed.

Lemma exec_at_None r m rest : exec_at r (m ++ rest) = None -> ~ matches r m rest.
Proof.
  intros H M. destruct (run_complete r m rest M Some rest eq_refl) as [y Hy].
  unfold exec_at in H. congruence.
Qed.

Lemma test_here r s x : exec_at r s = Some x -> test r s = true.
Proof. intros H. destruct s; simpl; rewrite H; reflexivity. Qed.

Lemma test_later r c s : test r s = true -> test r (c :: s) = true.
Proof. intros H. simpl. destruct (exec_at r (c :: s)); [reflexivity | exact H]. Qed.

(** [test] finds a match exactly when some part of the input matches. *)
Lemma test_spec r s :
  test r s = true <-> exists pre m rest, s = pre ++ m ++ rest /\ matches r m rest.
Proof.
  split.
  - induction s as [|c s IH]; simpl.
    + destruct (exec_at r []) eqn:E; [|discriminate]. intros _.
      destruct (exec_at_Some _ _ _ E) as (m & Hs & M). exists [], m, j. auto.
    + destruct (exec_at r (c :: s)) eqn:E.
      * intros _. destruct (exec_at_Some _ _ _ E) as (m & Hs & M).
        exists [], m, j. auto.
      * intros H. destruct (IH H) as (pre & m & rest & -> & M).
        exists (c :: pre), m, rest. auto.
  - intros (pre & m & rest & -> & M). induction pre as [|c pre IH].
    + destruct (run_complete r m rest M Some rest eq_refl) as [y Hy].
      apply (test_here _ _ y Hy).
    + apply test_later, IH.
Qed.

(** ** The URL patterns of the exclusion filter *)

Lemma words_sound r m rest :
  matches (denote r) m rest -> exists we, In we (words r) /\ accepts we m rest.
Proof.
  revert m rest. induction r as [|c|a IHa b IHb|a IHa b IHb|]; intros m rest H;
    simpl in H; inversion H; subst; clear H.
  - exists ([], false). split; [left; reflexivity|]. split; [reflexivity | discriminate].
  - exists ([fold_case c], false). split; [left; reflexivity|].
    split; [|discriminate]. simpl. f_equal.
    match goal with Hc : eq_char_i _ _ = true |- _ => apply N.eqb_eq in Hc; exact Hc end.
  - match goal with Ha : matches (denote a) _ _, Hb : matches (denote b) _ _ |- _ =>
      destruct (IHa _ _ Ha) as ([w1 e1] & I1 & F1 & E1);
      destruct (IHb _ _ Hb) as ([w2 e2] & I2 & F2 & E2) end.
    simpl in *. destruct e1.
    + specialize (E1 eq_refl). apply app_eq_nil in E1. destruct E1 as [-> ->].
      exists (w1, true). split.
      * apply in_flat_map. exists (w1, true). split; [exact I1|].
        apply in_flat_map. exists (w2, e2). split; [exact I2|].
        simpl in *. subst w2. left. reflexivity.
      * split; [|reflexivity]. simpl. rewrite app_nil_r. exact F1.
    + exists (w1 ++ w2, e2). split.
      * apply in_flat_map. exists (w1, false). split; [exact I1|].
        apply in_flat_map. exists (w2, e2). split; [exact I2|]. left. reflexivity.
      * split; [|exact E2]. simpl. unfold folded in *.
        rewrite List.map_app, F1, F2. reflexivity.
  - match goal with Ha : matches (denote a) _ _ |- _ =>
      destruct (IHa _ _ Ha) as (we & I & Acc) end.
    exists we. split; [apply in_or_app; left; exact I | exact Acc].
  - match goal with Hb : matches (denote b) _ _ |- _ =>
      destruct (IHb _ _ Hb) as (we & I & Acc) end.
    exists we. split; [apply in_or_app; right; exact I | exact Acc].
  - exists ([], true). split; [left; reflexivity|]. split; reflexivity.
Qed.

Lemma words_complete r : forall we m rest,
  In we (words r) -> accepts we m rest -> matches (denote r) m rest.
Proof.
  induction r as [|c|a IHa b IHb|a IHa b IHb|]; intros [w e] m rest I [F E];
    simpl in *.
  - destruct I as [[= <- <-]|[]]. destruct m; [constructor | discriminate].
  - destruct I as [[= <- <-]|[]]. destruct m as [|x [|y m]]; try discriminate.
    injection F as F. constructor. apply N.eqb_eq. exact F.
  - apply in_flat_map in I. destruct I as ([w1 e1] & I1 & I).
    apply in_flat_map in I. destruct I as ([w2 e2] & I2 & I). simpl in I.
    destruct e1.
    + destruct w2; [|destruct I]. destruct I as [[= <- <-]|[]].
      specialize (E eq_refl). subst rest.
      rewrite <- (app_nil_r m). constructor.
      * apply (IHa (w1, true)); [exact I1 | split; [exact F | reflexivity]].
      * apply (IHb ([], e2)); [exact I2 | split; [reflexivity | reflexivity]].
    + destruct I as [[= <- <-]|[]]. unfold folded in F.
      apply map_eq_app in F. destruct F as (m1 & m2 & -> & F1 & F2).
      constructor.
      * apply (IHa (w1, false)); [exact I1 | split; [exact F1 | discriminate]].
      * apply (IHb (w2, e2)); [exact I2 | split; [exact F2 | exact E]].
  - apply in_app_or in I. destruct I as [I|I].
    + apply m_alt_l, (IHa (w, e)); [exact I | split; assumption].
    + apply m_alt_r, (IHb (w, e)); [exact I | split; assumption].
  - destruct I as [[= <- <-]|[]]. rewrite (E eq_refl).
    destruct m; [constructor | discriminate].
Qed.

Lemma FONT_L_denote : denote FONT_L = Background.FONT_URL.
Proof. reflexivity. Qed.
Lemma IMAGE_L_denote : denote IMAGE_L = Background.IMAGE_URL.
Proof. reflexivity. Qed.
Lemma MAP_L_denote : denote MAP_L = Background.MAP_URL.
Proof. reflexivity. Qed.

Lemma incl_b_incl l1 l2 : incl_b l1 l2 = true -> incl l1 l2.
Proof.
  unfold incl_b. rewrite forallb_forall. intros H x Hx.
  specialize (H x Hx). apply existsb_exists in H. destruct H as (y & Hy & E).
  apply bool_decide_eq_true in E. subst y. exact Hy.
Qed.

Lemma fold_case_fixed (x c : N) :
  (x < 65 \/ 90 < x)%N -> fold_case c = x -> c = x.
Proof.
  unfold fold_case, in_range. intros Hx.
  destruct (N.leb_spec 97 c), (N.leb_spec c 122); simpl; lia.
Qed.

Lemma extension_pattern_spec (r : literal_pattern) (exts : list string) (u : jsstring) :
  incl_b (words r) (ext_words exts) = true ->
  incl_b (ext_words exts) (words r) = true ->
  test (denote r) u = true <-> has_extension exts u.
Proof.
  intros I1 I2. apply incl_b_incl in I1, I2. rewrite test_spec. split.
  - intros (pre & m & rest & -> & M).
    destruct (words_sound _ _ _ M) as (we & Iw & F & E).
    apply I1 in Iw. unfold ext_words in Iw. apply in_flat_map in Iw.
    destruct Iw as (ext & Iext & [<- | [<- | []]]); simpl in F, E.
    + unfold folded in F. apply map_eq_cons in F.
      destruct F as (c0 & m' & -> & H0 & F).
      apply map_eq_app in F. destruct F as (e & q & -> & Fe & Fq).
      destruct q as [|q0 [|q1 q]]; try discriminate. injection Fq as Hq.
      apply (fold_case_fixed 46) in H0; [|lia].
      apply (fold_case_fixed 63) in Hq; [|lia]. subst c0 q0.
      exists pre, e, (63%N :: rest), ext. repeat split; eauto.
      simpl. rewrite <- app_assoc. reflexivity.
    + specialize (E eq_refl). subst rest.
      unfold folded in F. apply map_eq_cons in F.
      destruct F as (c0 & e & -> & H0 & F).
      apply (fold_case_fixed 46) in H0; [|lia]. subst c0.
      exists pre, e, [], ext. repeat split; auto.
  - intros (pre & e & rest & ext & -> & Iext & F & [-> | [q ->]]).
    + exists pre, (46%N :: e), []. split; [reflexivity|].
      apply (words_complete r (46%N :: folded (str ext), true)).
      * apply I2. unfold ext_words. apply in_flat_map. exists ext.
        split; [exact Iext | right; left; reflexivity].
      * split; [simpl; f_equal; exact F | reflexivity].
    + exists pre, (46%N :: e ++ [63%N]), q. split.
      * simpl. rewrite <- app_assoc. reflexivity.
      * apply (words_complete r (46%N :: folded (str ext) ++ [63%N], false)).
        -- apply I2. unfold ext_words. apply in_flat_map. exists ext.
           split; [exact Iext | left; reflexivity].
        -- split; [|discriminate]. simpl. unfold folded in *.
           rewrite List.map_app, F. reflexivity.
Qed.

Lemma font_url_spec u :
  test Background.FONT_URL u = true <-> has_extension FONT_EXTENSIONS u.
Proof.
  rewrite <- FONT_L_denote. apply extension_pattern_spec; vm_compute; reflexivity.
Qed.

Lemma image_url_spec u :
  test Background.IMAGE_URL u = true <-> has_extension IMAGE_EXTENSIONS u.
Proof.
  rewrite <- IMAGE_L_denote. apply extension_pattern_spec; vm_compute; reflexivity.
Qed.

Lemma map_url_spec u :
  test Background.MAP_URL u = true <-> has_extension MAP_EXTENSIONS u.
Proof.
  rewrite <- MAP_L_denote. apply extension_pattern_spec; vm_compute; reflexivity.
Qed.

Lemma startsWith_spec p s : startsWith p s = true <-> exists rest, s = p ++ rest.
Proof.
  revert s. induction p as [|x p IH]; intros s; simpl.
  - split; [eauto | reflexivity].
  - destruct s as [|c s].
    + split; [discriminate | intros [rest H]; discriminate].
    + rewrite andb_true_iff, IH, N.eqb_eq. split.
      * intros [-> [rest ->]]. eauto.
      * intros [rest [= -> ->]]. eauto.
Qed.

Lemma includes_spec p s :
  includes p s = true <-> exists a b, s = a ++ p ++ b.
Proof.
  induction s as [|c s IH]; simpl; rewrite orb_true_iff, startsWith_spec.
  - split.
    + intros [[rest H] | H]; [|discriminate]. exists [], rest. exact H.
    + intros (a & b & H). left. destruct a; [eauto|discriminate].
  - rewrite IH. split.
    + intros [[rest H] | (a & b & ->)]; [exists [], rest; exact H|].
      exists (c :: a), b. reflexivity.
    + intros (a & b & H). destruct a as [|x a]; [left; eauto|].
      injection H as -> ->. right. eauto.
Qed.

Lemma excluded_by_default_type (ty : option jsstring) :
  default false (Background.default_excludedResourceTypes !! Background.type_key ty) = true
  <-> ty = Some (str "Font") \/ ty = Some (str "Image") \/ ty = Some (str "Media").
Proof.
  unfold Background.default_excludedResourceTypes.
  rewrite !lookup_insert, lookup_empty.
  split.
  - repeat case_decide; simpl; try discriminate; intros _;
      destruct ty as [t|]; simpl in *; try discriminate; subst; auto.
  - intros [-> | [-> | ->]]; reflexivity.
Qed.

Lemma has_extension_nonempty exts : ~ has_extension exts [].
Proof.
  intros (pre & e & rest & ext & H & _). symmetry in H.
  apply app_eq_nil in H. destruct H as [_ H]. discriminate H.
Qed.

(** C8. With the default settings the exclusion filter excludes exactly the
    requests whose declared resource category is Font, Image or Media
    (Stylesheet, Script and every other category pass), and the requests
    whose URL starts with data:, contains base64, or carries a font,
    image or source-map extension followed by the end of the URL or a
    question mark. The filter runs before anything else: an excluded
    request is neither stored, recorded as pending, nor handed to the
    bridge; every other request is stored as the newest entry of its tab,
    recorded as pending and handed to sendToBridge, which puts it on the
    wire when the bridge is open. *)
Theorem exclusion_filter_excludes_exactly (ty : option jsstring) (url : jsstring) :
  let excluded :=
    Background.shouldExcludeRequest Background.default_excludedResourceTypes
      Background.default_excludedPatterns ty url in
  (excluded = true <->
     (ty = Some (str "Font") \/ ty = Some (str "Image") \/ ty = Some (str "Media"))
     \/ (exists rest, url = str "data:" ++ rest)
     \/ (exists a b, url = a ++ str "base64" ++ b)
     \/ has_extension FONT_EXTENSIONS url
     \/ has_extension IMAGE_EXTENSIONS url
     \/ has_extension MAP_EXTENSIONS url)
  /\ forall (w : Background.Worker) (tabId : Z) (now requestId method rest : jsstring),
       Background.excludedResourceTypes w = Background.default_excludedResourceTypes ->
       Background.excludedPatterns w = Background.default_excludedPatterns ->
       let w' := Background.onEvent tabId now
                   (Background.requestWillBeSent requestId ty url method rest) w in
       let request := request_entry requestId ty url method rest now in
       let before := default [] (Background.allNetworkRequests w !! tabId) in
       if excluded then
         Background.allNetworkRequests w' !! tabId = Some before
         /\ Background.pendingRequests w' = Background.pendingRequests w
         /\ Background.bridge w' = Background.bridge w
       else
         Background.allNetworkRequests w' !! tabId
         = Some (push_capped 100 request before)
         /\ List.last (push_capped 100 request before) request = request
         /\ Background.pendingRequests w' !! requestId = Some request
         /\ Background.bridge w'
            = Background.sendToBridge (Background.network_request tabId request)
                (Background.bridge w)
         /\ (Background.is_open (Background.bridge w) = true ->
             exists h, Background.wire (Background.bridge w')
                       = Background.wire (Background.bridge w)
                         ++ [(h, Background.network_request tabId request)]).
Proof.
  intro excluded. split.
  - subst excluded. unfold Background.shouldExcludeRequest.
    pose proof (excluded_by_default_type ty) as HT.
    destruct (default false _) eqn:T.
    + split; [intros _; left; apply HT; reflexivity | reflexivity].
    + assert (NT : ~ (ty = Some (str "Font") \/ ty = Some (str "Image")
                      \/ ty = Some (str "Media"))).
      { intros H. apply HT in H. discriminate H. }
      destruct url as [|c u].
      * split; [discriminate|].
        intros [H | [[rest H] | [(a & b & H) | [H | [H | H]]]]].
        -- contradiction.
        -- discriminate H.
        -- destruct a; discriminate H.
        -- exact (False_ind _ (has_extension_nonempty _ H)).
        -- exact (False_ind _ (has_extension_nonempty _ H)).
        -- exact (False_ind _ (has_extension_nonempty _ H)).
      * set (url := (c :: u)). cbn [Background.base64 Background.fonts
          Background.images Background.sourcemaps
          Background.default_excludedPatterns andb].
        rewrite <- startsWith_spec, <- includes_spec, <- font_url_spec,
          <- image_url_spec, <- map_url_spec.
        destruct (startsWith (str "data:") url); [simpl; tauto|].
        destruct (includes (str "base64") url); [simpl; tauto|].
        destruct (test Background.FONT_URL url); [simpl; tauto|].
        destruct (test Background.IMAGE_URL url); [simpl; tauto|].
        destruct (test Background.MAP_URL url); [simpl; tauto|].
        simpl. split; [discriminate|]. intros [H | [H | [H | [H | [H | H]]]]];
          try discriminate H. contradiction.
  - intros w tabId now requestId method rest HT HP w' request before.
    subst w'. unfold Background.onEvent.
    assert (E : forall w0,
               Background.excludedResourceTypes w0 = Background.excludedResourceTypes w ->
               Background.excludedPatterns w0 = Background.excludedPatterns w ->
               Background.shouldExcludeRequest (Background.excludedResourceTypes w0)
                 (Background.excludedPatterns w0) ty url = excluded).
    { intros w0 -> ->. rewrite HT, HP. reflexivity. }
    clearbody excluded. subst before.
    destruct (Background.allNetworkRequests w !! tabId) as [l|] eqn:L;
      cbv zeta beta iota; rewrite ?L;
      cbn [Background.excludedResourceTypes Background.excludedPatterns
           Background.set_requests];
      rewrite (E w eq_refl eq_refl);
      cbn [default]; destruct excluded.
    + repeat split. exact L.
    + cbn. rewrite !lookup_insert_eq. fold request.
      repeat split; try reflexivity.
      * unfold push_capped. destruct (_ <? _)%nat.
        -- destruct l; simpl; [reflexivity|]. apply last_last.
        -- apply last_last.
      * intros Ho. unfold Background.sendToBridge. rewrite Ho. cbn. eauto.
    + cbn. rewrite lookup_insert_eq. repeat split.
    + cbn. rewrite !lookup_insert_eq. fold request.
      repeat split; try reflexivity.
      intros Ho. unfold Background.sendToBridge. rewrite Ho. cbn. eauto.
Qed.

Lemma exclusion_filter_excludes_exactly_witness :
  Background.shouldExcludeRequest Background.default_excludedResourceTypes
    Background.default_excludedPatterns None (str "https://cdn.test/Inter.WOFF2?v=3") = true
  /\ Background.allNetworkRequests
       (Background.onEvent 7 (str "2024-01-01T00:00:00.000Z")
          (Background.requestWillBeSent (str "r1") (Some (str "Script"))
             (str "https://x.test/app.js") (str "GET") [])
          Background.worker_init) !! 7%Z
     = Some [request_entry (str "r1") (Some (str "Script")) (str "https://x.test/app.js")
               (str "GET") [] (str "2024-01-01T00:00:00.000Z")].
Proof.
  split.
  - apply (proj2 (proj1 (exclusion_filter_excludes_exactly None
                           (str "https://cdn.test/Inter.WOFF2?v=3")))).
    right; right; right; left.
    exists (str "https://cdn.test/Inter"), (str "WOFF2"), (str "?v=3"), "woff2"%string.
    split; [reflexivity|]. split; [simpl; tauto|]. split; [reflexivity|].
    right. exists (str "v=3"). reflexivity.
  - pose proof (proj2 (exclusion_filter_excludes_exactly (Some (str "Script"))
                         (str "https://x.test/app.js"))
                  Background.worker_init 7%Z (str "2024-01-01T00:00:00.000Z")
                  (str "r1") (str "GET") [] eq_refl eq_refl) as H.
    cbv zeta in H.
    change (Background.shouldExcludeRequest Background.default_excludedResourceTypes
              Background.default_excludedPatterns (Some (str "Script"))
              (str "https://x.test/app.js")) with false in H.
    exact (proj1 H).
Defined.

(** ** Replacement of all matches *)

Lemma unmatched_tail r c s : unmatched r (c :: s) -> unmatched r s.
Proof. intros H pre t ->. apply (H (c :: pre)). reflexivity. Qed.

Lemma replace_all_unmatched r by_ s : unmatched r s -> replace_all r by_ s = s.
Proof.
  unfold replace_all. induction s as [|c s IH]; intros H; simpl.
  - rewrite (H [] [] eq_refl). reflexivity.
  - rewrite (H [] (c :: s) eq_refl). rewrite IH; [reflexivity|].
    eapply unmatched_tail, H.
Qed.

Lemma replace_from_Forall (Q : N -> Prop) r by_ skip s :
  Forall Q by_ -> Forall Q s -> Forall Q (replace_from r by_ skip s).
Proof.
  intros Hb Hs. revert skip. induction Hs as [|c s Hc Hs IH]; intros skip; simpl.
  - destruct skip; [destruct (exec_at r [])|]; auto.
  - destruct skip as [|n]; [|apply IH].
    destruct (exec_at r (c :: s)) as [rest|].
    + destruct (_ - _).
      * apply Forall_app. split; [exact Hb|]. constructor; [exact Hc | apply IH].
      * apply Forall_app. split; [exact Hb | apply IH].
    + constructor; [exact Hc | apply IH].
Qed.

Lemma replace_from_skip r by_ m rest :
  replace_from r by_ (length m) (m ++ rest) = replace_from r by_ 0 rest.
Proof. induction m as [|c m IH]; simpl; [reflexivity | exact IH]. Qed.

Lemma replace_all_match r by_ c m rest :
  exec_at r (c :: m ++ rest) = Some rest ->
  replace_all r by_ (c :: m ++ rest) = by_ ++ replace_all r by_ rest.
Proof.
  intros H. unfold replace_all. simpl. rewrite H.
  replace (S (length (m ++ rest)) - length rest) with (S (length m))
    by (rewrite length_app; lia).
  rewrite replace_from_skip. reflexivity.
Qed.

Lemma replace_all_step r by_ c s :
  exec_at r (c :: s) = None -> replace_all r by_ (c :: s) = c :: replace_all r by_ s.
Proof. intros H. unfold replace_all. simpl. rewrite H. reflexivity. Qed.

Lemma needs_matches bad r m rest :
  matches r m rest -> needs bad r -> existsb bad m = true.
Proof.
  induction 1 as [rest|p c rest Hp|r1 r2 m1 m2 rest _ IH1 _ IH2|r1 r2 m rest _ IH
                  |r1 r2 m rest _ IH|p min m rest Hm Hl|r m rest _ IH|];
    simpl; intros Hn; try contradiction.
  - rewrite (Hn c Hp). reflexivity.
  - rewrite existsb_app. destruct Hn as [Hn|Hn];
      [rewrite (IH1 Hn) | rewrite (IH2 Hn), orb_true_r]; reflexivity.
  - apply IH, Hn.
  - apply IH, Hn.
  - destruct Hn as [H1 Hc]. destruct m as [|c m]; simpl in *; [lia|].
    apply andb_true_iff in Hm. rewrite (Hc c (proj1 Hm)). reflexivity.
Qed.

Lemma free_of_unmatched bad r s :
  needs bad r -> free_of bad s = true -> unmatched r s.
Proof.
  intros Hn Hf pre t ->. destruct (exec_at r t) as [rest|] eqn:E; [|reflexivity].
  exfalso. destruct (exec_at_Some _ _ _ E) as (m & -> & M).
  pose proof (needs_matches bad _ _ _ M Hn) as Hb.
  apply existsb_exists in Hb. destruct Hb as (c & Hc & Hbad).
  unfold free_of in Hf. rewrite forallb_forall in Hf.
  assert (Hin : In c (pre ++ m ++ rest)).
  { apply in_or_app. right. apply in_or_app. left. exact Hc. }
  specialize (Hf c Hin). rewrite Hbad in Hf. discriminate Hf.
Qed.

Lemma free_of_Forall bad s :
  free_of bad s = true <-> Forall (fun c => bad c = false) s.
Proof.
  unfold free_of. rewrite forallb_forall, List.Forall_forall.
  split; intros H c Hc; specialize (H c Hc); destruct (bad c); auto; discriminate.
Qed.

Lemma replace_all_free_of bad r by_ s :
  free_of bad by_ = true -> free_of bad s = true ->
  free_of bad (replace_all r by_ s) = true.
Proof.
  rewrite !free_of_Forall. apply replace_from_Forall.
Qed.

(** ** Whitespace collapsing and trimming *)

Lemma no_ws_pair_app_r a b : no_ws_pair (a ++ b) = true -> no_ws_pair b = true.
Proof.
  induction a as [|c a IH]; simpl; [auto|].
  intros H. apply andb_true_iff in H. apply IH, H.
Qed.

Lemma head_space_app a b : a <> [] -> head_space (a ++ b) = head_space a.
Proof. destruct a; [contradiction | reflexivity]. Qed.

Lemma no_ws_pair_app_l a b : no_ws_pair (a ++ b) = true -> no_ws_pair a = true.
Proof.
  induction a as [|c a IH]; simpl; [auto|].
  intros H. apply andb_true_iff in H. destruct H as [H1 H2].
  rewrite (IH H2), andb_true_r.
  destruct a as [|d a]; [simpl; rewrite andb_false_r; reflexivity|].
  exact H1.
Qed.

Lemma rep_zero_Some p s : rep p 0 s Some <> None.
Proof.
  induction s as [|c s IH]; simpl; [discriminate|].
  destruct (p c); [|discriminate]. destruct (rep p 0 s Some); discriminate.
Qed.

(** A greedy repetition stops in front of a code unit outside the class. *)
Lemma rep_greedy p min s rest :
  rep p min s Some = Some rest ->
  exists m, s = m ++ rest /\ forallb p m = true /\ min <= length m
            /\ match rest with c :: _ => p c = false | [] => True end.
Proof.
  revert min. induction s as [|c s IH]; intros min H; simpl in H.
  - destruct min; [|discriminate]. injection H as <-. exists []. auto.
  - destruct (p c) eqn:Hp.
    + destruct (rep p (Nat.pred min) s Some) as [y|] eqn:Hr.
      * injection H as ->. destruct (IH _ Hr) as (m & -> & Hm & Hl & Hh).
        exists (c :: m). simpl. rewrite Hp, Hm. repeat split; auto. lia.
      * exfalso. destruct min; [|discriminate]. exact (rep_zero_Some _ _ Hr).
    + destruct min; [|discriminate]. injection H as <-.
      exists []. simpl. rewrite Hp. auto.
Qed.

Lemma ws_run_unmatched p min s :
  2 <= min -> (forall c, p c = true -> is_space c = true) ->
  no_ws_pair s = true -> unmatched (Rep p min) s.
Proof.
  intros Hmin Hp Hs pre t ->. apply no_ws_pair_app_r in Hs.
  destruct (exec_at (Rep p min) t) as [rest|] eqn:E; [|reflexivity].
  exfalso. destruct (rep_greedy _ _ _ _ E) as (m & -> & Hm & Hl & _).
  destruct m as [|c [|d m]]; simpl in Hl; try lia.
  simpl in Hm, Hs. apply andb_true_iff in Hm. destruct Hm as [Hc Hm].
  apply andb_true_iff in Hm. destruct Hm as [Hd _].
  rewrite (Hp c Hc), (Hp d Hd) in Hs. discriminate Hs.
Qed.

Lemma ws_pair_matched c d s :
  is_space c = true -> is_space d = true -> exec_at WS2 (c :: d :: s) <> None.
Proof.
  intros Hc Hd E.
  refine (exec_at_None WS2 [c; d] s E _).
  constructor; [simpl; rewrite Hc, Hd; reflexivity | simpl; lia].
Qed.

Lemma collapse_normal s :
  no_ws_pair (collapse s) = true
  /\ (head_space s = false -> head_space (collapse s) = false).
Proof.
  remember (length s) as n eqn:Hn. revert s Hn.
  induction n as [n IH] using lt_wf_ind. intros s Hn.
  destruct s as [|c s].
  - split; reflexivity.
  - unfold collapse in *. destruct (exec_at WS2 (c :: s)) as [rest|] eqn:E.
    + destruct (rep_greedy _ _ _ _ E) as (m & Hs & Hm & Hl & Hh).
      destruct m as [|c' m]; [simpl in Hl; lia|]. injection Hs as <- ->.
      rewrite (replace_all_match _ _ _ _ _ E).
      destruct (IH (length rest)) with (s := rest) as [N H];
        [subst n; simpl; rewrite length_app; lia | reflexivity |].
      assert (Hr : head_space rest = false) by (destruct rest; [reflexivity | exact Hh]).
      simpl in Hm. apply andb_true_iff in Hm. destruct Hm as [Hc _].
      split.
      * simpl. rewrite (H Hr), N. reflexivity.
      * simpl. rewrite Hc. discriminate.
    + rewrite (replace_all_step _ _ _ _ E).
      destruct (IH (length s)) with (s := s) as [N H];
        [subst n; simpl; lia | reflexivity |].
      split; [|simpl; auto]. simpl. rewrite N, andb_true_r.
      destruct (is_space c) eqn:Hc; [|reflexivity]. simpl.
      rewrite H; [reflexivity|].
      destruct s as [|d s]; [reflexivity|]. simpl.
      destruct (is_space d) eqn:Hd; [|reflexivity].
      exfalso. exact (ws_pair_matched c d s Hc Hd E).
Qed.

Lemma trimStart_suffix s : exists pre, s = pre ++ trimStart s.
Proof.
  induction s as [|c s [pre IH]]; simpl; [exists []; reflexivity|].
  destruct (is_space c); [|exists []; reflexivity].
  exists (c :: pre). simpl. f_equal. exact IH.
Qed.

Lemma head_space_trimStart s : head_space (trimStart s) = false.
Proof.
  induction s as [|c s IH]; simpl; [reflexivity|].
  destruct (is_space c) eqn:Hc; [exact IH | simpl; exact Hc].
Qed.

Lemma trimStart_fixed s : head_space s = false -> trimStart s = s.
Proof. destruct s as [|c s]; simpl; [reflexivity|]. intros ->. reflexivity. Qed.

(** [trim s] sits inside [s]. *)
Lemma trim_infix s : exists a b, s = a ++ trim s ++ b.
Proof.
  unfold trim. destruct (trimStart_suffix s) as [a Ha].
  destruct (trimStart_suffix (rev (trimStart s))) as [b Hb].
  exists a, (rev b). rewrite <- rev_app_distr, <- Hb, rev_involutive. exact Ha.
Qed.

Lemma trim_idempotent s : trim (trim s) = trim s.
Proof.
  unfold trim. set (y := trimStart s). set (z := trimStart (rev y)).
  assert (Hz : head_space z = false) by apply head_space_trimStart.
  assert (Hy : head_space (rev z) = false).
  { destruct (trimStart_suffix (rev y)) as [b Hb]. fold z in Hb.
    assert (E : y = rev z ++ rev b)
      by (rewrite <- rev_app_distr, <- Hb, rev_involutive; reflexivity).
    destruct (rev z) as [|c w] eqn:R; [reflexivity|].
    pose proof (head_space_trimStart s) as Hh. fold y in Hh. rewrite E in Hh.
    exact Hh. }
  rewrite (trimStart_fixed _ Hy), rev_involutive, (trimStart_fixed _ Hz).
  reflexivity.
Qed.

Lemma trim_no_ws_pair s : no_ws_pair s = true -> no_ws_pair (trim s) = true.
Proof.
  intros H. destruct (trim_infix s) as (a & b & E). rewrite E in H.
  apply no_ws_pair_app_r in H. apply no_ws_pair_app_l in H. exact H.
Qed.

Lemma trim_free_of bad s : free_of bad s = true -> free_of bad (trim s) = true.
Proof.
  intros H. destruct (trim_infix s) as (a & b & E). rewrite E in H.
  unfold free_of in *. rewrite !forallb_app in H.
  apply andb_true_iff in H. destruct H as [_ H].
  apply andb_true_iff in H. exact (proj1 H).
Qed.

(** ** Cleaning of error messages *)

Lemma junk_patterns_need_key : Forall (needs is_key) Content.JUNK_PATTERNS.
Proof.
  unfold Content.JUNK_PATTERNS.
  repeat (apply List.Forall_cons; [cbv -[is_key eq_char N.eqb]; find_key|]).
  apply List.Forall_nil.
Qed.

Lemma later_patterns_need_key :
  needs is_key (seqs [lit "("; Rep is_space 0; lit ")"])
  /\ needs is_key Content.WEBPACK_INTERNAL
  /\ needs is_key (lit ".next/server/")
  /\ needs is_key (lit ".next/static/chunks/").
Proof. repeat split; cbv -[is_key eq_char N.eqb]; find_key. Qed.

Lemma apply_junk_plain s : free_of is_key s = true -> Content.apply_junk s = s.
Proof.
  intros Hs. unfold Content.apply_junk.
  pose proof junk_patterns_need_key as HF. revert HF.
  generalize Content.JUNK_PATTERNS as l.
  induction l as [|r l IH]; intros HF; simpl; [reflexivity|].
  inversion HF as [|? ? Hr Hl]; subst.
  rewrite replace_all_unmatched by (eapply free_of_unmatched; eassumption).
  apply IH, Hl.
Qed.

(** On a message without rule keys, cleaning is whitespace collapsing
    followed by trimming. *)
Lemma clean_plain m :
  free_of is_key m = true -> Content.cleanErrorMessage m = trim (collapse m).
Proof.
  intros Hm. destruct m as [|c m]; [reflexivity|].
  cbv beta iota zeta delta [Content.cleanErrorMessage].
  rewrite (apply_junk_plain _ Hm). fold WS2. fold (collapse (c :: m)).
  set (x := collapse (c :: m)).
  assert (Hx : free_of is_key x = true)
    by (apply replace_all_free_of; [reflexivity | exact Hm]).
  assert (Nx : no_ws_pair x = true) by apply collapse_normal.
  destruct later_patterns_need_key as (K1 & K2 & K3 & K4).
  rewrite (replace_all_unmatched (Rep (eq_char 10) 3)).
  2:{ apply ws_run_unmatched; [lia | | exact Nx].
      intros d Hd. apply N.eqb_eq in Hd. subst d. reflexivity. }
  rewrite (replace_all_unmatched _ _ x) by (eapply free_of_unmatched; eassumption).
  rewrite (replace_all_unmatched _ _ x) by (eapply free_of_unmatched; eassumption).
  rewrite (replace_all_unmatched _ _ x) by (eapply free_of_unmatched; eassumption).
  rewrite (replace_all_unmatched _ _ x) by (eapply free_of_unmatched; eassumption).
  reflexivity.
Qed.

(** ** Cleaning shortens or fixes *)

Lemma replace_from_shrinks r by_ s :
  (by_ = [] \/ forall t rest, exec_at r t = Some rest ->
                              length by_ < length t - length rest) ->
  forall k,
    length (replace_from r by_ k s) + Nat.min k (length s) <= length s
    /\ (length (replace_from r by_ k s) + Nat.min k (length s) = length s ->
        replace_from r by_ k s = skipn k s).
Proof.
  intros Hby. induction s as [|c s IH]; intros k.
  - destruct k; simpl; [|split; auto].
    destruct (exec_at r []) as [rest|] eqn:E; [|split; auto].
    destruct Hby as [-> | Hby]; [split; auto|].
    specialize (Hby _ _ E). simpl in Hby. lia.
  - destruct k as [|n].
    + assert (Keep : length (c :: replace_from r by_ 0 s) + Nat.min 0 (length (c :: s))
                     <= length (c :: s)
                     /\ (length (c :: replace_from r by_ 0 s)
                         + Nat.min 0 (length (c :: s)) = length (c :: s) ->
                         c :: replace_from r by_ 0 s = skipn 0 (c :: s))).
      { destruct (IH 0) as [L Q]. simpl in *. split; [lia|].
        intros H. f_equal. apply Q. lia. }
      simpl replace_from. destruct (exec_at r (c :: s)) as [rest|] eqn:E; [|exact Keep].
      remember (S (length s) - length rest) as d eqn:Len. destruct d as [|n].
      * destruct Hby as [-> | Hby]; [exact Keep|].
        specialize (Hby _ _ E). simpl in Hby. lia.
      * destruct (IH n) as [L _]. rewrite length_app. simpl in *.
        assert (Hb : length by_ <= n).
        { destruct Hby as [-> | Hby]; [simpl; lia|].
          specialize (Hby _ _ E). simpl in Hby. lia. }
        split; intros; lia.
    + destruct (IH n) as [L Q]. simpl in *. split; [lia|].
      intros H. apply Q. lia.
Qed.

Lemma shrinking_replace_all r by_ :
  (by_ = [] \/ forall t rest, exec_at r t = Some rest ->
                              length by_ < length t - length rest) ->
  shrinking (replace_all r by_).
Proof.
  intros Hby s. unfold replace_all.
  destruct (replace_from_shrinks r by_ s Hby 0) as [L Q]. simpl in *.
  split; [lia|]. intros H. apply Q. lia.
Qed.

Lemma shrinking_compose g h : shrinking g -> shrinking h -> shrinking (fun s => h (g s)).
Proof.
  intros Hg Hh s. destruct (Hg s) as [Lg Qg]. destruct (Hh (g s)) as [Lh Qh].
  split; [lia|]. intros H.
  assert (Eg : g s = s) by (apply Qg; lia). rewrite Eg in *. apply Qh. exact H.
Qed.

Lemma shrinking_trim : shrinking trim.
Proof.
  intros s. destruct (trim_infix s) as (a & b & E).
  assert (L : length s = length a + length (trim s) + length b)
    by (rewrite E at 1; rewrite !length_app; lia).
  split; [lia|]. intros H.
  destruct a; [|simpl in L; lia]. destruct b; [|simpl in L; lia].
  rewrite E at 2. simpl. rewrite app_nil_r. reflexivity.
Qed.

Lemma shrinking_fold (rs : list regex) :
  shrinking (fun s => fold_left (fun cleaned pattern => replace_all pattern [] cleaned) rs s).
Proof.
  induction rs as [|r rs IH]; simpl.
  - intros s. auto.
  - apply (shrinking_compose (replace_all r [])
             (fun s => fold_left (fun cleaned pattern => replace_all pattern [] cleaned) rs s)).
    + apply shrinking_replace_all. left. reflexivity.
    + exact IH.
Qed.

Lemma rep_match_length p min t rest :
  exec_at (Rep p min) t = Some rest -> min <= length t - length rest.
Proof.
  intros E. destruct (rep_greedy _ _ _ _ E) as (m & -> & _ & Hl & _).
  rewrite length_app. lia.
Qed.

Lemma shrinking_clean : shrinking Content.cleanErrorMessage.
Proof.
  intros m. destruct m as [|c m]; [split; reflexivity|].
  revert c m.
  assert (S : shrinking (fun s =>
    trim (replace_all (lit ".next/static/chunks/") []
      (replace_all (lit ".next/server/") []
        (replace_all Content.WEBPACK_INTERNAL []
          (replace_all (seqs [lit "("; Rep is_space 0; lit ")"]) []
            (replace_all (Rep (eq_char 10) 3) [10; 10]%N
              (replace_all (Rep is_space 2) (str " ")
                 (Content.apply_junk s))))))))).
  { repeat (refine (shrinking_compose _ _ _ _); [|first
      [ apply shrinking_trim
      | apply shrinking_replace_all; left; reflexivity
      | apply shrinking_replace_all; right; intros t rest E;
        apply rep_match_length in E; simpl; lia ]]).
    apply shrinking_fold. }
  intros c m. exact (S (c :: m)).
Qed.

Lemma iter_fixed {A : Type} (f : A -> A) (x : A) (n : nat) :
  f x = x -> Nat.iter n f x = x.
Proof. intros H. induction n as [|n IH]; simpl; [reflexivity | rewrite IH; exact H]. Qed.

(** Repeated cleaning reaches a fixed point within [length m] passes. *)
Lemma clean_converges (n : nat) (m : jsstring) :
  length m <= n ->
  Content.cleanErrorMessage (Nat.iter n Content.cleanErrorMessage m)
  = Nat.iter n Content.cleanErrorMessage m.
Proof.
  revert m. induction n as [|n IH]; intros m Hn.
  - destruct m; [reflexivity | simpl in Hn; lia].
  - destruct (decide (Content.cleanErrorMessage m = m)) as [E|E].
    + rewrite (iter_fixed _ _ _ E). exact E.
    + rewrite Nat.iter_succ_r. apply IH.
      destruct (shrinking_clean m) as [L Q].
      assert (length (Content.cleanErrorMessage m) <> length m) by (intros H; auto).
      lia.
Qed.

(** C2, as stated, fails: one pass removes only the innermost empty pair of
    parentheses, a second pass removes the pair left over. *)
Lemma cleaning_twice_differs :
  ~ (forall m : jsstring,
        Content.cleanErrorMessage (Content.cleanErrorMessage m)
        = Content.cleanErrorMessage m).
Proof.
  intro H. specialize (H (str "(())")). vm_compute in H. discriminate H.
Qed.

(** C2, amended. For every message that contains none of the code units
    ( [ @ / _ . on which the removal rules key, cleaning amounts to
    collapsing each run of two or more whitespace code units into one
    space and trimming, and applying the full rule set twice gives the
    same result as applying it once. For every message, one pass returns
    the message itself or something strictly shorter, so that repeating
    the rule set reaches a fixed point within as many passes as the
    message has code units. *)
Theorem cleaning_is_idempotent_on_plain_messages (m : jsstring) :
  (free_of is_key m = true ->
   Content.cleanErrorMessage (Content.cleanErrorMessage m) = Content.cleanErrorMessage m
   /\ Content.cleanErrorMessage m = trim (replace_all (Rep is_space 2) (str " ") m))
  /\ (Content.cleanErrorMessage m = m
      \/ length (Content.cleanErrorMessage m) < length m)
  /\ Content.cleanErrorMessage (Nat.iter (length m) Content.cleanErrorMessage m)
     = Nat.iter (length m) Content.cleanErrorMessage m.
Proof.
  split; [|split].
  - intros Hm. split; [|apply (clean_plain m Hm)].
    rewrite (clean_plain m Hm). set (t := trim (collapse m)).
    assert (Ht : free_of is_key t = true).
    { apply trim_free_of, replace_all_free_of; [reflexivity | exact Hm]. }
    assert (Nt : no_ws_pair t = true) by apply trim_no_ws_pair, collapse_normal.
    rewrite (clean_plain t Ht). unfold collapse.
    rewrite (replace_all_unmatched WS2 _ t).
    + apply trim_idempotent.
    + apply ws_run_unmatched; [lia | auto | exact Nt].
  - destruct (shrinking_clean m) as [L Q].
    destruct (Nat.eq_dec (length (Content.cleanErrorMessage m)) (length m)) as [E|E];
      [left; apply Q, E | right; lia].
  - apply clean_converges. lia.
Qed.

Lemma cleaning_is_idempotent_on_plain_messages_witness :
  let m := str "  TypeError:   x is not   a function " ++ [10; 10; 10]%N in
  Content.cleanErrorMessage m = str "TypeError: x is not a function"
  /\ Content.cleanErrorMessage (Content.cleanErrorMessage m)
     = Content.cleanErrorMessage m.
Proof.
  intro m. split; [vm_compute; reflexivity|].
  refine (proj1 (proj1 (cleaning_is_idempotent_on_plain_messages m) _)).
  vm_compute. reflexivity.
Defined.
(** ** Runs of the bridge server *)

Lemma length_push_capped_le {A : Type} (cap b : nat) (x : A) (l : list A) :
  cap <= b -> length l <= b -> length (push_capped cap x l) <= b.
Proof.
  intros Hb H. unfold push_capped. rewrite length_app. simpl.
  destruct (Nat.ltb_spec cap (length l + 1)) as [Hc|Hc].
  - destruct l as [|y l]; simpl in *; [lia|]. rewrite length_app. simpl. lia.
  - rewrite length_app. simpl. lia.
Qed.

Section ServerRunFacts.
Variable P : Platform.

(** What a request does to the two buffers: /clear empties them, a POST
    /ingest pushes at most one error, every other request leaves them. *)
Lemma handle_buffers (env : Bridge.Env) (req : Bridge.Request) (sv : Bridge.Server) :
  let sv' := fst (Node.handle P env req sv) in
  (Bridge.errors (Bridge.capturedData sv') = []
   /\ Bridge.network (Bridge.capturedData sv') = [])
  \/ (Bridge.network (Bridge.capturedData sv') = Bridge.network (Bridge.capturedData sv)
      /\ (Bridge.errors (Bridge.capturedData sv') = Bridge.errors (Bridge.capturedData sv)
          \/ exists entry,
               Bridge.errors (Bridge.capturedData sv')
               = push_capped 100 entry (Bridge.errors (Bridge.capturedData sv)))).
Proof using Type.
  cbv zeta. unfold Node.handle, Bridge.handle.
  destruct (jsstring_eqb (Bridge.req_method req) (str "OPTIONS")); [right; auto|].
  destruct (_ && _).
  { pose proof (ingest_buffers P env (Bridge.req_body req) sv) as H. cbv zeta in H.
    unfold Node.ingest in H.
    destruct (Bridge.ingest _ _ _ _ _ _ _) as [sv' [u|e]]; right; exact H. }
  destruct (_ || _); [right; auto|].
  destruct (jsstring_eqb _ (str "/errors")); [right; auto|].
  destruct (jsstring_eqb _ (str "/network")); [right; auto|].
  destruct (jsstring_eqb _ (str "/summary")).
  { destruct (Bridge.generateSummary _ _ _ _ _ _); right; auto. }
  destruct (jsstring_eqb _ (str "/clear")); [left; split; reflexivity | right; auto].
Qed.

Lemma server_step_bounds (p : Process) (e : server_event) (k : nat) :
  length (Bridge.errors (Bridge.capturedData (server p))) <= 100 ->
  length (Bridge.network (Bridge.capturedData (server p))) <= 200 + k ->
  length (Bridge.errors (Bridge.capturedData (server (server_step P p e)))) <= 100
  /\ length (Bridge.network (Bridge.capturedData (server (server_step P p e))))
     <= 200 + (k + if is_failure_frame P e then 1 else 0).
Proof using Type.
  intros He Hn. unfold server_step.
  destruct (running p); [|split; lia].
  destruct e as [env data|env req]; cbn [server is_failure_frame].
  - destruct (on_message_buffers P env data (server p)) as [-> ->].
    destruct (Json.is_str "console_error" (frame_type P data)) eqn:Hc.
    { split; [apply length_push_capped_le; lia | lia]. }
    destruct (Json.is_str "network_request" (frame_type P data)
              || Json.is_str "network_response" (frame_type P data)).
    { split; [lia|]. apply length_push_capped_le; lia. }
    destruct (Json.is_str "network_failure" (frame_type P data)).
    + split; [lia|]. rewrite length_app. cbn [length]. lia.
    + split; lia.
  - destruct (handle_buffers env req (server p)) as [[-> ->] | [-> [-> | [entry ->]]]];
      cbn [length]; split; try lia.
    apply length_push_capped_le; lia.
Qed.

Lemma server_run_bounds (evs : list server_event) (p : Process) (k : nat) :
  length (Bridge.errors (Bridge.capturedData (server p))) <= 100 ->
  length (Bridge.network (Bridge.capturedData (server p))) <= 200 + k ->
  length (Bridge.errors (Bridge.capturedData
            (server (fold_left (server_step P) evs p)))) <= 100
  /\ length (Bridge.network (Bridge.capturedData
               (server (fold_left (server_step P) evs p))))
     <= 200 + (k + length (List.filter (is_failure_frame P) evs)).
Proof using Type.
  revert p k. induction evs as [|e evs IH]; intros p k He Hn; simpl.
  - split; lia.
  - destruct (server_step_bounds p e k He Hn) as [He' Hn'].
    destruct (IH _ _ He' Hn') as [H1 H2]. split; [exact H1|].
    destruct (is_failure_frame P e); simpl; lia.
Qed.

Lemma saveData_mirrors (env : Bridge.Env) (sv : Bridge.Server) :
  writes_ok env -> mirrored P (Node.saveData P env sv).
Proof using Type.
  intros [H1 H2]. unfold mirrored, Node.saveData, Bridge.saveData. simpl.
  rewrite H1, H2. split; reflexivity.
Qed.

(** A frame whose logger returns ends in saveData or changes nothing. *)
Lemma on_message_saved (env : Bridge.Env) (data : jsstring) (sv : Bridge.Server) :
  logged P (Frame env data) = true ->
  Node.on_message P env data sv = sv
  \/ exists sv0, Node.on_message P env data sv = Node.saveData P env sv0.
Proof using Type.
  unfold logged, frame_type, Node.on_message, Bridge.on_message, Node.logError,
    Node.logNetwork, Node.saveData.
  destruct (JSON_parse P data) as [msg|]; [|left; reflexivity].
  unfold Json.get. destruct (Json.nullish msg) eqn:Hn; [left; reflexivity|].
  destruct (Json.is_str "console_error" (Json.get_opt "type" msg)).
  { destruct (Bridge.logError _ _); [|intros H; discriminate H].
    intros _. right. eexists. reflexivity. }
  destruct (Json.is_str "network_request" (Json.get_opt "type" msg)).
  { destruct (Bridge.logNetwork _ _ _ _); [|intros H; discriminate H].
    intros _. right. eexists. reflexivity. }
  destruct (Json.is_str "network_response" (Json.get_opt "type" msg)).
  { destruct (Bridge.logNetwork _ _ _ _); [|intros H; discriminate H].
    intros _. right. eexists. reflexivity. }
  destruct (Json.is_str "network_failure" (Json.get_opt "type" msg)).
  { destruct (Bridge.logNetwork _ _ _ _); [|intros H; discriminate H].
    intros _. right. eexists. reflexivity. }
  left. reflexivity.
Qed.

(** A frame whose logger throws: the entry is in its buffer and nothing
    else has changed. *)
Lemma on_message_unsaved (env : Bridge.Env) (data : jsstring) (sv : Bridge.Server) :
  logged P (Frame env data) = false ->
  exists msg,
    JSON_parse P data = Some msg
    /\ let entry := Json.get_opt "data" msg in
       let ty := Json.get_opt "type" msg in
       Node.on_message P env data sv
       = if Json.is_str "console_error" ty
         then Bridge.with_errors
                (push_capped 100 entry (Bridge.errors (Bridge.capturedData sv))) sv
         else if Json.is_str "network_failure" ty
         then Bridge.with_network (Bridge.network (Bridge.capturedData sv) ++ [entry]) sv
         else Bridge.with_network
                (push_capped 200 entry (Bridge.network (Bridge.capturedData sv))) sv.
Proof using Type.
  unfold logged, frame_type, Node.on_message, Bridge.on_message, Node.logError,
    Node.logNetwork.
  destruct (JSON_parse P data) as [msg|].
  2:{ cbn. intros H. discriminate H. }
  intros H. exists msg. split; [reflexivity|]. cbv zeta.
  unfold Json.get. destruct (Json.nullish msg) eqn:Hn.
  { rewrite (get_opt_nullish "type") in H by exact Hn. discriminate H. }
  destruct (Json.is_str "console_error" (Json.get_opt "type" msg)) eqn:Hc.
  { destruct (Bridge.logError _ _); [discriminate H | reflexivity]. }
  destruct (Json.is_str "network_request" (Json.get_opt "type" msg)) eqn:Hq.
  { apply is_str_eq in Hq. rewrite Hq in *. cbn [Json.is_str orb] in *.
    destruct (Bridge.logNetwork _ _ _ _); [discriminate H | reflexivity]. }
  destruct (Json.is_str "network_response" (Json.get_opt "type" msg)) eqn:Hr.
  { apply is_str_eq in Hr. rewrite Hr in *. cbn [Json.is_str orb] in *.
    destruct (Bridge.logNetwork _ _ _ _); [discriminate H | reflexivity]. }
  destruct (Json.is_str "network_failure" (Json.get_opt "type" msg)) eqn:Hf.
  { cbn [orb] in H. destruct (Bridge.logNetwork _ _ _ _); [discriminate H | reflexivity]. }
  discriminate H.
Qed.

(** What POST /ingest does, by its body. *)
Lemma handle_ingest (env : Bridge.Env) (req : Bridge.Request) (sv : Bridge.Server) :
  is_ingest req = true ->
  Node.handle P env req sv
  = match JSON_parse P (Bridge.req_body req) with
    | None => (sv, Ok (Bridge.json_response 400 Bridge.INVALID_JSON))
    | Some msg =>
        if Json.nullish msg then (sv, Ok (Bridge.json_response 400 Bridge.INVALID_JSON))
        else if is_server_error msg then
          let entry := Json.get_opt "data" msg in
          let pushed :=
            Bridge.with_errors
              (push_capped 100 entry (Bridge.errors (Bridge.capturedData sv))) sv in
          match Node.logServerError P entry with
          | Ok _ => (Node.saveData P env pushed, Ok (Bridge.json_response 200 Bridge.SUCCESS))
          | Throw _ => (pushed, Ok (Bridge.json_response 400 Bridge.INVALID_JSON))
          end
        else (sv, Ok (Bridge.json_response 200 Bridge.SUCCESS))
    end.
Proof using Type.
  unfold is_ingest, POST. intros H. pose proof H as H'.
  apply andb_true_iff in H'. destruct H' as [_ Hm]. apply jsstring_eqb_eq in Hm.
  unfold Node.handle, Bridge.handle. rewrite H. rewrite Hm at 1.
  change (jsstring_eqb (str "POST") (str "OPTIONS")) with false. cbv iota.
  unfold Bridge.ingest, is_server_error, Node.logServerError, Node.saveData.
  destruct (JSON_parse P (Bridge.req_body req)) as [msg|]; [|reflexivity].
  unfold Json.get. destruct (Json.nullish msg); [reflexivity|]. cbv zeta.
  clear H. destruct (Json.is_str _ _ && _); [|reflexivity].
  destruct (Bridge.logServerError _ _ _); reflexivity.
Qed.

(** A request other than a POST /ingest. *)
Lemma handle_other (env : Bridge.Env) (req : Bridge.Request) (sv : Bridge.Server) :
  is_ingest req = false ->
  let path := Bridge.path_of (Bridge.req_url req) in
  Node.handle P env req sv
  = if jsstring_eqb (Bridge.req_method req) (str "OPTIONS") then
      (sv, Ok {| Bridge.statusCode := 204; Bridge.contentType := None;
                 Bridge.content := [] |})
    else if jsstring_eqb path (str "/") || jsstring_eqb path (str "/data") then
      (sv, Ok (Bridge.json_response 200 (stringify_data P (Bridge.capturedData sv))))
    else if jsstring_eqb path (str "/errors") then
      (sv, Ok (Bridge.json_response 200
                 (stringify_errors P (Bridge.errors (Bridge.capturedData sv)))))
    else if jsstring_eqb path (str "/network") then
      (sv, Ok (Bridge.json_response 200
                 (stringify_network P (Bridge.network (Bridge.capturedData sv)))))
    else if jsstring_eqb path (str "/summary") then
      match Node.generateSummary P env (Bridge.capturedData sv) with
      | Ok summary =>
          (sv, Ok {| Bridge.statusCode := 200;
                     Bridge.contentType := Some (str "text/markdown");
                     Bridge.content := summary |})
      | Throw e => (sv, Throw e)
      end
    else if jsstring_eqb path (str "/clear") then
      (Node.saveData P env {| Bridge.capturedData := Bridge.cleared;
                              Bridge.files := Bridge.files sv |},
       Ok (Bridge.json_response 200 Bridge.DATA_CLEARED))
    else (sv, Ok (Bridge.json_response 404 Bridge.NOT_FOUND)).
Proof using Type.
  unfold is_ingest, POST. intros H. cbv zeta.
  unfold Node.handle, Bridge.handle. rewrite H. reflexivity.
Qed.

Lemma server_step_mirrored (p : Process) (e : server_event) :
  writes_ok (event_env e) -> logged P e = true ->
  server (server_step P p e) = server p \/ mirrored P (server (server_step P p e)).
Proof using Type.
  intros Hw Hl. unfold server_step.
  destruct (running p); [|left; reflexivity].
  destruct e as [env data|env req]; cbn [server event_env] in *.
  - destruct (on_message_saved env data (server p) Hl) as [-> | [sv0 ->]];
      [left; reflexivity | right; apply saveData_mirrors; exact Hw].
  - destruct (is_ingest req) eqn:Hi.
    + rewrite handle_ingest by exact Hi. unfold logged in Hl. rewrite Hi in Hl.
      destruct (JSON_parse P (Bridge.req_body req)) as [msg|]; [|left; reflexivity].
      destruct (Json.nullish msg); [left; reflexivity|].
      cbn [andb] in Hl. destruct (is_server_error msg); [|left; reflexivity].
      cbv zeta. destruct (Node.logServerError P _); [|discriminate Hl].
      right. apply saveData_mirrors. exact Hw.
    + rewrite handle_other by exact Hi. cbv zeta.
      repeat match goal with
      | |- context [if ?b then _ else _] => destruct b; try (left; reflexivity)
      end.
      * destruct (Node.generateSummary P env _); left; reflexivity.
      * right. apply saveData_mirrors. exact Hw.
Qed.

End ServerRunFacts.

(** X1. Whatever sequence of WebSocket frames and HTTP requests the bridge
    server handles from its start, the errors buffer (fed by console_error
    frames and by POST /ingest) never holds more than 100 entries, and the
    network buffer never holds more than 200 entries plus one for each
    network_failure frame received. *)
Theorem server_buffers_stay_bounded (P : Platform) (fs : Bridge.Files)
    (evs : list server_event) :
  let sv := server (server_run P fs evs) in
  length (Bridge.errors (Bridge.capturedData sv)) <= 100
  /\ length (Bridge.network (Bridge.capturedData sv))
     <= 200 + length (List.filter (is_failure_frame P) evs).
Proof.
  cbv zeta. unfold server_run.
  apply (server_run_bounds P evs _ 0); cbn; lia.
Qed.

(** X2. A handler that stores an entry calls saveData only after its logger
    has returned. As long as every write of saveData goes through and every
    logger returns, the two data files agree with the store once anything
    has been saved: after any sequence of frames and requests either the
    store is still the initial one and the files are as the earlier run
    left them (the server neither reads nor removes them), or both files
    hold exactly the serialized text of the current store. Requests that
    only read, frames of an unknown type and undecodable frames leave files
    and store in step. A frame or a POST /ingest whose logger throws leaves
    its entry in the buffer and writes nothing: the files and lastUpdate
    stay as they were, and the ingest is answered 400. *)
Theorem data_files_mirror_store (P : Platform) :
  (forall fs evs,
      Forall (fun e => writes_ok (event_env e)) evs ->
      Forall (fun e => logged P e = true) evs ->
      let sv := server (server_run P fs evs) in
      sv = Bridge.server_start fs \/ mirrored P sv)
  /\ (forall p e,
         writes_ok (event_env e) -> logged P e = true ->
         let sv' := server (server_step P p e) in
         sv' = server p \/ mirrored P sv')
  /\ (forall env data sv,
         logged P (Frame env data) = false ->
         exists msg,
           JSON_parse P data = Some msg
           /\ let entry := Json.get_opt "data" msg in
              let ty := Json.get_opt "type" msg in
              Node.on_message P env data sv
              = if Json.is_str "console_error" ty
                then Bridge.with_errors
                       (push_capped 100 entry (Bridge.errors (Bridge.capturedData sv))) sv
                else if Json.is_str "network_failure" ty
                then Bridge.with_network
                       (Bridge.network (Bridge.capturedData sv) ++ [entry]) sv
                else Bridge.with_network
                       (push_capped 200 entry (Bridge.network (Bridge.capturedData sv)))
                       sv)
  /\ (forall env req sv,
         logged P (Http env req) = false ->
         exists msg,
           JSON_parse P (Bridge.req_body req) = Some msg
           /\ Node.handle P env req sv
              = (Bridge.with_errors
                   (push_capped 100 (Json.get_opt "data" msg)
                      (Bridge.errors (Bridge.capturedData sv))) sv,
                 Ok (Bridge.json_response 400 Bridge.INVALID_JSON))).
Proof.
  split; [|split; [|split]].
  - intros fs evs Hw Hl. cbv zeta. unfold server_run.
    set (p0 := {| server := Bridge.server_start fs; running := true |}).
    assert (H0 : server p0 = Bridge.server_start fs \/ mirrored P (server p0))
      by (left; reflexivity).
    revert Hl H0. generalize p0. clear p0.
    induction Hw as [|e evs He Hw IH]; intros p Hl H0; cbn [fold_left].
    + exact H0.
    + apply List.Forall_cons_iff in Hl. destruct Hl as [Hl1 Hl].
      apply IH; [exact Hl|].
      destruct (server_step_mirrored P p e He Hl1) as [-> | Hm]; [exact H0 | right; exact Hm].
  - intros p e Hw Hl. apply server_step_mirrored; assumption.
  - intros env data sv Hl. apply (on_message_unsaved P env data sv Hl).
  - intros env req sv Hl. unfold logged in Hl.
    destruct (JSON_parse P (Bridge.req_body req)) as [msg|] eqn:Hp; [|discriminate Hl].
    destruct (is_ingest req) eqn:Hi; [|discriminate Hl].
    cbn [andb] in Hl. destruct (is_server_error msg) eqn:Hs; [|discriminate Hl].
    exists msg. split; [reflexivity|].
    rewrite handle_ingest by exact Hi. rewrite Hp.
    assert (Hn : Json.nullish msg = false).
    { unfold is_server_error in Hs. apply andb_true_iff in Hs. destruct Hs as [Hs _].
      apply (get_opt_defined "type"). apply is_str_eq in Hs. rewrite Hs. discriminate. }
    rewrite Hn, Hs. cbv zeta.
    destruct (Node.logServerError P _); [discriminate Hl | reflexivity].
Qed.

Lemma data_files_mirror_store_witness :
  let old := {| Bridge.DATA_FILE := Some (str "9/9@2023"); Bridge.PROJECT_DATA_FILE := None |} in
  let sv := server (server_run Sample.platform old
              [Frame Sample.env (str "q/api"); Http Sample.env (Sample.get "/summary");
               Frame Sample.env (str "f")]) in
  let lagging := Sample.on_message Sample.env Sample.NO_DATA sv in
  let posted := fst (Sample.handle Sample.env (ingest Sample.NUMBER_CLEANED) sv) in
  (Bridge.DATA_FILE (Bridge.files sv) = Some (str "0/2@2024-01-01T00:00:00.000Z")
   /\ mirrored Sample.platform sv)
  /\ (Bridge.errors (Bridge.capturedData lagging) = [Json.VUndefined]
      /\ Bridge.files lagging = Bridge.files sv
      /\ ~ mirrored Sample.platform lagging)
  /\ (Bridge.errors (Bridge.capturedData posted)
      = [Json.VObject [(str "cleaned", Json.VNumber (Json.number_of_Z 5))]]
      /\ Bridge.files posted = Bridge.files sv
      /\ ~ mirrored Sample.platform posted).
Proof.
  intros old sv lagging posted.
  pose proof (data_files_mirror_store Sample.platform) as (Hrun & _ & Hlag & Hpost).
  split; [|split].
  - specialize (Hrun old
                  [Frame Sample.env (str "q/api"); Http Sample.env (Sample.get "/summary");
                   Frame Sample.env (str "f")]).
    cbv zeta in Hrun. fold sv in Hrun.
    destruct Hrun as [H|H].
    + repeat constructor.
    + repeat constructor.
    + exfalso. revert H. vm_compute. discriminate.
    + split; [vm_compute; reflexivity | exact H].
  - destruct (Hlag Sample.env Sample.NO_DATA sv eq_refl) as (msg & Hp & H).
    injection Hp as <-. cbv zeta in H. unfold lagging, Sample.on_message. rewrite H.
    split; [vm_compute; reflexivity|]. split; [reflexivity|].
    intros [Hm _]. revert Hm. vm_compute. discriminate.
  - destruct (Hpost Sample.env (ingest Sample.NUMBER_CLEANED) sv eq_refl)
      as (msg & Hp & H).
    injection Hp as <-. unfold posted, Sample.handle. rewrite H.
    split; [vm_compute; reflexivity|]. split; [reflexivity|].
    intros [Hm _]. revert Hm. vm_compute. discriminate.
Defined.

(** X3. The URL shown in a log or summary line. An absent or empty URL (any
    falsy value) gives the empty text. A URL that parses is shown by its
    path and query: in full when that has at most 70 code units, and cut
    to its first 70 code units followed by three dots when it is longer. A
    text that does not parse as a URL is cut to its first 70 code units,
    with no dots. A truthy value that is neither a text nor converts to
    one that parses makes the function throw. So the text shown is never
    longer than 73 code units. *)
Theorem truncateUrl_is_bounded (P : Platform) (url : Json.jsval) :
  (Json.truthy url = false -> Node.truncateUrl P url = Ok [])
  /\ (forall u p,
         Json.truthy url = true -> Node.text P url = Ok u -> URL_path P u = Some p ->
         (length p <= 70 -> Node.truncateUrl P url = Ok p)
         /\ (70 < length p -> Node.truncateUrl P url = Ok (firstn 70 p ++ str "...")))
  /\ (forall u,
         url = Json.VString u -> u <> [] -> URL_path P u = None ->
         Node.truncateUrl P url = Ok (firstn 70 u))
  /\ (Json.truthy url = true -> (forall u, url <> Json.VString u) ->
      (forall u, Node.text P url = Ok u -> URL_path P u = None) ->
      Node.truncateUrl P url = Throw Json.TypeError)
  /\ (forall t, Node.truncateUrl P url = Ok t -> length t <= 73).
Proof.
  unfold Node.truncateUrl, Node.text, Bridge.truncateUrl.
  split; [|split; [|split; [|split]]].
  - intros ->. reflexivity.
  - intros u p -> -> ->. cbn [negb]. split; intros H.
    + destruct (Nat.ltb_spec 70 (length p)); [lia | reflexivity].
    + destruct (Nat.ltb_spec 70 (length p)); [reflexivity | lia].
  - intros u -> Hu Hp. destruct u as [|c u]; [contradiction Hu; reflexivity|].
    cbn [Json.truthy negb Bridge.text Json.to_string]. rewrite Hp. reflexivity.
  - intros -> Hs Hp. cbn [negb].
    destruct (Bridge.text (Number_toString P) url) as [u|e].
    + rewrite (Hp u eq_refl). destruct url; try reflexivity.
      contradiction (Hs s). reflexivity.
    + destruct url; try reflexivity. contradiction (Hs s). reflexivity.
  - intros t. destruct (negb (Json.truthy url)).
    { intros [= <-]. cbn. lia. }
    destruct (match Bridge.text (Number_toString P) url with
              | Ok s => URL_path P s
              | Throw _ => None
              end) as [p|].
    + intros [= <-]. destruct (Nat.ltb_spec 70 (length p)) as [H|H]; [|lia].
      rewrite length_app, length_firstn. change (length (str "...")) with 3. lia.
    + destruct url; cbn [Json.substring]; intros [= <-].
      rewrite length_firstn. lia.
Qed.

Lemma truncateUrl_is_bounded_witness :
  let long := str "/api/v1/organizations/12345/projects/67890/members?include=roles&page=12" in
  let relative := str "api/v1/organizations/12345/projects/67890/members?include=roles&page=12" in
  (length long = 72
   /\ Node.truncateUrl Sample.platform (Json.VString long)
      = Ok (str "/api/v1/organizations/12345/projects/67890/members?include=roles&page=..."))
  /\ (length relative = 71
      /\ Node.truncateUrl Sample.platform (Json.VString relative)
         = Ok (str "api/v1/organizations/12345/projects/67890/members?include=roles&page=1"))
  /\ Node.truncateUrl Sample.platform (Json.VNumber (Json.number_of_Z 5))
     = Throw Json.TypeError.
Proof.
  intros long relative. split; [|split].
  - split; [reflexivity|].
    apply (proj2 (proj1 (proj2 (truncateUrl_is_bounded Sample.platform
                                  (Json.VString long))) long long
                    eq_refl eq_refl eq_refl)).
    vm_compute. lia.
  - split; [reflexivity|].
    apply (proj1 (proj2 (proj2 (truncateUrl_is_bounded Sample.platform
                                  (Json.VString relative))))
             relative eq_refl); [discriminate | reflexivity].
  - apply (proj1 (proj2 (proj2 (proj2 (truncateUrl_is_bounded Sample.platform
                                         (Json.VNumber (Json.number_of_Z 5))))))).
    + reflexivity.
    + intros u H. discriminate H.
    + intros u H. vm_compute in H. injection H as <-. reflexivity.
Defined.
(** ** Runs of the service worker *)

(** What the debugger listener does to the buffers: the errors are left
    alone, and the list of the tab is kept, extended under the cap, or (for
    a failure) extended without it. *)
Lemma onEvent_buffers (tabId : Z) (now : jsstring) (ev : Background.debugger_event)
    (w : Background.Worker) :
  Background.allErrors (Background.onEvent tabId now ev w) = Background.allErrors w
  /\ exists l',
       Background.allNetworkRequests (Background.onEvent tabId now ev w)
       = <[tabId := l']> (Background.allNetworkRequests w)
       /\ (l' = tab_network w tabId
           \/ (exists x, l' = push_capped 100 x (tab_network w tabId))
           \/ (exists x, l' = tab_network w tabId ++ [x]
                         /\ is_failure_on tabId (DebuggerEvent tabId now ev) = true)).
Proof.
  unfold Background.onEvent, tab_network.
  destruct (Background.allNetworkRequests w !! tabId) as [l0|] eqn:E.
  - rewrite E. cbn [default from_option id].
    destruct ev; repeat match goal with
    | |- context [if ?b then _ else _] => destruct b
    end; worker_fields; (split; [reflexivity|]).
    all: try (exists l0; split; [symmetry; apply insert_id; exact E | left; reflexivity]).
    + eexists; split; [reflexivity | right; left; eexists; reflexivity].
    + eexists; split; [reflexivity | right; left; eexists; reflexivity].
    + eexists; split; [reflexivity|]. right; right. eexists; split; [reflexivity|].
      cbn. apply bool_decide_eq_true. reflexivity.
  - worker_fields. rewrite lookup_insert_eq. cbn [default from_option id].
    destruct ev; repeat match goal with
    | |- context [if ?b then _ else _] => destruct b
    end; worker_fields; (split; [reflexivity|]); rewrite ?insert_insert_eq.
    all: try (exists []; split; [reflexivity | left; reflexivity]).
    + eexists; split; [reflexivity | right; left; eexists; reflexivity].
    + eexists; split; [reflexivity | right; left; eexists; reflexivity].
    + eexists; split; [reflexivity|]. right; right. eexists; split; [reflexivity|].
      cbn. apply bool_decide_eq_true. reflexivity.
Qed.

Lemma onEvent_badge (tabId t : Z) (now : jsstring) (ev : Background.debugger_event)
    (w : Background.Worker) :
  t <> tabId ->
  Background.badge (Background.onEvent tabId now ev w) !! t = Background.badge w !! t.
Proof.
  intros Ht. unfold Background.onEvent.
  destruct (Background.allNetworkRequests w !! tabId) as [l0|] eqn:E;
    destruct ev; repeat match goal with
    | |- context [if ?b then _ else _] => destruct b
    end; worker_fields; rewrite ?lookup_insert_ne by congruence; reflexivity.
Qed.

Lemma onEvent_pending (tabId : Z) (now : jsstring) (ev : Background.debugger_event)
    (w : Background.Worker) (requestId : jsstring) :
  is_Some (Background.pendingRequests w !! requestId) ->
  is_Some (Background.pendingRequests (Background.onEvent tabId now ev w) !! requestId).
Proof.
  intros H. unfold Background.onEvent.
  destruct (Background.allNetworkRequests w !! tabId) as [l0|] eqn:E;
    destruct ev; repeat match goal with
    | |- context [if ?b then _ else _] => destruct b
    end; worker_fields; try exact H.
  all: rewrite lookup_insert; case_decide; [eexists; reflexivity | exact H].
Qed.

Lemma onEvent_settings (tabId : Z) (now : jsstring) (ev : Background.debugger_event)
    (w : Background.Worker) :
  Background.excludedResourceTypes (Background.onEvent tabId now ev w)
  = Background.excludedResourceTypes w
  /\ Background.excludedPatterns (Background.onEvent tabId now ev w)
     = Background.excludedPatterns w.
Proof.
  unfold Background.onEvent.
  destruct (Background.allNetworkRequests w !! tabId) as [l0|] eqn:E;
    destruct ev; repeat match goal with
    | |- context [if ?b then _ else _] => destruct b
    end; worker_fields; split; reflexivity.
Qed.

Lemma lookup_insert_other {A : Type} (m : gmap Z A) (i j : Z) (x : A) :
  Some i <> Some j -> <[i := x]> m !! j = m !! j.
Proof. intros H. apply lookup_insert_ne. congruence. Qed.

Lemma lookup_delete_other {A : Type} (m : gmap Z A) (i j : Z) :
  Some i <> Some j -> delete i m !! j = m !! j.
Proof. intros H. apply lookup_delete_ne. congruence. Qed.

Lemma worker_step_other_tab (w : Background.Worker) (e : worker_event) (t : Z) :
  event_tab e <> Some t ->
  Background.allErrors (worker_step w e) !! t = Background.allErrors w !! t
  /\ Background.allNetworkRequests (worker_step w e) !! t
     = Background.allNetworkRequests w !! t
  /\ Background.badge (worker_step w e) !! t = Background.badge w !! t.
Proof.
  intros Ht. destruct e as [tabId now ev|tabId err|msg|tabId|tabId|active m|be];
    cbn [worker_step event_tab] in *.
  - destruct (onEvent_buffers tabId now ev w) as (He & l' & Hn & _).
    rewrite He, Hn, lookup_insert_other by exact Ht.
    rewrite onEvent_badge by congruence. repeat split; reflexivity.
  - unfold Background.onErrorCaptured. worker_fields.
    rewrite !lookup_insert_other by exact Ht. repeat split; reflexivity.
  - destruct msg; cbn [Service.onMessage]; worker_fields;
      rewrite ?lookup_insert_other, ?lookup_delete_other by exact Ht;
      repeat split; reflexivity.
  - unfold Service.onRemoved. worker_fields.
    rewrite !lookup_delete_other by exact Ht. repeat split; reflexivity.
  - unfold Service.onUpdated_loading. worker_fields.
    rewrite !lookup_delete_other, lookup_insert_other by exact Ht.
    repeat split; reflexivity.
  - unfold Service.handleBridgeMessage.
    destruct (Service.cmd m); worker_fields; try (repeat split; reflexivity).
    destruct (Service.resolve_tab active m) as [t'|]; worker_fields;
      rewrite ?lookup_insert_other, ?lookup_delete_other by exact Ht;
      repeat split; reflexivity.
  - worker_fields. repeat split; reflexivity.
Qed.

Lemma worker_step_bounds (w : Background.Worker) (e : worker_event) (t : Z) (k : nat) :
  length (tab_errors w t) <= 100 ->
  length (tab_network w t) <= 100 + k ->
  length (tab_errors (worker_step w e) t) <= 100
  /\ length (tab_network (worker_step w e) t)
     <= 100 + (k + if is_failure_on t e then 1 else 0).
Proof.
  intros He Hn.
  destruct (decide (event_tab e = Some t)) as [Ht|Ht].
  2:{ destruct (worker_step_other_tab w e t Ht) as (H1 & H2 & _).
      unfold tab_errors, tab_network in *. rewrite H1, H2. split; lia. }
  unfold tab_errors, tab_network in *.
  destruct e as [tabId now ev|tabId err|msg|tabId|tabId|active m|be];
    cbn [worker_step event_tab is_failure_on] in *.
  - injection Ht as ->.
    destruct (onEvent_buffers t now ev w) as (E1 & l' & E2 & Hl).
    rewrite E1, E2, lookup_insert_eq. cbn [default from_option id]. split; [exact He|].
    unfold tab_network in Hl.
    destruct Hl as [->|[[x ->]|[x [-> Hf]]]].
    + match goal with |- context [if ?b then 1 else 0] => destruct b end; lia.
    + apply length_push_capped_le;
        match goal with |- context [if ?b then 1 else 0] => destruct b end; lia.
    + cbn [is_failure_on] in Hf. rewrite Hf, length_app. cbn [length]. lia.
  - injection Ht as ->. unfold Background.onErrorCaptured. worker_fields.
    rewrite lookup_insert_eq. cbn [default from_option id].
    split; [apply length_push_capped_le; lia | lia].
  - destruct msg; try discriminate; injection Ht as ->;
      cbn [Service.onMessage]; worker_fields; rewrite ?lookup_delete_eq;
      cbn [default from_option id length]; split; lia.
  - injection Ht as ->. unfold Service.onRemoved. worker_fields.
    rewrite !lookup_delete_eq. cbn [default from_option id length]. split; lia.
  - injection Ht as ->. unfold Service.onUpdated_loading. worker_fields.
    rewrite !lookup_delete_eq. cbn [default from_option id length]. split; lia.
  - unfold Service.handleBridgeMessage. rewrite Ht.
    destruct (Service.cmd m); worker_fields; rewrite ?lookup_delete_eq;
      cbn [default from_option id length]; split; lia.
  - discriminate Ht.
Qed.

Lemma worker_run_bounds (evs : list worker_event) (w : Background.Worker) (t : Z)
    (k : nat) :
  length (tab_errors w t) <= 100 ->
  length (tab_network w t) <= 100 + k ->
  length (tab_errors (fold_left worker_step evs w) t) <= 100
  /\ length (tab_network (fold_left worker_step evs w) t)
     <= 100 + (k + length (List.filter (is_failure_on t) evs)).
Proof.
  revert w k. induction evs as [|e evs IH]; intros w k He Hn; cbn [fold_left List.filter].
  - cbn [length]. split; lia.
  - destruct (worker_step_bounds w e t k He Hn) as [He' Hn'].
    destruct (IH _ _ He' Hn') as [H1 H2]. split; [exact H1|].
    destruct (is_failure_on t e); cbn [length]; lia.
Qed.

Lemma worker_step_pending (w : Background.Worker) (e : worker_event)
    (requestId : jsstring) :
  is_clear_command e = false ->
  is_Some (Background.pendingRequests w !! requestId) ->
  is_Some (Background.pendingRequests (worker_step w e) !! requestId).
Proof.
  intros Hc H. destruct e as [tabId now ev|tabId err|msg|tabId|tabId|active m|be];
    cbn [worker_step is_clear_command] in *.
  - apply onEvent_pending. exact H.
  - exact H.
  - destruct msg; exact H.
  - exact H.
  - exact H.
  - unfold Service.handleBridgeMessage.
    destruct (Service.cmd m); try discriminate; exact H.
  - exact H.
Qed.

Lemma worker_run_pending (evs : list worker_event) (w : Background.Worker)
    (requestId : jsstring) :
  forallb (fun e => negb (is_clear_command e)) evs = true ->
  is_Some (Background.pendingRequests w !! requestId) ->
  is_Some (Background.pendingRequests (fold_left worker_step evs w) !! requestId).
Proof.
  revert w. induction evs as [|e evs IH]; intros w Hc H; cbn [fold_left].
  - exact H.
  - cbn [forallb] in Hc. apply andb_true_iff in Hc as [Hc1 Hc2].
    apply IH; [exact Hc2|]. apply worker_step_pending; [|exact H].
    destruct (is_clear_command e); [discriminate | reflexivity].
Qed.

(** X4. In the service worker, whatever sequence of debugger events,
    ERROR_CAPTURED messages, popup messages about buffers and filter
    settings, bridge commands, connection events, tab closes and navigations
    is handled from the start, the errors kept for a tab never exceed 100
    and the network entries kept for a tab never exceed 100 plus the number
    of Network.loadingFailed events received for that tab. *)
Theorem worker_buffers_stay_bounded (evs : list worker_event) (t : Z) :
  let w := fold_left worker_step evs Background.worker_init in
  length (tab_errors w t) <= 100
  /\ length (tab_network w t) <= 100 + length (List.filter (is_failure_on t) evs).
Proof.
  cbv zeta. apply (worker_run_bounds evs Background.worker_init t 0).
  - unfold tab_errors. cbn [Background.worker_init Background.allErrors].
    rewrite lookup_empty. cbn. lia.
  - unfold tab_network. cbn [Background.worker_init Background.allNetworkRequests].
    rewrite lookup_empty. cbn. lia.
Qed.

(** X5. Every event the service worker handles is about at most one tab
    (the tab of the debugger source or of the sender, the tab named in a
    popup message, the tab that closed or navigated, the tab a bridge
    command resolves to): the errors, the network entries and the badge of
    every other tab are left exactly as they were. *)
Theorem worker_event_touches_one_tab (w : Background.Worker) (e : worker_event)
    (t : Z) :
  event_tab e <> Some t ->
  Background.allErrors (worker_step w e) !! t = Background.allErrors w !! t
  /\ Background.allNetworkRequests (worker_step w e) !! t
     = Background.allNetworkRequests w !! t
  /\ Background.badge (worker_step w e) !! t = Background.badge w !! t.
Proof. apply worker_step_other_tab. Qed.

Lemma worker_event_touches_one_tab_witness :
  let w := worker_step Background.worker_init
             (ErrorCaptured 1 (SampleWorker.error "boom")) in
  let w' := worker_step w (Command None (SampleWorker.clear_command 2)) in
  Background.allErrors w' !! 1%Z = Some [SampleWorker.error "boom"]
  /\ Background.badge w' !! 1%Z = Some (str "1", str "#e74c3c").
Proof.
  intros w w'.
  destruct (worker_event_touches_one_tab w
              (Command None (SampleWorker.clear_command 2)) 1) as (H1 & _ & H3).
  - cbn. discriminate.
  - fold w' in H1, H3. rewrite H1, H3. split; vm_compute; reflexivity.
Defined.

(** ** Requests, responses and the pending table *)

Lemma onEvent_request_pending (tabId : Z) (now requestId url method rest : jsstring)
    (ty : option jsstring) (w : Background.Worker) :
  Background.shouldExcludeRequest (Background.excludedResourceTypes w)
    (Background.excludedPatterns w) ty url = false ->
  is_Some (Background.pendingRequests
             (Background.onEvent tabId now
                (Background.requestWillBeSent requestId ty url method rest) w)
           !! requestId).
Proof.
  intros H. unfold Background.onEvent.
  destruct (Background.allNetworkRequests w !! tabId) as [l0|] eqn:E;
    worker_fields; rewrite H; worker_fields; rewrite lookup_insert_eq;
    eexists; reflexivity.
Qed.

Lemma onEvent_response (tabId : Z) (now requestId url rest : jsstring)
    (ty : option jsstring) (status : Z) (w : Background.Worker) :
  let w' := Background.onEvent tabId now
              (Background.responseReceived requestId ty url status rest) w in
  let response := response_entry requestId url status rest now in
  if negb (bool_decide (is_Some (Background.pendingRequests w !! requestId)))
     && Background.shouldExcludeRequest (Background.excludedResourceTypes w)
          (Background.excludedPatterns w) ty url
  then tab_network w' tabId = tab_network w tabId
       /\ Background.body_fetches w' = Background.body_fetches w
       /\ Background.bridge w' = Background.bridge w
  else tab_network w' tabId = push_capped 100 response (tab_network w tabId)
       /\ Background.body_fetches w' = Background.body_fetches w ++ [(tabId, requestId)]
       /\ Background.bridge w'
          = Background.sendToBridge (Background.network_response tabId response)
              (Background.bridge w).
Proof.
  cbv zeta. unfold Background.onEvent, tab_network.
  destruct (Background.allNetworkRequests w !! tabId) as [l0|] eqn:E; worker_fields.
  - rewrite E.
    destruct (negb _ && _); worker_fields; rewrite ?E, ?lookup_insert_eq;
      repeat split; reflexivity.
  - destruct (negb _ && _); worker_fields; rewrite ?lookup_insert_eq;
      cbn [default from_option id]; rewrite ?lookup_insert_eq; repeat split; reflexivity.
Qed.

(** X6. A response is kept whenever its request was kept. Once a
    Network.requestWillBeSent event has passed the exclusion filter, a later
    Network.responseReceived event with the same requestId is appended to
    the buffer of its tab (under the cap of 100), its body is requested and
    it is handed to sendToBridge, even if the filter (possibly changed in
    between) would exclude the response itself, and whatever was handled in
    between: other debugger events, captured errors, popup messages,
    connection events, tab closes and navigations never remove a pending
    request. Only the clear command of the bridge does. *)
Theorem response_to_recorded_request_is_kept
    (w : Background.Worker) (evs : list worker_event) (t t' : Z)
    (now now' requestId url method rest url' rest' : jsstring)
    (ty ty' : option jsstring) (status : Z) :
  Background.shouldExcludeRequest (Background.excludedResourceTypes w)
    (Background.excludedPatterns w) ty url = false ->
  forallb (fun e => negb (is_clear_command e)) evs = true ->
  let w1 := fold_left worker_step evs
              (Background.onEvent t now
                 (Background.requestWillBeSent requestId ty url method rest) w) in
  let w2 := Background.onEvent t' now'
              (Background.responseReceived requestId ty' url' status rest') w1 in
  let response := response_entry requestId url' status rest' now' in
  tab_network w2 t' = push_capped 100 response (tab_network w1 t')
  /\ Background.body_fetches w2 = Background.body_fetches w1 ++ [(t', requestId)]
  /\ Background.bridge w2
     = Background.sendToBridge (Background.network_response t' response)
         (Background.bridge w1).
Proof.
  intros Hx Hc w1 w2 response.
  assert (Hp : is_Some (Background.pendingRequests w1 !! requestId)).
  { apply worker_run_pending; [exact Hc|]. apply onEvent_request_pending. exact Hx. }
  pose proof (onEvent_response t' now' requestId url' rest' ty' status w1) as H.
  cbv zeta in H. rewrite (bool_decide_eq_true_2 _ Hp) in H. exact H.
Qed.

Lemma response_to_recorded_request_is_kept_witness :
  let w1 := fold_left worker_step
              [TabLoading 1;
               RuntimeMessage (Service.SET_EXCLUSION_SETTINGS
                                 (Some (<[str "Fetch" := true]> ∅)) None)]
              (Background.onEvent 1 SampleWorker.now
                 (SampleWorker.request "7" "https://app.test/api") Background.worker_init) in
  let w2 := Background.onEvent 1 SampleWorker.now
              (SampleWorker.response "7" "Fetch" "https://app.test/api" 200) w1 in
  Background.shouldExcludeRequest (Background.excludedResourceTypes w1)
    (Background.excludedPatterns w1) (Some (str "Fetch")) (str "https://app.test/api")
  = true
  /\ length (tab_network w1 1) = 0
  /\ length (tab_network w2 1) = 1.
Proof.
  intros w1 w2.
  destruct (response_to_recorded_request_is_kept Background.worker_init
              [TabLoading 1;
               RuntimeMessage (Service.SET_EXCLUSION_SETTINGS
                                 (Some (<[str "Fetch" := true]> ∅)) None)]
              1 1 SampleWorker.now SampleWorker.now (str "7")
              (str "https://app.test/api") (str "GET") [] (str "https://app.test/api") []
              (Some (str "Fetch")) (Some (str "Fetch")) 200) as (H & _).
  - vm_compute. reflexivity.
  - vm_compute. reflexivity.
  - split; [vm_compute; reflexivity|]. split; [vm_compute; reflexivity|].
    etransitivity; [exact (f_equal (@length _) H) | vm_compute; reflexivity].
Defined.

(** X7. The clear command of the bridge answers with a cleared message,
    deletes the errors and network entries of the tab it resolves to (a
    following get_all for that tab answers with two empty lists), and empties
    the table of pending requests of all tabs: after it, a response on any
    tab whose URL or type the filter excludes is dropped even when its
    request had been recorded before the clear. *)
Theorem bridge_clear_forgets_pending_requests
    (w : Background.Worker) (active : option Z) (m : Service.BridgeCommand) :
  Service.cmd m = Service.clear ->
  let w' := fst (Service.handleBridgeMessage active m w) in
  snd (Service.handleBridgeMessage active m w)
  = Some (Service.cleared (Service.cmd_requestId m))
  /\ Background.pendingRequests w' = ∅
  /\ (forall m', Service.cmd m' = Service.get_all ->
        Service.resolve_tab active m' = Service.resolve_tab active m ->
        Service.handleBridgeMessage active m' w'
        = (w', Some (Service.all_data (Service.cmd_requestId m') [] [])))
  /\ (forall t' now requestId ty url status rest,
        Background.shouldExcludeRequest (Background.excludedResourceTypes w)
          (Background.excludedPatterns w) ty url = true ->
        let w2 := Background.onEvent t' now
                    (Background.responseReceived requestId ty url status rest) w' in
        tab_network w2 t' = tab_network w' t'
        /\ Background.body_fetches w2 = Background.body_fetches w'
        /\ Background.bridge w2 = Background.bridge w').
Proof.
  intros Hc w'.
  assert (Hp : Background.pendingRequests w' = ∅).
  { subst w'. unfold Service.handleBridgeMessage. rewrite Hc.
    destruct (Service.resolve_tab active m); reflexivity. }
  assert (Hs : Background.excludedResourceTypes w' = Background.excludedResourceTypes w
               /\ Background.excludedPatterns w' = Background.excludedPatterns w).
  { subst w'. unfold Service.handleBridgeMessage. rewrite Hc.
    destruct (Service.resolve_tab active m); split; reflexivity. }
  split; [unfold Service.handleBridgeMessage; rewrite Hc; reflexivity|].
  split; [exact Hp|]. split.
  - intros m' Hg Ht. unfold Service.handleBridgeMessage at 1. rewrite Hg, Ht.
    subst w'. unfold Service.handleBridgeMessage. rewrite Hc.
    destruct (Service.resolve_tab active m) as [t|]; worker_fields;
      unfold Service.get_tab; rewrite ?lookup_delete_eq; reflexivity.
  - intros t' now requestId ty url status rest Hx.
    pose proof (onEvent_response t' now requestId url rest ty status w') as H.
    cbv zeta in H. destruct Hs as [Hs1 Hs2]. rewrite Hs1, Hs2, Hx, Hp in H.
    rewrite lookup_empty in H.
    rewrite bool_decide_eq_false_2 in H by (intros [x Hx']; discriminate Hx').
    exact H.
Qed.

Lemma bridge_clear_forgets_pending_requests_witness :
  let w := Background.onEvent 1 SampleWorker.now
             (SampleWorker.request "7" "https://app.test/api") Background.worker_init in
  let w' := fst (Service.handleBridgeMessage None (SampleWorker.clear_command 2) w) in
  let w2 := Background.onEvent 1 SampleWorker.now
              (SampleWorker.response "7" "Image" "https://app.test/api" 200) w' in
  length (tab_network w' 1) = 1 /\ length (tab_network w2 1) = 1
  /\ Background.body_fetches w2 = [].
Proof.
  intros w w' w2.
  destruct (bridge_clear_forgets_pending_requests w None (SampleWorker.clear_command 2)
              eq_refl) as (_ & _ & _ & H).
  destruct (H 1%Z SampleWorker.now (str "7") (Some (str "Image"))
              (str "https://app.test/api") 200%Z []) as (H1 & H2 & _).
  - vm_compute. reflexivity.
  - split; [vm_compute; reflexivity|].
    split; [etransitivity; [exact (f_equal (@length _) H1) | vm_compute; reflexivity]|].
    etransitivity; [exact H2 | vm_compute; reflexivity].
Defined.

(** X8. The Clear button of the popup sends CLEAR_TAB_ERRORS and then
    CLEAR_TAB_NETWORK. Afterwards both buffers of the tab read empty, but
    the badge of the tab was last computed between the two messages: it
    still shows the number of failed requests the tab had (failures and
    responses with a status of 400 or more), in the colour used when there
    are no errors, and is blank only if there were none. *)
Theorem popup_clear_keeps_failed_count_on_badge (w : Background.Worker) (t : Z) :
  let failed := length (List.filter Net.is_failed (tab_network w t)) in
  let w1 := fst (Service.onMessage (Service.CLEAR_TAB_ERRORS t) w) in
  let w2 := fst (Service.onMessage (Service.CLEAR_TAB_NETWORK t) w1) in
  Service.onMessage (Service.GET_ALL_DATA t) w2 = (w2, Service.reply_all [] [])
  /\ Background.badge w2 !! t
     = Some (if 0 <? failed then js_of_Z (Z.of_nat failed) else [], str "#f39c12").
Proof.
  cbv zeta. cbn [Service.onMessage]. worker_fields. unfold tab_network.
  rewrite !lookup_delete_eq, lookup_insert_eq. cbn [default from_option id length].
  split; reflexivity.
Qed.

(** ** Filter settings *)

Lemma if_true_or (c r : bool) :
  (if c then true else r) = true <-> c = true \/ r = true.
Proof. destruct c, r; intuition congruence. Qed.

(** The exclusion filter under arbitrary settings. *)
Lemma shouldExcludeRequest_spec (types : gmap jsstring bool)
    (pats : Background.Patterns) (ty : option jsstring) (url : jsstring) :
  Background.shouldExcludeRequest types pats ty url = true <->
    types !! Background.type_key ty = Some true
    \/ (Background.base64 pats = true
        /\ ((exists rest, url = str "data:" ++ rest)
            \/ exists a b, url = a ++ str "base64" ++ b))
    \/ (Background.fonts pats = true /\ has_extension FONT_EXTENSIONS url)
    \/ (Background.images pats = true /\ has_extension IMAGE_EXTENSIONS url)
    \/ (Background.sourcemaps pats = true /\ has_extension MAP_EXTENSIONS url).
Proof.
  unfold Background.shouldExcludeRequest.
  assert (Hempty : ~ ((Background.base64 pats = true
        /\ ((exists rest, [] = str "data:" ++ rest)
            \/ exists a b : jsstring, [] = a ++ str "base64" ++ b))
    \/ (Background.fonts pats = true /\ has_extension FONT_EXTENSIONS [])
    \/ (Background.images pats = true /\ has_extension IMAGE_EXTENSIONS [])
    \/ (Background.sourcemaps pats = true /\ has_extension MAP_EXTENSIONS []))).
  { intros [[_ [[rest H] | (a & b & H)]] | [[_ H] | [[_ H] | [_ H]]]].
    - discriminate H.
    - destruct a; discriminate H.
    - exact (has_extension_nonempty _ H).
    - exact (has_extension_nonempty _ H).
    - exact (has_extension_nonempty _ H). }
  assert (Hurl : forall u : jsstring,
    (if Background.base64 pats && (startsWith (str "data:") u || includes (str "base64") u)
     then true
     else if Background.fonts pats && test Background.FONT_URL u then true
     else if Background.images pats && test Background.IMAGE_URL u then true
     else if Background.sourcemaps pats && test Background.MAP_URL u then true
     else false) = true
    <-> (Background.base64 pats = true
         /\ ((exists rest, u = str "data:" ++ rest)
             \/ exists a b, u = a ++ str "base64" ++ b))
     \/ (Background.fonts pats = true /\ has_extension FONT_EXTENSIONS u)
     \/ (Background.images pats = true /\ has_extension IMAGE_EXTENSIONS u)
     \/ (Background.sourcemaps pats = true /\ has_extension MAP_EXTENSIONS u)).
  { intros u.
    rewrite <- startsWith_spec, <- includes_spec, <- font_url_spec,
      <- image_url_spec, <- map_url_spec.
    rewrite !if_true_or, !andb_true_iff, orb_true_iff.
    intuition congruence. }
  destruct (types !! Background.type_key ty) as [[|]|] eqn:T; cbn [default from_option id].
  - split; [intros _; left; reflexivity | reflexivity].
  - destruct url as [|c u].
    + split; [discriminate|]. intros [H|H]; [discriminate H | contradiction].
    + rewrite Hurl. split; [tauto|]. intros [H|H]; [discriminate H | exact H].
  - destruct url as [|c u].
    + split; [discriminate|]. intros [H|H]; [discriminate H | contradiction].
    + rewrite Hurl. split; [tauto|]. intros [H|H]; [discriminate H | exact H].
Qed.

Lemma type_key_eq (ty : option jsstring) (name : string) :
  str name <> str "undefined" ->
  Background.type_key ty = str name <-> ty = Some (str name).
Proof.
  intros Hn. destruct ty as [s|]; cbn.
  - split; [intros ->; reflexivity | intros [= ->]; reflexivity].
  - split; [intros H; exfalso; apply Hn; symmetry; exact H | discriminate].
Qed.

Lemma saved_types_lookup (form : Popup.FilterForm) (old : gmap jsstring bool)
    (k : jsstring) :
  ((<[str "Font" := default true (Popup.excludeFont form)]>
    (<[str "Image" := default true (Popup.excludeImage form)]>
    (<[str "Stylesheet" := default false (Popup.excludeStylesheet form)]>
    (<[str "Script" := default false (Popup.excludeScript form)]>
    (<[str "Media" := default true (Popup.excludeMedia form)]> ∅))))) ∪ old) !! k
  = if decide (k = str "Font") then Some (default true (Popup.excludeFont form))
    else if decide (k = str "Image") then Some (default true (Popup.excludeImage form))
    else if decide (k = str "Stylesheet")
         then Some (default false (Popup.excludeStylesheet form))
    else if decide (k = str "Script") then Some (default false (Popup.excludeScript form))
    else if decide (k = str "Media") then Some (default true (Popup.excludeMedia form))
    else old !! k.
Proof.
  rewrite lookup_union.
  destruct (decide (k = str "Font")) as [->|N1];
    [rewrite lookup_insert_eq; destruct (old !! _); reflexivity|].
  rewrite lookup_insert_ne by congruence.
  destruct (decide (k = str "Image")) as [->|N2];
    [rewrite lookup_insert_eq; destruct (old !! _); reflexivity|].
  rewrite lookup_insert_ne by congruence.
  destruct (decide (k = str "Stylesheet")) as [->|N3];
    [rewrite lookup_insert_eq; destruct (old !! _); reflexivity|].
  rewrite lookup_insert_ne by congruence.
  destruct (decide (k = str "Script")) as [->|N4];
    [rewrite lookup_insert_eq; destruct (old !! _); reflexivity|].
  rewrite lookup_insert_ne by congruence.
  destruct (decide (k = str "Media")) as [->|N5];
    [rewrite lookup_insert_eq; destruct (old !! _); reflexivity|].
  rewrite lookup_insert_ne by congruence.
  rewrite lookup_empty. destruct (old !! k); reflexivity.
Qed.

(** X9. Saving the filter form of the popup decides what the interceptor
    excludes from then on. The Font box governs both the Font resource type
    and URLs with a font extension, the Image box both the Image resource
    type and URLs with an image extension; the Stylesheet, Script and Media
    boxes govern their resource types; the base64 box governs data: URLs and
    URLs containing base64; the source-map box governs .map URLs. An absent
    box counts as ticked, except Stylesheet and Script. A resource type for
    which the form has no box keeps the setting it had before. *)
Theorem saved_filters_decide_exclusion (form : Popup.FilterForm)
    (w : Background.Worker) (ty : option jsstring) (url : jsstring) :
  let w' := fst (Service.onMessage (Popup.saveExclusionSettings form) w) in
  Background.shouldExcludeRequest (Background.excludedResourceTypes w')
    (Background.excludedPatterns w') ty url = true
  <-> (ticked (Popup.excludeFont form) true
       /\ (ty = Some (str "Font") \/ has_extension FONT_EXTENSIONS url))
   \/ (ticked (Popup.excludeImage form) true
       /\ (ty = Some (str "Image") \/ has_extension IMAGE_EXTENSIONS url))
   \/ (ticked (Popup.excludeStylesheet form) false /\ ty = Some (str "Stylesheet"))
   \/ (ticked (Popup.excludeScript form) false /\ ty = Some (str "Script"))
   \/ (ticked (Popup.excludeMedia form) true /\ ty = Some (str "Media"))
   \/ (ticked (Popup.excludeBase64 form) true
       /\ ((exists rest, url = str "data:" ++ rest)
           \/ exists a b, url = a ++ str "base64" ++ b))
   \/ (ticked (Popup.excludeSourcemaps form) true /\ has_extension MAP_EXTENSIONS url)
   \/ (~ In ty (List.map (fun name => Some (str name)) FORM_TYPES)
       /\ Background.excludedResourceTypes w !! Background.type_key ty = Some true).
Proof.
  cbv zeta. rewrite shouldExcludeRequest_spec.
  cbn [Service.onMessage Popup.saveExclusionSettings fst Service.with_settings
       Background.excludedResourceTypes Background.excludedPatterns
       Service.merge_patterns Background.base64 Background.fonts Background.images
       Background.sourcemaps Service.patch_base64 Service.patch_fonts
       Service.patch_images Service.patch_sourcemaps].
  rewrite saved_types_lookup. unfold ticked.
  change (default (Background.base64 (Background.excludedPatterns w))
            (Some (default true (Popup.excludeBase64 form))))
    with (default true (Popup.excludeBase64 form)).
  change (default (Background.fonts (Background.excludedPatterns w))
            (Some (default true (Popup.excludeFont form))))
    with (default true (Popup.excludeFont form)).
  change (default (Background.images (Background.excludedPatterns w))
            (Some (default true (Popup.excludeImage form))))
    with (default true (Popup.excludeImage form)).
  change (default (Background.sourcemaps (Background.excludedPatterns w))
            (Some (default true (Popup.excludeSourcemaps form))))
    with (default true (Popup.excludeSourcemaps form)).
  generalize (default true (Popup.excludeFont form)) as font.
  generalize (default true (Popup.excludeImage form)) as image.
  generalize (default false (Popup.excludeStylesheet form)) as css.
  generalize (default false (Popup.excludeScript form)) as script.
  generalize (default true (Popup.excludeMedia form)) as media.
  generalize (default true (Popup.excludeBase64 form)) as b64.
  generalize (default true (Popup.excludeSourcemaps form)) as maps.
  intros maps b64 media script css image font.
  generalize (has_extension FONT_EXTENSIONS url) as HF.
  generalize (has_extension IMAGE_EXTENSIONS url) as HI.
  generalize (has_extension MAP_EXTENSIONS url) as HM.
  generalize ((exists rest, url = str "data:" ++ rest)
              \/ exists a b, url = a ++ str "base64" ++ b) as HB.
  intros HB HM HI HF.
  pose proof (type_key_eq ty "Font" ltac:(discriminate)) as K1.
  pose proof (type_key_eq ty "Image" ltac:(discriminate)) as K2.
  pose proof (type_key_eq ty "Stylesheet" ltac:(discriminate)) as K3.
  pose proof (type_key_eq ty "Script" ltac:(discriminate)) as K4.
  pose proof (type_key_eq ty "Media" ltac:(discriminate)) as K5.
  assert (KN : In ty (List.map (fun name => Some (str name)) FORM_TYPES)
               <-> (ty = Some (str "Font") \/ ty = Some (str "Image")
                    \/ ty = Some (str "Stylesheet") \/ ty = Some (str "Script")
                    \/ ty = Some (str "Media"))).
  { cbn [FORM_TYPES List.map In]. intuition congruence. }
  rewrite KN. clear KN.
  assert (D12 : Some (str "Font") <> Some (str "Image")) by discriminate.
  assert (D13 : Some (str "Font") <> Some (str "Stylesheet")) by discriminate.
  assert (D14 : Some (str "Font") <> Some (str "Script")) by discriminate.
  assert (D15 : Some (str "Font") <> Some (str "Media")) by discriminate.
  assert (D23 : Some (str "Image") <> Some (str "Stylesheet")) by discriminate.
  assert (D24 : Some (str "Image") <> Some (str "Script")) by discriminate.
  assert (D25 : Some (str "Image") <> Some (str "Media")) by discriminate.
  assert (D34 : Some (str "Stylesheet") <> Some (str "Script")) by discriminate.
  assert (D35 : Some (str "Stylesheet") <> Some (str "Media")) by discriminate.
  assert (D45 : Some (str "Script") <> Some (str "Media")) by discriminate.
  generalize dependent (Some (str "Font")). intros tF.
  generalize dependent (Some (str "Image")). intros tI.
  generalize dependent (Some (str "Stylesheet")). intros tS.
  generalize dependent (Some (str "Script")). intros tJ.
  generalize dependent (Some (str "Media")). intros tM.
  intros.
  assert (SB : forall b : bool, Some b = Some true <-> b = true)
    by (intros b; split; congruence).
  repeat case_decide;
    repeat match goal with
    | H : Background.type_key ty = _ |- _ => first [apply K1 in H | apply K2 in H
        | apply K3 in H | apply K4 in H | apply K5 in H]
    | H : Background.type_key ty <> _ |- _ => first [rewrite K1 in H | rewrite K2 in H
        | rewrite K3 in H | rewrite K4 in H | rewrite K5 in H]
    end;
    clear K1 K2 K3 K4 K5; rewrite ?SB; clear SB;
    generalize dependent (font = true); generalize dependent (image = true);
    generalize dependent (css = true); generalize dependent (script = true);
    generalize dependent (media = true); generalize dependent (b64 = true);
    generalize dependent (maps = true); intros;
    try subst ty; intuition (try congruence).
Qed.

(** ** Truncated bodies *)

Lemma truthy_str_Some (s : option jsstring) (b : jsstring) :
  truthy_str s = Some b -> s = Some b /\ b <> [].
Proof.
  destruct s as [[|c s']|]; cbn; intros H; try discriminate H.
  injection H as <-. split; [reflexivity | discriminate].
Qed.

Lemma truthy_str_nonempty (b : jsstring) : b <> [] -> truthy_str (Some b) = Some b.
Proof. destruct b; [congruence | reflexivity]. Qed.

Lemma cut_stable (n : nat) (mark b : jsstring) :
  b <> [] -> mark <> [] ->
  let cut := fun b : jsstring => if n <? length b then firstn n b ++ mark else b in
  length (cut b) <= n + length mark
  /\ firstn n (cut b) = firstn n b
  /\ (length b <= n -> cut b = b)
  /\ cut (cut b) = cut b
  /\ cut b <> [].
Proof.
  intros Hb Hm cut. subst cut. cbv beta.
  destruct (Nat.ltb_spec n (length b)) as [H|H].
  - assert (L : length (firstn n b ++ mark) = n + length mark)
      by (rewrite length_app, length_firstn; lia).
    assert (F : firstn n (firstn n b ++ mark) = firstn n b).
    { rewrite firstn_app, length_firstn, firstn_firstn.
      replace (Nat.min n n) with n by lia.
      replace (n - Nat.min n (length b)) with 0 by lia.
      rewrite firstn_0. apply app_nil_r. }
    assert (0 < length mark) by (destruct mark; [congruence | cbn; lia]).
    split; [lia|]. split; [exact F|]. split; [lia|]. split.
    + destruct (Nat.ltb_spec n (length (firstn n b ++ mark))); [|lia].
      rewrite F. reflexivity.
    + intros E. apply (f_equal (@length _)) in E. rewrite L in E. cbn in E. lia.
  - split; [lia|]. split; [reflexivity|]. split; [reflexivity|]. split; [|exact Hb].
    destruct (Nat.ltb_spec n (length b)); [lia | reflexivity].
Qed.

(** X10. The body kept for a response is absent when the body is absent or
    empty; otherwise it is the body itself when that has at most 5000 code
    units, and its first 5000 code units followed by the 15 code units
    of the marker ... [truncated] when it is longer, so never more than 5015
    code units. Truncating again changes nothing. The popup shortens bodies
    for display the same way with 500 code units and three dots: the empty
    text for an absent or empty body, the body itself up to 500 code
    units, and its first 500 code units followed by the dots beyond. *)
Theorem truncateBody_caps_and_is_stable (body : option jsstring) :
  (Service.truncateBody body = None <-> truthy_str body = None)
  /\ (forall b, truthy_str body = Some b ->
        (length b <= 5000 -> Service.truncateBody body = Some b)
        /\ (5000 < length b ->
            Service.truncateBody body = Some (firstn 5000 b ++ str "... [truncated]")))
  /\ (forall b, truthy_str body = Some b ->
        exists r, Service.truncateBody body = Some r
          /\ length r <= 5000 + 15
          /\ firstn 5000 r = firstn 5000 b
          /\ (length b <= 5000 -> r = b)
          /\ Service.truncateBody (Some r) = Some r)
  /\ (Popup.truncateBody body = [] <-> truthy_str body = None)
  /\ (forall b, truthy_str body = Some b ->
        (length b <= 500 -> Popup.truncateBody body = b)
        /\ (500 < length b -> Popup.truncateBody body = firstn 500 b ++ str "..."))
  /\ length (Popup.truncateBody body) <= 503
  /\ Popup.truncateBody (Some (Popup.truncateBody body)) = Popup.truncateBody body.
Proof.
  assert (M15 : length (str "... [truncated]") = 15) by reflexivity.
  assert (M3 : length (str "...") = 3) by reflexivity.
  unfold Service.truncateBody, Popup.truncateBody.
  split; [|split; [|split; [|split; [|split]]]].
  - destruct (truthy_str body) as [b|]; [|tauto].
    destruct (5000 <? length b); split; discriminate.
  - intros b ->. split; intros H.
    + destruct (Nat.ltb_spec 5000 (length b)); [lia | reflexivity].
    + destruct (Nat.ltb_spec 5000 (length b)); [reflexivity | lia].
  - intros b Hb. rewrite Hb. apply truthy_str_Some in Hb as [_ Hb].
    destruct (cut_stable 5000 (str "... [truncated]") b Hb ltac:(discriminate))
      as (L & F & S & I & N).
    cbv beta in L, F, S, I, N. rewrite M15 in L.
    exists (if 5000 <? length b then firstn 5000 b ++ str "... [truncated]" else b).
    split; [destruct (5000 <? length b); reflexivity|].
    split; [exact L|]. split; [exact F|]. split; [exact S|].
    rewrite (truthy_str_nonempty _ N).
    set (r := if 5000 <? length b then firstn 5000 b ++ str "... [truncated]" else b)
      in *.
    transitivity (Some (if 5000 <? length r
                        then firstn 5000 r ++ str "... [truncated]" else r));
      [destruct (5000 <? length r); reflexivity | f_equal; exact I].
  - destruct (truthy_str body) as [b|] eqn:B; [|tauto].
    apply truthy_str_Some in B as [_ B].
    destruct (cut_stable 500 (str "...") b B ltac:(discriminate))
      as (_ & _ & _ & _ & N).
    cbv beta in N. split; [intros H; contradiction (N H) | intros H; discriminate H].
  - intros b ->. split; intros H.
    + destruct (Nat.ltb_spec 500 (length b)); [lia | reflexivity].
    + destruct (Nat.ltb_spec 500 (length b)); [reflexivity | lia].
  - destruct (truthy_str body) as [b|] eqn:B; [|split; [cbn; lia | reflexivity]].
    apply truthy_str_Some in B as [_ B].
    destruct (cut_stable 500 (str "...") b B ltac:(discriminate))
      as (L & F & S & I & N).
    cbv beta in L, F, S, I, N. rewrite M3 in L.
    split; [exact L|].
    pose (r := if 500 <? length b then firstn 500 b ++ str "..." else b).
    change (match truthy_str (Some r) with
            | Some b0 => if 500 <? length b0 then firstn 500 b0 ++ str "..." else b0
            | None => []
            end = r).
    change ((if 500 <? length r then firstn 500 r ++ str "..." else r) = r) in I.
    change (r <> []) in N. clearbody r.
    destruct r as [|c r]; [congruence | exact I].
Qed.

Lemma truncateBody_caps_and_is_stable_witness :
  let long := repeat 120%N (5000 + 1) in
  let page := repeat 120%N (500 + 1) in
  Service.truncateBody (Some long) = Some (repeat 120%N 5000 ++ str "... [truncated]")
  /\ Service.truncateBody (Some (str "{}")) = Some (str "{}")
  /\ Popup.truncateBody (Some page) = repeat 120%N 500 ++ str "..."
  /\ Popup.truncateBody (Some (str "{}")) = str "{}".
Proof.
  intros long page. split; [|split; [|split]].
  - etransitivity.
    + apply (proj2 (proj1 (proj2 (truncateBody_caps_and_is_stable (Some long)))
                      long eq_refl)).
      unfold long. rewrite repeat_length. lia.
    + vm_compute. reflexivity.
  - apply (proj1 (proj1 (proj2 (truncateBody_caps_and_is_stable (Some (str "{}"))))
                    (str "{}") eq_refl)).
    vm_compute. lia.
  - etransitivity.
    + apply (proj2 (proj1 (proj2 (proj2 (proj2 (proj2
               (truncateBody_caps_and_is_stable (Some page))))))
                      page eq_refl)).
      unfold page. rewrite repeat_length. lia.
    + vm_compute. reflexivity.
  - apply (proj1 (proj1 (proj2 (proj2 (proj2 (proj2
             (truncateBody_caps_and_is_stable (Some (str "{}")))))))
                    (str "{}") eq_refl)).
    vm_compute. lia.
Defined.
(** ** The early buffer of the page script *)

(** X11. The page script keeps the last 50 captured errors, oldest first,
    each with the time and page URL of its capture, and posts every captured
    payload to the content script, in order and without a limit. *)
Theorem early_buffer_keeps_last_fifty (calls : list capture) :
  let p := early_run calls in
  Early.earlyErrors p = slice_last 50 (List.map early_entry calls)
  /\ length (Early.earlyErrors p) <= 50
  /\ Early.posted p = List.map capture_data calls.
Proof.
  cbv zeta. unfold early_run.
  assert (G : forall calls p0 hist,
             Early.earlyErrors p0 = slice_last 50 hist ->
             let p := fold_left (fun p c => Early.captureError (capture_now c)
                                   (capture_href c) (capture_data c) p) calls p0 in
             Early.earlyErrors p = slice_last 50 (hist ++ List.map early_entry calls)
             /\ Early.posted p = Early.posted p0 ++ List.map capture_data calls).
  { clear calls. induction calls as [|c calls IH]; intros p0 hist H0; cbn [fold_left List.map].
    - rewrite !app_nil_r. split; [exact H0 | reflexivity].
    - destruct (IH (Early.captureError (capture_now c) (capture_href c)
                      (capture_data c) p0) (hist ++ [early_entry c])) as [I1 I2].
      + cbn [Early.captureError Early.earlyErrors]. rewrite H0.
        apply push_capped_slice_last.
      + rewrite I1, I2. cbn [Early.captureError Early.posted].
        rewrite <- !app_assoc. split; reflexivity. }
  destruct (G calls Early.page_init [] eq_refl) as [G1 G2]. cbn [app] in G1, G2.
  split; [exact G1|]. split; [|exact G2].
  rewrite G1, length_slice_last. lia.
Qed.

(** ** Labels of React errors *)

Lemma matches_lit_i (kw w rest : jsstring) :
  folded w = folded kw ->
  matches (fold_right (fun c r => Seq (Char (eq_char_i c)) r) Empty kw) w rest.
Proof.
  revert w. induction kw as [|x kw IH]; intros w H.
  - destruct w; [|discriminate H]. constructor.
  - destruct w as [|c w]; [discriminate H|]. cbn [folded List.map] in H.
    injection H as Hc Hw. cbn [fold_right].
    change (c :: w) with ([c] ++ w). apply m_seq.
    + constructor. unfold eq_char_i. apply N.eqb_eq. exact Hc.
    + apply IH. exact Hw.
Qed.

Lemma matches_lit_i_inv (kw w rest : jsstring) :
  matches (fold_right (fun c r => Seq (Char (eq_char_i c)) r) Empty kw) w rest ->
  folded w = folded kw.
Proof.
  revert w. induction kw as [|x kw IH]; intros w H; cbn [fold_right] in H.
  - inversion H. reflexivity.
  - inversion H as [| |r1 r2 m1 m2 rest' H1 H2| | | | |]; subst.
    inversion H1 as [|p c rest' Hc| | | | | |]; subst.
    unfold eq_char_i in Hc. apply N.eqb_eq in Hc.
    cbn [app folded List.map]. rewrite Hc. f_equal. apply IH. exact H2.
Qed.

Lemma matches_alts (r : regex) (rs : list regex) (m rest : jsstring) :
  In r rs -> matches r m rest -> matches (alts rs) m rest.
Proof.
  induction rs as [|r0 rs IH]; intros Hin Hm; [contradiction|].
  destruct rs as [|r1 rs].
  - destruct Hin as [->|[]]. exact Hm.
  - destruct Hin as [->|Hin].
    + apply m_alt_l. exact Hm.
    + apply m_alt_r. apply IH; assumption.
Qed.

Lemma matches_alts_inv (rs : list regex) (m rest : jsstring) :
  rs <> [] -> matches (alts rs) m rest -> exists r, In r rs /\ matches r m rest.
Proof.
  induction rs as [|r0 rs IH]; intros Hne Hm; [congruence|].
  destruct rs as [|r1 rs].
  - exists r0. split; [left; reflexivity | exact Hm].
  - cbn [alts] in Hm. inversion Hm; subst.
    + exists r0. split; [left; reflexivity | assumption].
    + destruct IH as (r & Hin & Hr); [discriminate | assumption |].
      exists r. split; [right; exact Hin | exact Hr].
Qed.

Lemma mentions_test (kw : string) (rs : list regex) (m : jsstring) :
  In (lit_i kw) rs -> mentions kw m -> test (alts rs) m = true.
Proof.
  intros Hin (pre & w & post & -> & Hw).
  apply test_spec. exists pre, w, post. split; [reflexivity|].
  apply (matches_alts (lit_i kw)); [exact Hin|]. apply matches_lit_i. exact Hw.
Qed.

Lemma mentions_nonempty (kw : string) (m : jsstring) :
  str kw <> [] -> mentions kw m -> m <> [].
Proof.
  intros Hk (pre & w & post & -> & Hw) E.
  apply app_eq_nil in E as [_ E]. apply app_eq_nil in E as [-> _].
  destruct (str kw); [congruence | discriminate Hw].
Qed.

(** A pattern that is an alternative of keywords finds exactly the texts
    that mention one of them. *)
Lemma test_keywords (kws : list string) (m : jsstring) :
  kws <> [] -> (test (alts (List.map lit_i kws)) m = true <-> mentions_one kws m).
Proof.
  intros Hne. rewrite test_spec. split.
  - intros (pre & w & post & -> & Hw).
    apply matches_alts_inv in Hw; [|destruct kws; [congruence | discriminate]].
    destruct Hw as (r & Hin & Hr). apply in_map_iff in Hin.
    destruct Hin as (kw & <- & Hin). exists kw. split; [exact Hin|].
    exists pre, w, post. split; [reflexivity|].
    apply (matches_lit_i_inv _ _ post). exact Hr.
  - intros (kw & Hin & pre & w & post & -> & Hw).
    exists pre, w, post. split; [reflexivity|].
    apply (matches_alts (lit_i kw)); [apply in_map; exact Hin|].
    apply matches_lit_i. exact Hw.
Qed.

(** /server.*client/i *)
Lemma matches_server_client (w rest : jsstring) :
  matches (seqs [lit_i "server"; Rep Content.is_dot 0; lit_i "client"]) w rest
  <-> exists s mid c,
        w = s ++ mid ++ c
        /\ folded s = folded (str "server")
        /\ forallb Content.is_dot mid = true
        /\ folded c = folded (str "client").
Proof.
  cbn [seqs]. split.
  - intros H. inversion H as [| |r1 r2 s m2 rest' H1 H2| | | | |]; subst.
    inversion H2 as [| |r1 r2 mid c rest' H3 H4| | | | |]; subst.
    inversion H3; subst.
    exists s, mid, c. split; [reflexivity|].
    split; [apply (matches_lit_i_inv _ _ _ H1)|].
    split; [assumption|]. apply (matches_lit_i_inv _ _ _ H4).
  - intros (s & mid & c & -> & Hs & Hmid & Hc).
    apply m_seq; [apply matches_lit_i; exact Hs|].
    apply m_seq; [|apply matches_lit_i; exact Hc].
    apply m_rep; [exact Hmid | lia].
Qed.

Lemma test_hydration (m : jsstring) :
  test (snd (nth 0 Content.REACT_ERROR_PATTERNS (str "", Empty))) m = true
  <-> hydration_like m.
Proof.
  cbn [Content.REACT_ERROR_PATTERNS nth snd]. rewrite test_spec. split.
  - intros (pre & w & post & -> & Hw).
    apply matches_alts_inv in Hw; [|discriminate].
    destruct Hw as (r & Hin & Hr). cbn [In] in Hin.
    destruct Hin as [<- | [<- | [<- | [<- | []]]]].
    + left. exists "hydrat"%string. split; [cbn; tauto|].
      exists pre, w, post. split; [reflexivity | apply (matches_lit_i_inv _ _ _ Hr)].
    + left. exists "mismatch"%string. split; [cbn; tauto|].
      exists pre, w, post. split; [reflexivity | apply (matches_lit_i_inv _ _ _ Hr)].
    + right. apply matches_server_client in Hr.
      destruct Hr as (s & mid & c & -> & Hs & Hmid & Hc).
      exists pre, s, mid, c, post. rewrite <- !app_assoc. auto.
    + left. exists "text content does not match"%string. split; [cbn; tauto|].
      exists pre, w, post. split; [reflexivity | apply (matches_lit_i_inv _ _ _ Hr)].
  - intros [(kw & Hin & pre & w & post & -> & Hw)
           | (pre & s & mid & c & post & -> & Hs & Hmid & Hc)].
    + exists pre, w, post. split; [reflexivity|].
      apply (matches_alts (lit_i kw)); [|apply matches_lit_i; exact Hw].
      cbn [HYDRATION_KEYWORDS In] in Hin. cbn [In].
      destruct Hin as [<- | [<- | [<- | []]]]; tauto.
    + exists pre, (s ++ mid ++ c), post. split; [rewrite <- !app_assoc; reflexivity|].
      apply (matches_alts (seqs [lit_i "server"; Rep Content.is_dot 0; lit_i "client"]));
        [cbn [In]; tauto|].
      apply matches_server_client. exists s, mid, c. auto.
Qed.

Lemma identifyReactErrorType_cases (c : N) (m : jsstring) :
  let pattern i := snd (nth i Content.REACT_ERROR_PATTERNS (str "", Empty)) in
  Content.identifyReactErrorType (Some (c :: m))
  = if test (pattern 0) (c :: m) then Some (str "hydration")
    else if test (pattern 1) (c :: m) then Some (str "hooks")
    else if test (pattern 2) (c :: m) then Some (str "render")
    else if test (pattern 3) (c :: m) then Some (str "nextjs")
    else None.
Proof.
  cbv zeta. unfold Content.identifyReactErrorType.
  cbn [Content.REACT_ERROR_PATTERNS List.find nth snd fst].
  repeat match goal with
  | |- context [if test ?r ?s then _ else _] => destruct (test r s)
  end; reflexivity.
Qed.

(** X12. The React label of a message is the first of hydration, hooks,
    render and nextjs whose pattern matches, and there is none for an
    absent or empty message or when no pattern matches. A message is
    labelled hydration exactly when it mentions hydrat, mismatch or the
    phrase text content does not match, or has server and later on the
    same line client; hooks exactly when it is not such a message and
    mentions hook or one of the hook names useState, useEffect, useRef,
    useMemo, useCallback, useContext, useReducer; render exactly when it is
    neither and mentions render, component, element, jsx, Invalid prop or
    Failed prop; nextjs exactly when it is none of these and mentions
    getServerSideProps, getStaticProps, _app, _document, next/ or
    middleware; all of it in any letter case. *)
Theorem react_label_follows_pattern_order (message : option jsstring) :
  (forall l, Content.identifyReactErrorType message = Some l ->
     In l [str "hydration"; str "hooks"; str "render"; str "nextjs"])
  /\ (truthy_str message = None -> Content.identifyReactErrorType message = None)
  /\ (forall m, truthy_str message = Some m ->
        (Content.identifyReactErrorType message = Some (str "hydration")
         <-> hydration_like m)
        /\ (Content.identifyReactErrorType message = Some (str "hooks")
            <-> ~ hydration_like m /\ hooks_like m)
        /\ (Content.identifyReactErrorType message = Some (str "render")
            <-> ~ hydration_like m /\ ~ hooks_like m /\ render_like m)
        /\ (Content.identifyReactErrorType message = Some (str "nextjs")
            <-> ~ hydration_like m /\ ~ hooks_like m /\ ~ render_like m
                /\ nextjs_like m)
        /\ (Content.identifyReactErrorType message = None
            <-> ~ hydration_like m /\ ~ hooks_like m /\ ~ render_like m
                /\ ~ nextjs_like m))
  /\ (forall m kw, message = Some m -> In kw HYDRATION_KEYWORDS -> mentions kw m ->
        Content.identifyReactErrorType message = Some (str "hydration"))
  /\ (forall m kw, message = Some m -> In kw HOOKS_KEYWORDS -> mentions kw m ->
        Content.identifyReactErrorType message = Some (str "hydration")
        \/ Content.identifyReactErrorType message = Some (str "hooks")).
Proof.
  assert (Hcases : forall m, truthy_str message = Some m ->
            (Content.identifyReactErrorType message = Some (str "hydration")
             <-> hydration_like m)
            /\ (Content.identifyReactErrorType message = Some (str "hooks")
                <-> ~ hydration_like m /\ hooks_like m)
            /\ (Content.identifyReactErrorType message = Some (str "render")
                <-> ~ hydration_like m /\ ~ hooks_like m /\ render_like m)
            /\ (Content.identifyReactErrorType message = Some (str "nextjs")
                <-> ~ hydration_like m /\ ~ hooks_like m /\ ~ render_like m
                    /\ nextjs_like m)
            /\ (Content.identifyReactErrorType message = None
                <-> ~ hydration_like m /\ ~ hooks_like m /\ ~ render_like m
                    /\ ~ nextjs_like m)).
  { intros m Hm. apply truthy_str_Some in Hm. destruct Hm as [-> Hne].
    destruct m as [|c m]; [congruence|].
    rewrite identifyReactErrorType_cases. cbv zeta.
    pose proof (test_hydration (c :: m)) as T0.
    pose proof (test_keywords HOOKS_KEYWORDS (c :: m) ltac:(discriminate)) as T1.
    pose proof (test_keywords RENDER_KEYWORDS (c :: m) ltac:(discriminate)) as T2.
    pose proof (test_keywords NEXTJS_KEYWORDS (c :: m) ltac:(discriminate)) as T3.
    change (alts (List.map lit_i HOOKS_KEYWORDS))
      with (snd (nth 1 Content.REACT_ERROR_PATTERNS (str "", Empty))) in T1.
    change (alts (List.map lit_i RENDER_KEYWORDS))
      with (snd (nth 2 Content.REACT_ERROR_PATTERNS (str "", Empty))) in T2.
    change (alts (List.map lit_i NEXTJS_KEYWORDS))
      with (snd (nth 3 Content.REACT_ERROR_PATTERNS (str "", Empty))) in T3.
    fold (hooks_like (c :: m)) in T1. fold (render_like (c :: m)) in T2.
    fold (nextjs_like (c :: m)) in T3.
    revert T0 T1 T2 T3.
    generalize (hydration_like (c :: m)), (hooks_like (c :: m)), (render_like (c :: m)),
      (nextjs_like (c :: m)).
    intros Q0 Q1 Q2 Q3.
    destruct (test (snd (nth 0 Content.REACT_ERROR_PATTERNS (str "", Empty))) (c :: m));
    destruct (test (snd (nth 1 Content.REACT_ERROR_PATTERNS (str "", Empty))) (c :: m));
    destruct (test (snd (nth 2 Content.REACT_ERROR_PATTERNS (str "", Empty))) (c :: m));
    destruct (test (snd (nth 3 Content.REACT_ERROR_PATTERNS (str "", Empty))) (c :: m));
    intros T0 T1 T2 T3;
    repeat split; intros;
    repeat match goal with H : _ /\ _ |- _ => destruct H end;
    try discriminate; try reflexivity;
    try (intros ?); intuition congruence. }
  split; [|split; [|split; [|split]]].
  - intros l. unfold Content.identifyReactErrorType.
    destruct message as [[|c m]|]; try discriminate.
    destruct (List.find _ _) as [tp|] eqn:F; [|discriminate].
    intros [= <-]. apply find_some in F as [F _].
    cbn [Content.REACT_ERROR_PATTERNS In] in F.
    destruct F as [<-|[<-|[<-|[<-|[]]]]]; cbn [fst In]; tauto.
  - destruct message as [[|c m]|]; cbn; intros H; try discriminate H; reflexivity.
  - exact Hcases.
  - intros m kw -> Hk Hm.
    assert (Hne : m <> []).
    { apply (mentions_nonempty kw); [|exact Hm].
      cbn [HYDRATION_KEYWORDS In] in Hk.
      destruct Hk as [<-|[<-|[<-|[]]]]; discriminate. }
    apply (Hcases m (truthy_str_nonempty m Hne)). left. exists kw. auto.
  - intros m kw -> Hk Hm.
    assert (Hne : m <> []).
    { apply (mentions_nonempty kw); [|exact Hm].
      cbn [HOOKS_KEYWORDS In] in Hk.
      destruct Hk as [<-|[<-|[<-|[<-|[<-|[<-|[<-|[<-|[]]]]]]]]]; discriminate. }
    destruct (Hcases m (truthy_str_nonempty m Hne)) as (H0 & H1 & _).
    destruct (Content.identifyReactErrorType (Some m)) as [l|] eqn:E.
    + destruct (jsstring_eqb l (str "hydration")) eqn:El.
      * apply jsstring_eqb_eq in El. left. congruence.
      * right. apply H1. split; [|exists kw; auto].
        intros Hh. apply H0 in Hh. injection Hh as ->.
        rewrite jsstring_eqb_refl in El. discriminate El.
    + right. apply H1. split; [|exists kw; auto].
      intros Hh. apply H0 in Hh. discriminate Hh.
Qed.

Lemma react_label_follows_pattern_order_witness :
  Content.identifyReactErrorType
    (Some (str "Invalid hook call during Hydration of <App>"))
  = Some (str "hydration")
  /\ Content.identifyReactErrorType
       (Some (str "Server HTML differs from the client"))
     = Some (str "hydration")
  /\ Content.identifyReactErrorType (Some (str "Cannot update a Component"))
     <> Some (str "hooks")
  /\ Content.identifyReactErrorType (Some (str "Error in getStaticProps"))
     = Some (str "nextjs").
Proof.
  split; [|split; [|split]].
  - apply (proj1 (proj2 (proj2 (proj2 (react_label_follows_pattern_order
           (Some (str "Invalid hook call during Hydration of <App>"))))))
           (str "Invalid hook call during Hydration of <App>") "hydrat"%string eq_refl).
    + cbn. tauto.
    + exists (str "Invalid hook call during "), (str "Hydrat"), (str "ion of <App>").
      split; vm_compute; reflexivity.
  - apply (proj1 (proj1 (proj2 (proj2 (react_label_follows_pattern_order
             (Some (str "Server HTML differs from the client")))))
             (str "Server HTML differs from the client") eq_refl)).
    right. exists [], (str "Server"), (str " HTML differs from the "), (str "client"), [].
    repeat split; vm_compute; reflexivity.
  - intros H.
    apply (proj1 (proj2 (proj1 (proj2 (proj2 (react_label_follows_pattern_order
             (Some (str "Cannot update a Component")))))
             (str "Cannot update a Component") eq_refl))) in H.
    destruct H as [_ H].
    apply (test_keywords HOOKS_KEYWORDS _ ltac:(discriminate)) in H.
    vm_compute in H. discriminate H.
  - apply (proj1 (proj2 (proj2 (proj2 (proj1 (proj2 (proj2
             (react_label_follows_pattern_order (Some (str "Error in getStaticProps")))))
             (str "Error in getStaticProps") eq_refl))))).
    assert (N0 : ~ hydration_like (str "Error in getStaticProps")).
    { intros H. apply test_hydration in H. vm_compute in H. discriminate H. }
    assert (N1 : ~ hooks_like (str "Error in getStaticProps")).
    { intros H. apply (test_keywords HOOKS_KEYWORDS _ ltac:(discriminate)) in H.
      vm_compute in H. discriminate H. }
    assert (N2 : ~ render_like (str "Error in getStaticProps")).
    { intros H. apply (test_keywords RENDER_KEYWORDS _ ltac:(discriminate)) in H.
      vm_compute in H. discriminate H. }
    repeat split; try assumption.
    exists "getStaticProps"%string. split; [cbn; tauto|].
    exists (str "Error in "), (str "getStaticProps"), []. split; vm_compute; reflexivity.
Defined.
(** ** Runs of the content script *)

Lemma push_capped_suffix {A : Type} (cap : nat) (x : A) (all older l : list A) :
  all = older ++ l -> exists older', all ++ [x] = older' ++ push_capped cap x l.
Proof.
  intros ->. unfold push_capped. destruct (cap <? length (l ++ [x])).
  - destruct l as [|y l]; cbn [app tl].
    + exists (older ++ [x]). rewrite !app_nil_r. reflexivity.
    + exists (older ++ [y]). rewrite <- !app_assoc. reflexivity.
  - exists older. rewrite app_assoc. reflexivity.
Qed.

Section AgentRunFacts.
Variable toUpperCase : jsstring -> jsstring.
Variable toLowerCase : jsstring -> jsstring.

Lemma addError_reported (env : Content.Env) (d : Content.ErrorData)
    (a : Content.Agent) :
  Content.runtime_ok env = true ->
  let a' := Content.addError toUpperCase env d a in
  (length (Content.errors a) <= 100 -> length (Content.errors a') <= 100)
  /\ ((exists older, Content.sent a = older ++ Content.errors a) ->
      exists older, Content.sent a' = older ++ Content.errors a')
  /\ (Content.errors a = slice_last 100 (Content.sent a) ->
      Content.errors a' = slice_last 100 (Content.sent a')).
Proof using Type.
  intros Hok. cbv zeta. unfold Content.addError.
  destruct (Content.isDupe env d (Content.errors a)); [tauto|].
  cbn [Content.errors Content.sent]. rewrite Hok. unfold Content.MAX_ERRORS.
  split; [|split].
  - intros H. apply length_push_capped_le; lia.
  - intros [older H]. eapply push_capped_suffix. exact H.
  - intros ->. apply push_capped_slice_last.
Qed.

Lemma agent_step_reported (a : Content.Agent) (e : agent_event) :
  event_runtime_ok e = true ->
  let a' := agent_step toUpperCase toLowerCase a e in
  (length (Content.errors a) <= 100 -> length (Content.errors a') <= 100)
  /\ ((exists older, Content.sent a = older ++ Content.errors a) ->
      exists older, Content.sent a' = older ++ Content.errors a')
  /\ (is_clear_errors e = false ->
      Content.errors a = slice_last 100 (Content.sent a) ->
      Content.errors a' = slice_last 100 (Content.sent a')).
Proof using Type.
  intros Hok. cbv zeta.
  assert (Same : forall a0 : bool,
            (length (Content.errors a) <= 100 -> length (Content.errors a) <= 100)
            /\ ((exists older, Content.sent a = older ++ Content.errors a) ->
                exists older, Content.sent a = older ++ Content.errors a)
            /\ (a0 = false ->
                Content.errors a = slice_last 100 (Content.sent a) ->
                Content.errors a = slice_last 100 (Content.sent a))) by tauto.
  assert (Add : forall env d, Content.runtime_ok env = true ->
            let a' := Content.addError toUpperCase env d a in
            (length (Content.errors a) <= 100 -> length (Content.errors a') <= 100)
            /\ ((exists older, Content.sent a = older ++ Content.errors a) ->
                exists older, Content.sent a' = older ++ Content.errors a')
            /\ (is_clear_errors e = false ->
                Content.errors a = slice_last 100 (Content.sent a) ->
                Content.errors a' = slice_last 100 (Content.sent a'))).
  { intros env d H. destruct (addError_reported env d a H) as (A1 & A2 & A3).
    cbv zeta. tauto. }
  destruct e as [env args|env args|env event|env r|env boundary|env event|env d|message];
    cbn [agent_step event_runtime_ok] in *.
  - unfold Content.console_error.
    destruct (Content.map_outcome _ _); cbn [fst]; [|apply Same].
    cbn [Content.print Content.errors Content.sent]. apply Add. exact Hok.
  - unfold Content.console_warn.
    destruct (Content.map_outcome _ _); cbn [fst]; [|apply Same].
    cbn [Content.print Content.errors Content.sent].
    match goal with |- context [if ?b then _ else _] => destruct b end;
      [apply Add; exact Hok | apply Same].
  - unfold Content.on_error.
    destruct (match Content.ev_message event with [] => _ | _ => _ end);
      cbn [fst]; [apply Add; exact Hok | apply Same].
  - unfold Content.on_unhandledrejection.
    match goal with |- context [match ?x with Ok _ => _ | Throw _ => _ end] =>
      destruct x as [[m st]|] end;
      cbn [fst]; [apply Add; exact Hok | apply Same].
  - unfold Content.on_commit_fiber_root.
    destruct boundary as [[d|]|]; cbn [fst];
      [apply Add; exact Hok | apply Same
       | apply Same].
  - destruct event; cbn [ContentScript.on_window_message];
      [apply Same | apply Add; exact Hok
       | apply Same].
  - apply Add. exact Hok.
  - destruct message; cbn [ContentScript.on_runtime_message fst is_clear_errors];
      try apply Same.
    cbn [Content.errors Content.sent length]. split; [lia|]. split; [|intros H; discriminate H].
    intros _. exists (Content.sent a). rewrite app_nil_r. reflexivity.
Qed.

(** X13. Every entry of the content script's buffer has been reported to the
    service worker. As long as the extension runtime takes the
    ERROR_CAPTURED messages, after any sequence of console calls, error
    events, promise rejections, React commits, page messages, direct
    captures and extension messages the buffer holds at most 100 entries
    and is the tail of the sequence of reported entries, in the same order;
    and unless a CLEAR_ERRORS message emptied it, it is exactly the last 100
    of them. *)
Theorem agent_buffer_is_tail_of_reports (evs : list agent_event) :
  forallb event_runtime_ok evs = true ->
  let a := agent_run toUpperCase toLowerCase evs in
  length (Content.errors a) <= 100
  /\ (exists older, Content.sent a = older ++ Content.errors a)
  /\ (forallb (fun e => negb (is_clear_errors e)) evs = true ->
      Content.errors a = slice_last 100 (Content.sent a)).
Proof using Type.
  intros Hok. cbv zeta. unfold agent_run.
  assert (G : forall evs a0,
    forallb event_runtime_ok evs = true ->
    length (Content.errors a0) <= 100 ->
    (exists older, Content.sent a0 = older ++ Content.errors a0) ->
    let a := fold_left (agent_step toUpperCase toLowerCase) evs a0 in
    length (Content.errors a) <= 100
    /\ (exists older, Content.sent a = older ++ Content.errors a)
    /\ (forallb (fun e => negb (is_clear_errors e)) evs = true ->
        Content.errors a0 = slice_last 100 (Content.sent a0) ->
        Content.errors a = slice_last 100 (Content.sent a))).
  { clear evs Hok. induction evs as [|e evs IH]; intros a0 Hok H1 H2; cbn [fold_left].
    - split; [exact H1|]. split; [exact H2|]. intros _ H. exact H.
    - cbn [forallb] in Hok. apply andb_true_iff in Hok as [Hok1 Hok2].
      destruct (agent_step_reported a0 e Hok1) as (S1 & S2 & S3). cbv zeta in S1, S2, S3.
      destruct (IH _ Hok2 (S1 H1) (S2 H2)) as (I1 & I2 & I3).
      split; [exact I1|]. split; [exact I2|].
      cbn [forallb]. intros Hc H. apply andb_true_iff in Hc as [Hc1 Hc2].
      apply I3; [exact Hc2|]. apply S3; [|exact H].
      destruct (is_clear_errors e); [discriminate Hc1 | reflexivity]. }
  destruct (G evs ContentScript.agent_start Hok) as (G1 & G2 & G3).
  - cbn. lia.
  - exists []. reflexivity.
  - split; [exact G1|]. split; [exact G2|]. intros Hc. apply G3; [exact Hc | reflexivity].
Qed.

End AgentRunFacts.

Lemma agent_buffer_is_tail_of_reports_witness :
  let a := agent_run Sample.upper SamplePopup.lower
             [ConsoleError (SampleAgent.env_at 0) [Content.AString (str "boom")];
              ExtensionMessage ContentScript.CLEAR_ERRORS;
              WindowMessage (SampleAgent.env_at 5000)
                (ContentScript.console_error_message (SampleAgent.error_data "late"))] in
  length (Content.sent a) = 2 /\ length (Content.errors a) = 1
  /\ exists older, Content.sent a = older ++ Content.errors a.
Proof.
  intros a.
  destruct (agent_buffer_is_tail_of_reports Sample.upper SamplePopup.lower
              [ConsoleError (SampleAgent.env_at 0) [Content.AString (str "boom")];
               ExtensionMessage ContentScript.CLEAR_ERRORS;
               WindowMessage (SampleAgent.env_at 5000)
                 (ContentScript.console_error_message (SampleAgent.error_data "late"))])
    as (_ & H & _).
  - vm_compute. reflexivity.
  - split; [vm_compute; reflexivity|]. split; [vm_compute; reflexivity | exact H].
Defined.

(** ** The network list of the popup *)

(** X14. The network tab of the popup shows a selection of the entries it
    was given, never anything else. With the errors-only box ticked every
    entry shown is a failure or a response with a status of 400 or more;
    with the requests (responses) box unticked no request (response) is
    shown; and whenever the URL filter holds text, every entry without a URL
    is hidden, which includes all failure entries recorded by the
    interceptor, errors-only or not. *)
Theorem network_list_filter (toLowerCase : jsstring -> jsstring)
    (o : Popup.NetworkOptions) (items : list Net.NetEvent) :
  let shown := Popup.filtered toLowerCase o items in
  incl shown items
  /\ (Popup.onlyErrors o = true -> Forall (fun x => Net.is_failed x = true) shown)
  /\ (Popup.showRequests o = false ->
      Forall (fun x => Net.type x <> Net.request) shown)
  /\ (Popup.showResponses o = false ->
      Forall (fun x => Net.type x <> Net.response) shown)
  /\ (toLowerCase [] = [] -> toLowerCase (Popup.networkFilter o) <> [] ->
      Forall (fun x => truthy_str (Net.url x) <> None) shown).
Proof.
  cbv zeta. unfold Popup.filtered.
  set (f1 := fun item : Net.NetEvent =>
               if Net.net_type_eqb (Net.type item) Net.request
                  && negb (Popup.showRequests o) then false
               else if Net.net_type_eqb (Net.type item) Net.response
                       && negb (Popup.showResponses o) then false
               else true).
  set (l1 := List.filter f1 items).
  set (l2 := if Popup.onlyFetch o then List.filter _ l1 else l1).
  set (l3 := if Popup.onlyErrors o then List.filter Net.is_failed l2 else l2).
  set (l4 := match toLowerCase (Popup.networkFilter o) with
             | [] => l3
             | _ => List.filter _ l3
             end).
  assert (I1 : incl l1 items) by (intros x Hx; apply filter_In in Hx; tauto).
  assert (I2 : incl l2 l1).
  { subst l2. destruct (Popup.onlyFetch o); [|apply incl_refl].
    intros x Hx. apply filter_In in Hx. tauto. }
  assert (I3 : incl l3 l2).
  { subst l3. destruct (Popup.onlyErrors o); [|apply incl_refl].
    intros x Hx. apply filter_In in Hx. tauto. }
  assert (I4 : incl l4 l3).
  { subst l4. destruct (toLowerCase (Popup.networkFilter o)); [apply incl_refl|].
    intros x Hx. apply filter_In in Hx. tauto. }
  assert (F1 : forall x, In x l1 -> f1 x = true)
    by (intros x Hx; apply filter_In in Hx; tauto).
  split; [|split; [|split; [|split]]].
  - intros x Hx. auto.
  - intros He. apply List.Forall_forall. intros x Hx. apply I4 in Hx.
    subst l3. rewrite He in Hx. apply filter_In in Hx. tauto.
  - intros Hr. apply List.Forall_forall. intros x Hx.
    apply I4, I3, I2, F1 in Hx. subst f1. cbv beta in Hx. rewrite Hr in Hx.
    intros E. rewrite E in Hx. discriminate Hx.
  - intros Hr. apply List.Forall_forall. intros x Hx.
    apply I4, I3, I2, F1 in Hx. subst f1. cbv beta in Hx. rewrite Hr in Hx.
    intros E. rewrite E in Hx. cbn in Hx. discriminate Hx.
  - intros H0 Hf. apply List.Forall_forall. intros x Hx. subst l4.
    destruct (toLowerCase (Popup.networkFilter o)) as [|c f] eqn:E; [congruence|].
    apply filter_In in Hx as [_ Hx]. intros Hu. rewrite Hu in Hx.
    cbn [default from_option id] in Hx. rewrite H0 in Hx. discriminate Hx.
Qed.

Lemma network_list_filter_witness :
  Popup.filtered SamplePopup.lower SamplePopup.options SamplePopup.items
  = [Sample.net_event Net.request "1" (Some (str "https://app.test/api/a")) None]
  /\ Forall (fun x => truthy_str (Net.url x) <> None)
       (Popup.filtered SamplePopup.lower SamplePopup.options SamplePopup.items).
Proof.
  split; [vm_compute; reflexivity|].
  apply (proj2 (proj2 (proj2 (proj2
           (network_list_filter SamplePopup.lower SamplePopup.options
              SamplePopup.items))))).
  - reflexivity.
  - vm_compute. discriminate.
Defined.

(** ** Cleaned messages and stacks *)

Lemma fold_replace_Forall (Q : N -> Prop) (rs : list regex) (s : jsstring) :
  Forall Q s ->
  Forall Q (fold_left (fun cleaned pattern => replace_all pattern [] cleaned) rs s).
Proof.
  revert s. induction rs as [|r rs IH]; intros s H; cbn [fold_left]; [exact H|].
  apply IH. apply replace_from_Forall; [constructor | exact H].
Qed.

Lemma trim_Forall (Q : N -> Prop) (s : jsstring) : Forall Q s -> Forall Q (trim s).
Proof.
  intros H. destruct (trim_infix s) as (a & b & E). rewrite E in H.
  apply Forall_app in H as [_ H]. apply Forall_app in H as [H _]. exact H.
Qed.

Lemma trimStart_nil (s : jsstring) : trimStart s = [] -> forallb is_space s = true.
Proof.
  induction s as [|c s IH]; cbn; [reflexivity|].
  destruct (is_space c); [exact IH | discriminate].
Qed.

Lemma trim_heads (s : jsstring) :
  head_space (trim s) = false /\ head_space (rev (trim s)) = false.
Proof.
  unfold trim. split.
  - pose proof (head_space_trimStart s) as Ht.
    destruct (trimStart_suffix (rev (trimStart s))) as [pre E].
    apply (f_equal (@rev N)) in E. rewrite rev_involutive, rev_app_distr in E.
    destruct (rev (trimStart (rev (trimStart s)))) as [|c u]; [reflexivity|].
    rewrite E in Ht. exact Ht.
  - rewrite rev_involutive. apply head_space_trimStart.
Qed.

Lemma trim_nonblank (s : jsstring) (c : N) :
  In c s -> is_space c = false -> trim s <> [].
Proof.
  intros Hin Hc E. unfold trim in E.
  apply (f_equal (@rev N)) in E. rewrite rev_involutive in E. cbn [rev] in E.
  apply trimStart_nil in E. rewrite forallb_forall in E.
  pose proof (head_space_trimStart s) as Ht.
  destruct (trimStart s) as [|d t] eqn:T.
  - apply trimStart_nil in T. rewrite forallb_forall in T.
    rewrite (T c Hin) in Hc. discriminate Hc.
  - cbn [head_space] in Ht. rewrite (E d) in Ht; [discriminate Ht|].
    apply in_rev. rewrite rev_involutive. left. reflexivity.
Qed.

(** X15. Cleaning a message only removes text or replaces whitespace runs by
    one space: every code unit of the cleaned message is a code unit of the
    original or a space, the cleaned message is never longer than the
    original, and it neither starts nor ends with whitespace. *)
Theorem cleaned_message_adds_nothing (m : jsstring) :
  let out := Content.cleanErrorMessage m in
  Forall (fun c => In c m \/ c = 32%N) out
  /\ length out <= length m
  /\ head_space out = false
  /\ head_space (rev out) = false.
Proof.
  cbv zeta. split; [|split].
  - destruct m as [|c0 m0]; [constructor|].
    set (m := c0 :: m0).
    cbv beta iota zeta delta [Content.cleanErrorMessage].
    fold m. set (Q := fun c => In c m \/ c = 32%N).
    assert (H0 : Forall Q (Content.apply_junk m)).
    { apply fold_replace_Forall. apply List.Forall_forall. intros c Hc. left. exact Hc. }
    fold WS2. fold (collapse (Content.apply_junk m)).
    set (x := collapse (Content.apply_junk m)).
    assert (Hx : Forall Q x).
    { apply replace_from_Forall; [|exact H0]. constructor; [right; reflexivity|constructor]. }
    assert (Nx : no_ws_pair x = true) by apply collapse_normal.
    rewrite (replace_all_unmatched (Rep (eq_char 10) 3)).
    2:{ apply ws_run_unmatched; [lia | | exact Nx].
        intros d Hd. apply N.eqb_eq in Hd. subst d. reflexivity. }
    apply trim_Forall. clearbody x.
    repeat (apply replace_from_Forall; [constructor|]). exact Hx.
  - apply shrinking_clean.
  - destruct m as [|c0 m0]; [split; reflexivity|].
    cbv beta iota zeta delta [Content.cleanErrorMessage]. apply trim_heads.
Qed.

(** *** Lines *)

Lemma split_Forall (Q : N -> Prop) (sep : N) (s : jsstring) :
  Forall Q s -> Forall (Forall Q) (split sep s).
Proof.
  induction s as [|c s IH]; intros H; cbn [split].
  - repeat constructor.
  - apply List.Forall_cons_iff in H as [Hc Hs]. specialize (IH Hs).
    destruct (c =? sep)%N.
    + constructor; [constructor | exact IH].
    + destruct (split sep s) as [|seg segs].
      * repeat constructor. exact Hc.
      * apply List.Forall_cons_iff in IH as [I1 I2].
        constructor; [constructor; assumption | exact I2].
Qed.

Lemma split_no_sep (sep : N) (s : jsstring) :
  Forall (Forall (fun c => c <> sep)) (split sep s).
Proof.
  induction s as [|c s IH]; cbn [split].
  - repeat constructor.
  - destruct (N.eqb_spec c sep) as [E|E].
    + constructor; [constructor | exact IH].
    + destruct (split sep s) as [|seg segs].
      * repeat constructor. exact E.
      * apply List.Forall_cons_iff in IH as [I1 I2].
        constructor; [constructor; assumption | exact I2].
Qed.

Lemma split_not_nil (sep : N) (s : jsstring) : split sep s <> [].
Proof.
  destruct s as [|c s]; cbn [split]; [discriminate|].
  destruct (c =? sep)%N; [discriminate|]. destruct (split sep s); discriminate.
Qed.

Lemma split_app_sep (sep : N) (p rest : jsstring) :
  Forall (fun c => c <> sep) p ->
  split sep (p ++ sep :: rest) = p :: split sep rest.
Proof.
  induction p as [|c p IH]; intros H; cbn [app split].
  - rewrite N.eqb_refl. reflexivity.
  - apply List.Forall_cons_iff in H as [Hc Hp].
    destruct (N.eqb_spec c sep) as [E|E]; [contradiction|].
    rewrite (IH Hp). reflexivity.
Qed.

Lemma split_plain (sep : N) (p : jsstring) :
  Forall (fun c => c <> sep) p -> split sep p = [p].
Proof.
  induction p as [|c p IH]; intros H; cbn [split]; [reflexivity|].
  apply List.Forall_cons_iff in H as [Hc Hp].
  destruct (N.eqb_spec c sep) as [E|E]; [contradiction|].
  rewrite (IH Hp). reflexivity.
Qed.

(** Splitting what was joined gives the parts back. *)
Lemma split_join (sep : N) (parts : list jsstring) :
  parts <> [] -> Forall (Forall (fun c => c <> sep)) parts ->
  split sep (join [sep] parts) = parts.
Proof.
  induction parts as [|p parts IH]; intros Hne H; [congruence|].
  apply List.Forall_cons_iff in H as [Hp Hps].
  destruct parts as [|q parts].
  - cbn [join]. apply split_plain. exact Hp.
  - change (join [sep] (p :: q :: parts)) with (p ++ [sep] ++ join [sep] (q :: parts)).
    cbn [app]. rewrite (split_app_sep sep p _ Hp).
    rewrite IH; [reflexivity | discriminate | exact Hps].
Qed.

Lemma join_Forall (Q : N -> Prop) (sep : jsstring) (parts : list jsstring) :
  Forall Q sep -> Forall (Forall Q) parts -> Forall Q (join sep parts).
Proof.
  intros Hs. induction parts as [|p parts IH]; intros H; [constructor|].
  apply List.Forall_cons_iff in H as [Hp Hps].
  destruct parts as [|q parts]; [exact Hp|].
  change (join sep (p :: q :: parts)) with (p ++ sep ++ join sep (q :: parts)).
  apply Forall_app. split; [exact Hp|]. apply Forall_app. split; [exact Hs|].
  apply IH. exact Hps.
Qed.

Lemma between_Forall (Q : N -> Prop) (a b : jsstring) :
  Forall Q a -> Forall Q (Content.between a b).
Proof.
  intros H. unfold Content.between. rewrite <- (firstn_skipn (length a - length b) a) in H.
  apply Forall_app in H as [H _]. exact H.
Qed.

Lemma frame_at_Forall (Q : N -> Prop) (s : jsstring)
    (caps : jsstring * jsstring * jsstring * jsstring) :
  Content.frame_at s = Some caps -> Forall Q s ->
  let '(func, file, line, col) := caps in
  Forall Q func /\ Forall Q file /\ Forall Q line /\ Forall Q col.
Proof.
  unfold Content.frame_at. intros H Hq.
  apply run_sound in H as (m1 & s1 & -> & _ & H).
  apply Forall_app in Hq as [_ Hq1].
  apply rep_sound in H as (m2 & s2 & -> & _ & _ & H).
  apply Forall_app in Hq1 as [_ Hq2].
  apply rep_sound in H as (m3 & s3 & -> & _ & _ & H).
  pose proof Hq2 as Hq3. apply Forall_app in Hq3 as [_ Hq3].
  apply rep_sound in H as (m4 & s4 & -> & _ & _ & H).
  pose proof Hq3 as Hq4. apply Forall_app in Hq4 as [_ Hq4].
  apply run_sound in H as (m5 & s5 & -> & _ & H).
  pose proof Hq4 as Hq5. apply Forall_app in Hq5 as [_ Hq5].
  apply rep_sound in H as (m6 & s6 & -> & _ & _ & H).
  pose proof Hq5 as Hq6. apply Forall_app in Hq6 as [_ Hq6].
  apply run_sound in H as (m7 & s7 & -> & _ & H).
  pose proof Hq6 as Hq7. apply Forall_app in Hq7 as [_ Hq7].
  apply rep_sound in H as (m8 & s8 & -> & _ & _ & H).
  pose proof Hq7 as Hq8. apply Forall_app in Hq8 as [_ Hq8].
  apply run_sound in H as (m9 & s9 & -> & _ & H).
  pose proof Hq8 as Hq9. apply Forall_app in Hq9 as [_ Hq9].
  apply rep_sound in H as (m10 & s10 & -> & _ & _ & H).
  apply run_sound in H as (m11 & s11 & _ & _ & H).
  injection H as <-.
  repeat split; apply between_Forall; assumption.
Qed.

Lemma match_frame_Forall (Q : N -> Prop) (s : jsstring)
    (caps : jsstring * jsstring * jsstring * jsstring) :
  Content.match_frame s = Some caps -> Forall Q s ->
  let '(func, file, line, col) := caps in
  Forall Q func /\ Forall Q file /\ Forall Q line /\ Forall Q col.
Proof.
  induction s as [|c s IH]; cbn [Content.match_frame]; intros H Hq.
  - destruct (Content.frame_at []) as [caps'|] eqn:E; [|discriminate H].
    injection H as <-. exact (frame_at_Forall Q _ _ E Hq).
  - destruct (Content.frame_at (c :: s)) as [caps'|] eqn:E.
    + injection H as <-. exact (frame_at_Forall Q _ _ E Hq).
    + apply IH; [exact H|]. apply List.Forall_cons_iff in Hq as [_ Hq]. exact Hq.
Qed.

Lemma clean_line_keeps (acc : list jsstring * jsstring) (line : jsstring) :
  Forall (fun c => c <> 10%N) line ->
  Forall (fun l => Forall (fun c => c <> 10%N) l /\ trim l <> []) (fst acc) ->
  Forall (fun l => Forall (fun c => c <> 10%N) l /\ trim l <> [])
         (fst (Content.clean_line acc line)).
Proof.
  intros Hl Hacc. destruct acc as [cleanedLines lastFile]. cbn [fst] in Hacc.
  unfold Content.clean_line.
  destruct (existsb _ Content.REMOVE_LINE_PATTERNS); [exact Hacc|].
  set (cl := replace_all _ [] (replace_all Content.WEBPACK_INTERNAL []
                                 (Content.apply_junk line))).
  assert (Hcl : Forall (fun c => c <> 10%N) cl).
  { subst cl. do 2 (apply replace_from_Forall; [constructor|]).
    apply fold_replace_Forall. exact Hl. }
  destruct (Content.match_frame cl) as [[[[func file] ln] col]|] eqn:M.
  - destruct (match_frame_Forall _ _ _ M Hcl) as (Q1 & Q2 & Q3 & Q4).
    destruct (jsstring_eqb _ lastFile); [exact Hacc|]. cbn [fst].
    apply Forall_app. split; [exact Hacc|]. constructor; [|constructor].
    split.
    + assert (Qs : Forall (fun c => c <> 10%N)
                     (join (str "/") (slice_last 2 (split 47 file)))).
      { apply join_Forall; [repeat constructor; discriminate|].
        unfold slice_last.
        pose proof (split_Forall _ 47%N file Q2) as Hs.
        rewrite <- (firstn_skipn (length (split 47 file) - 2) (split 47 file)) in Hs.
        apply Forall_app in Hs as [_ Hs]. exact Hs. }
      repeat (apply Forall_app; split); try assumption;
        repeat constructor; discriminate.
    + apply (trim_nonblank _ 97%N); [|reflexivity].
      cbn. right. right. left. reflexivity.
  - destruct (trim cl) as [|c t] eqn:T; [exact Hacc|].
    destruct (includes (str "webpack") cl); [exact Hacc|]. cbn [fst].
    apply Forall_app. split; [exact Hacc|]. constructor; [|constructor].
    split; [exact Hcl|]. rewrite T. discriminate.
Qed.

(** X16. A cleaned stack trace has at most 10 lines and none of them is
    blank; an absent or empty stack gives the empty text. *)
Theorem cleaned_stack_has_at_most_ten_lines (stack : option jsstring) :
  let out := Content.cleanStackTrace stack in
  (truthy_str stack = None -> out = [])
  /\ length (split 10 out) <= 10
  /\ (out <> [] -> Forall (fun line => trim line <> []) (split 10 out)).
Proof.
  cbv zeta. split.
  { destruct stack as [[|c s]|]; cbn; intros H; try discriminate H; reflexivity. }
  unfold Content.cleanStackTrace.
  destruct stack as [[|c0 s0]|]; try (cbn; split; [lia | congruence]).
  set (st := c0 :: s0).
  assert (G : forall lines acc,
            Forall (Forall (fun c => c <> 10%N)) lines ->
            Forall (fun l => Forall (fun c => c <> 10%N) l /\ trim l <> []) (fst acc) ->
            Forall (fun l => Forall (fun c => c <> 10%N) l /\ trim l <> [])
                   (fst (fold_left Content.clean_line lines acc))).
  { induction lines as [|l lines IH]; intros acc Hl Ha; cbn [fold_left]; [exact Ha|].
    apply List.Forall_cons_iff in Hl as [Hl1 Hl2].
    apply IH; [exact Hl2|]. apply clean_line_keeps; assumption. }
  match goal with
  | |- context [fold_left Content.clean_line ?l ?a] =>
      specialize (G l a (split_no_sep 10 st) (List.Forall_nil _));
      destruct (fold_left Content.clean_line l a) as [cleanedLines lastFile]
  end.
  cbn [fst] in G.
  assert (G10 : Forall (fun l => Forall (fun c => c <> 10%N) l /\ trim l <> [])
                       (firstn 10 cleanedLines)).
  { rewrite <- (firstn_skipn 10 cleanedLines) in G. apply Forall_app in G as [G _].
    exact G. }
  assert (L10 : length (firstn 10 cleanedLines) <= 10) by (rewrite length_firstn; lia).
  destruct (firstn 10 cleanedLines) as [|l ls] eqn:F.
  - cbn. split; [lia | congruence].
  - rewrite split_join.
    + split; [exact L10|]. intros _. eapply List.Forall_impl; [|exact G10].
      intros x [_ Hx]. exact Hx.
    + discriminate.
    + eapply List.Forall_impl; [|exact G10]. intros x [Hx _]. exact Hx.
Qed.

(** ** The badge *)

Lemma push_capped_100_pos {A : Type} (x : A) (l : list A) :
  1 <= length (push_capped 100 x l).
Proof.
  unfold push_capped. rewrite length_app. cbn [length].
  destruct (Nat.ltb_spec 100 (length l + 1)) as [H|H].
  - destruct l as [|y l]; cbn [length] in *; [lia|]. cbn [app tl].
    rewrite length_app. cbn [length]. lia.
  - rewrite length_app. cbn [length]. lia.
Qed.

(** X17. The badge of a tab is recomputed when an error is captured for the
    tab and when a request of the tab is recorded, and at no other debugger
    event: after a captured error it shows, in red, the number of errors
    plus failed requests the tab holds at that moment, while a response
    (whatever its status) and a loading failure leave every badge as it
    was, so a failed request is counted only from the next request or
    error on. *)
Theorem badge_counts_at_errors_and_requests (w : Background.Worker) (t : Z) :
  (forall error,
     let w' := Background.onErrorCaptured t error w in
     Background.badge w' !! t
     = Some (js_of_Z (Z.of_nat (length (tab_errors w' t)
                                + length (List.filter Net.is_failed (tab_network w' t)))),
             str "#e74c3c"))
  /\ (forall now requestId ty url status rest,
        Background.badge (Background.onEvent t now
                            (Background.responseReceived requestId ty url status rest) w)
        = Background.badge w)
  /\ (forall now requestId errorText rest,
        Background.badge (Background.onEvent t now
                            (Background.loadingFailed requestId errorText rest) w)
        = Background.badge w).
Proof.
  split; [|split].
  - intros error. cbv zeta. unfold Background.onErrorCaptured, tab_errors, tab_network.
    worker_fields. rewrite !lookup_insert_eq. cbn [default from_option id].
    pose proof (push_capped_100_pos error (default [] (Background.allErrors w !! t))) as P.
    destruct (Nat.ltb_spec 0 (length (push_capped 100 error
                                        (default [] (Background.allErrors w !! t)))
                              + length (List.filter Net.is_failed
                                          (default [] (Background.allNetworkRequests w !! t)))));
      [|lia].
    destruct (Nat.ltb_spec 0 (length (push_capped 100 error
                                        (default [] (Background.allErrors w !! t)))));
      [reflexivity | lia].
  - intros. unfold Background.onEvent.
    destruct (Background.allNetworkRequests w !! t);
      repeat match goal with
      | |- context [if ?b then _ else _] => destruct b
      end; reflexivity.
  - intros. unfold Background.onEvent.
    destruct (Background.allNetworkRequests w !! t); reflexivity.
Qed.

Lemma cleaned_stack_has_at_most_ten_lines_witness :
  Content.cleanStackTrace
    (Some (str "Error: x" ++ [10%N] ++ str "    at run (src/app/page.js:3:7)"
           ++ [10%N] ++ str "    at webpack_require (x.js:1:1)"))
  = str "Error: x" ++ [10%N] ++ str "  at run (app/page.js:3:7)"
  /\ Forall (fun line => trim line <> [])
       (split 10 (Content.cleanStackTrace
          (Some (str "Error: x" ++ [10%N] ++ str "    at run (src/app/page.js:3:7)"
                 ++ [10%N] ++ str "    at webpack_require (x.js:1:1)")))).
Proof.
  split; [vm_compute; reflexivity|].
  apply (proj2 (proj2 (cleaned_stack_has_at_most_ten_lines
           (Some (str "Error: x" ++ [10%N] ++ str "    at run (src/app/page.js:3:7)"
                  ++ [10%N] ++ str "    at webpack_require (x.js:1:1)"))))).
  vm_compute. discriminate.
Defined.

(** ** Changing the bridge port *)

(** X18. Changing the port while connected loses the new connection. The
    SET_BRIDGE_PORT handler closes the current socket and opens a new one at
    once; when the close event of the old socket arrives, its handler
    forgets whatever connection is current, which by then is the new one.
    So after the new socket has opened and the old one has closed (in
    either order) the new socket is open but unused: no connection is
    recorded, the stored flag says disconnected, every message passed to
    sendToBridge is dropped, and one reconnect timer is pending. *)
Theorem port_change_forgets_new_connection (b : Background.Bridge) (h : positive)
    (opened_first : bool) :
  Background.wsConnection b = Some h ->
  Background.sockets b !! h = Some Background.OPEN ->
  Background.wsReconnectTimer b = None ->
  Background.sockets b !! Background.next_handle b = None ->
  let n := Background.next_handle b in
  let b1 := Background.bridge_step b (Background.SetBridgePort true) in
  let b2 :=
    if opened_first
    then Background.bridge_step
           (Background.bridge_step b1 (Background.SocketOpened n))
           (Background.SocketClosed h)
    else Background.bridge_step
           (Background.bridge_step b1 (Background.SocketClosed h))
           (Background.SocketOpened n) in
  Background.wsConnection b1 = Some n
  /\ Background.sockets b2 !! n = Some Background.OPEN
  /\ Background.sockets b2 !! h = Some Background.CLOSED
  /\ Background.wsConnection b2 = None
  /\ Background.bridgeConnected b2 = negb opened_first
  /\ Background.timers b2 = Background.timers b ++ [(Pos.succ n, 5000%Z)]
  /\ forall message, Background.sendToBridge message b2 = b2.
Proof.
  intros Hc Ho Ht Hf n b1 b2.
  assert (Hn : h <> n) by (intros ->; subst n; rewrite Ho in Hf; discriminate Hf).
  assert (E1 : b1 = {| Background.wsConnection := Some n;
                       Background.wsReconnectTimer := None;
                       Background.sockets :=
                         <[n := Background.CONNECTING]>
                           (<[h := Background.CLOSING]> (Background.sockets b));
                       Background.timers := Background.timers b;
                       Background.next_handle := Pos.succ n;
                       Background.wire := Background.wire b;
                       Background.bridgeConnected := Background.bridgeConnected b |}).
  { subst b1. cbn [Background.bridge_step]. unfold Background.close.
    rewrite Hc, Ho. unfold Background.connectToBridge, Background.is_open.
    cbn [Background.wsConnection Background.sockets Background.wsReconnectTimer
         Background.timers Background.next_handle Background.wire
         Background.bridgeConnected].
    rewrite lookup_insert_eq, Ht. reflexivity. }
  assert (E2 : Background.wsConnection b2 = None
               /\ Background.sockets b2 !! n = Some Background.OPEN
               /\ Background.sockets b2 !! h = Some Background.CLOSED
               /\ Background.bridgeConnected b2 = negb opened_first
               /\ Background.timers b2 = Background.timers b ++ [(Pos.succ n, 5000%Z)]).
  { subst b2. rewrite E1. clear E1 b1.
    set (M1 := <[n := Background.CONNECTING]>
                 (<[h := Background.CLOSING]> (Background.sockets b))).
    assert (L1 : M1 !! n = Some Background.CONNECTING) by apply lookup_insert_eq.
    assert (L2 : M1 !! h = Some Background.CLOSING).
    { subst M1. rewrite lookup_insert_ne by congruence. apply lookup_insert_eq. }
    assert (L3 : <[n := Background.OPEN]> M1 !! h = Some Background.CLOSING).
    { rewrite lookup_insert_ne by congruence. exact L2. }
    assert (L4 : <[h := Background.CLOSED]> M1 !! n = Some Background.CONNECTING).
    { rewrite lookup_insert_ne by congruence. exact L1. }
    assert (L5 : <[h := Background.CLOSED]> (<[n := Background.OPEN]> M1) !! n
                 = Some Background.OPEN).
    { rewrite lookup_insert_ne by congruence. apply lookup_insert_eq. }
    assert (L6 : <[n := Background.OPEN]> (<[h := Background.CLOSED]> M1) !! h
                 = Some Background.CLOSED).
    { rewrite lookup_insert_ne by congruence. apply lookup_insert_eq. }
    destruct opened_first; cbn [Background.bridge_step negb Background.sockets].
    - rewrite L1. cbn [Background.onopen Background.sockets]. rewrite L3.
      unfold Background.onclose.
      cbn [Background.onopen Background.wsReconnectTimer Background.wsConnection
           Background.sockets Background.timers Background.next_handle
           Background.bridgeConnected].
      rewrite L5, lookup_insert_eq. repeat split; reflexivity.
    - rewrite L2. unfold Background.onclose.
      cbn [Background.wsReconnectTimer Background.wsConnection Background.sockets
           Background.timers Background.next_handle Background.bridgeConnected
           Background.wire].
      rewrite !L4.
      cbn [Background.onopen Background.wsReconnectTimer Background.wsConnection
           Background.sockets Background.timers Background.next_handle
           Background.bridgeConnected Background.wire].
      rewrite L6, lookup_insert_eq. repeat split; reflexivity. }
  destruct E2 as (A1 & A2 & A3 & A4 & A5).
  split; [rewrite E1; reflexivity|].
  repeat (split; [assumption|]).
  intros message. unfold Background.sendToBridge, Background.is_open.
  rewrite A1. reflexivity.
Qed.

Lemma port_change_forgets_new_connection_witness :
  let b := Background.bridge_run [Background.Startup true; Background.SocketOpened 1] in
  let b2 := fold_left Background.bridge_step
              [Background.SetBridgePort true; Background.SocketOpened 2;
               Background.SocketClosed 1] b in
  Background.is_open b = true
  /\ Background.sockets b2 !! 2%positive = Some Background.OPEN
  /\ Background.is_open b2 = false.
Proof.
  intros b b2.
  destruct (port_change_forgets_new_connection b 1 true) as (_ & H2 & _ & H4 & _).
  - reflexivity.
  - reflexivity.
  - reflexivity.
  - reflexivity.
  - split; [reflexivity|]. split; [exact H2|].
    unfold Background.is_open. change (Background.wsConnection b2) with
      (Background.wsConnection
         (Background.bridge_step
            (Background.bridge_step
               (Background.bridge_step b (Background.SetBridgePort true))
               (Background.SocketOpened (Background.next_handle b)))
            (Background.SocketClosed 1))).
    rewrite H4. reflexivity.
Defined.

(** ** Routes of the HTTP server *)

Lemma is_ingest_spec (req : Bridge.Request) :
  is_ingest req = true
  <-> Bridge.path_of (Bridge.req_url req) = str "/ingest" /\ Bridge.req_method req = POST.
Proof.
  unfold is_ingest. rewrite andb_true_iff, !jsstring_eqb_eq. tauto.
Qed.

(** X19. The HTTP server routes by the path before the first question mark
    and answers with one of the status codes 200, 204, 400 and 404, or not
    at all. 204 is the answer to OPTIONS, whatever the path. /ingest exists
    for POST only (any other method but OPTIONS gets 404 there). 400 is
    given exactly to a POST /ingest whose try block throws: the body does
    not parse, or parses to null (or to no value), or is a server_error
    with data on which logServerError throws; in this last case the data is
    already in the errors buffer and nothing is saved, in the others the
    store is untouched. A server_error with data whose logger returns is
    stored, saved and answered 200. The routes /, /data, /errors, /network
    and /clear answer 200 to every method other than OPTIONS, the first
    four with the text of the store or of one buffer, so a POST or DELETE
    to /clear clears the store as a GET does; /summary does too, with the
    summary as markdown, whenever the summary can be built, and when
    generateSummary throws, the exception leaves the handler and no answer
    is given. Every other path gets 404. Store and files can change only
    at /clear and at a POST /ingest that carries a server_error with
    data. *)
Theorem http_routes (P : Platform) (env : Bridge.Env) (req : Bridge.Request)
    (sv : Bridge.Server) :
  let result := Node.handle P env req sv in
  let code := status_of (snd result) in
  let path := Bridge.path_of (Bridge.req_url req) in
  let method := Bridge.req_method req in
  let body := JSON_parse P (Bridge.req_body req) in
  let is_post := path = str "/ingest" /\ method = POST in
  let pushed entry :=
    Bridge.with_errors
      (push_capped 100 entry (Bridge.errors (Bridge.capturedData sv))) sv in
  In code [Some 200; Some 204; Some 400; Some 404; None]%Z
  /\ (code = Some 204%Z <-> method = str "OPTIONS")
  /\ (code = Some 400%Z <->
        is_post
        /\ (body = None
            \/ exists msg,
                 body = Some msg
                 /\ (Json.nullish msg = true
                     \/ (is_server_error msg = true
                         /\ exists e,
                              Node.logServerError P (Json.get_opt "data" msg)
                              = Throw e))))
  /\ (code = Some 404%Z <->
        method <> str "OPTIONS"
        /\ ~ is_post
        /\ ~ In path [str "/"; str "/data"; str "/errors"; str "/network";
                      str "/summary"; str "/clear"])
  /\ (code = None <->
        method <> str "OPTIONS"
        /\ ~ is_post
        /\ path = str "/summary"
        /\ exists e, Node.generateSummary P env (Bridge.capturedData sv) = Throw e)
  /\ (is_post ->
        (body = None \/ (exists msg, body = Some msg /\ is_server_error msg = false) ->
         fst result = sv)
        /\ (forall msg, body = Some msg -> is_server_error msg = true ->
            result
            = match Node.logServerError P (Json.get_opt "data" msg) with
              | Ok _ => (Node.saveData P env (pushed (Json.get_opt "data" msg)),
                         Ok (Bridge.json_response 200 Bridge.SUCCESS))
              | Throw _ => (pushed (Json.get_opt "data" msg),
                            Ok (Bridge.json_response 400 Bridge.INVALID_JSON))
              end))
  /\ (method <> str "OPTIONS" -> ~ is_post ->
        (path = str "/" \/ path = str "/data" ->
         result = (sv, Ok (Bridge.json_response 200
                             (stringify_data P (Bridge.capturedData sv)))))
        /\ (path = str "/errors" ->
            result = (sv, Ok (Bridge.json_response 200
                                (stringify_errors P
                                   (Bridge.errors (Bridge.capturedData sv))))))
        /\ (path = str "/network" ->
            result = (sv, Ok (Bridge.json_response 200
                                (stringify_network P
                                   (Bridge.network (Bridge.capturedData sv))))))
        /\ (forall summary,
              path = str "/summary" ->
              Node.generateSummary P env (Bridge.capturedData sv) = Ok summary ->
              result = (sv, Ok {| Bridge.statusCode := 200;
                                  Bridge.contentType := Some (str "text/markdown");
                                  Bridge.content := summary |}))
        /\ (path = str "/clear" ->
            result = (Node.saveData P env {| Bridge.capturedData := Bridge.cleared;
                                             Bridge.files := Bridge.files sv |},
                      Ok (Bridge.json_response 200 Bridge.DATA_CLEARED))))
  /\ (fst result <> sv ->
        method <> str "OPTIONS"
        /\ (path = str "/clear"
            \/ (is_post /\ exists msg, body = Some msg /\ is_server_error msg = true))).
Proof.
  cbv zeta.
  destruct (is_ingest req) eqn:Hi.
  - (* POST /ingest *)
    rewrite (handle_ingest P env req sv Hi).
    apply is_ingest_spec in Hi. destruct Hi as [Hp Hm]. rewrite Hp, Hm. unfold POST.
    destruct (JSON_parse P (Bridge.req_body req)) as [msg|] eqn:Hb.
    2:{ cbn [fst snd status_of Bridge.statusCode Bridge.json_response].
        repeat split; try (intros; discriminate); try (intros; tauto); intros.
        all: cbn; tauto. }
    destruct (Json.nullish msg) eqn:Hn.
    { assert (Hs : is_server_error msg = false).
      { unfold is_server_error. rewrite (get_opt_nullish "type") by exact Hn. reflexivity. }
      cbn [fst snd status_of Bridge.statusCode Bridge.json_response].
      repeat split; try (intros; discriminate); try (intros; tauto); intros.
      all: try (cbn; tauto).
      - right. exists msg. auto.
      - match goal with H : Some _ = Some _ |- _ => injection H as <- end. congruence. }
    destruct (is_server_error msg) eqn:Hs.
    2:{ cbn [fst snd status_of Bridge.statusCode Bridge.json_response].
        repeat split; try (intros; discriminate); try (intros; tauto); intros.
        all: try (cbn; tauto).
        - destruct H as [_ [H | (m & [= <-] & [H | [H _]])]]; congruence.
        - match goal with H : Some _ = Some _ |- _ => injection H as <- end. congruence. }
    cbv zeta. destruct (Node.logServerError P (Json.get_opt "data" msg)) as [l|e] eqn:Hl.
    + cbn [fst snd status_of Bridge.statusCode Bridge.json_response].
      repeat split; try (intros; discriminate); try (intros; tauto); intros.
      all: try (cbn; tauto).
      * destruct H as [_ [H | (m & [= <-] & [H | [_ [e H]]])]]; congruence.
      * match goal with
        | H : _ \/ _ |- _ => destruct H as [H | (m & [= <-] & H)]; congruence
        end.
      * match goal with H : Some _ = Some _ |- _ => injection H as <- end.
        rewrite Hl. reflexivity.
      * right. split; [split; reflexivity|]. exists msg. auto.
    + cbn [fst snd status_of Bridge.statusCode Bridge.json_response].
      repeat split; try (intros; discriminate); try (intros; tauto); intros.
      all: try (cbn; tauto).
      * right. exists msg. split; [reflexivity|]. right. split; [exact Hs|].
        exists e. exact Hl.
      * match goal with
        | H : _ \/ _ |- _ => destruct H as [H | (m & [= <-] & H)]; congruence
        end.
      * match goal with H : Some _ = Some _ |- _ => injection H as <- end.
        rewrite Hl. reflexivity.
      * right. split; [split; reflexivity|]. exists msg. auto.
  - (* every other request *)
    pose proof (handle_other P env req sv Hi) as Hh. cbv zeta in Hh. rewrite Hh. clear Hh.
    assert (Hni : ~ (Bridge.path_of (Bridge.req_url req) = str "/ingest"
                     /\ Bridge.req_method req = POST)).
    { intros H. apply is_ingest_spec in H. congruence. }
    clear Hi. revert Hni.
    generalize (Bridge.path_of (Bridge.req_url req)) as path.
    generalize (Bridge.req_method req) as method. intros method path Hni.
    unfold jsstring_eqb.
    destruct (Node.generateSummary P env (Bridge.capturedData sv)) as [summary|e0];
    repeat match goal with
    | |- context [bool_decide (?a = ?b)] =>
        destruct (bool_decide_reflect (a = b)); cbn [andb orb]
    end;
    cbn [fst snd status_of Bridge.statusCode Bridge.json_response In];
    subst;
    repeat split; intros;
    repeat match goal with
    | H : _ /\ _ |- _ => destruct H
    | H : _ \/ _ |- _ => destruct H
    | H : exists _, _ |- _ => destruct H
    end;
    try discriminate; try congruence; try tauto; try (exfalso; tauto);
    try (eexists; reflexivity).
    all: intuition congruence.
Qed.

Lemma http_routes_witness :
  status_of (snd (Sample.handle Sample.env (Sample.get "/ingest") Bridge.server_init))
  = Some 404%Z
  /\ Sample.handle Sample.env
       {| Bridge.req_method := str "DELETE"; Bridge.req_url := str "/clear?x=1";
          Bridge.req_body := [] |} Bridge.server_init
     = (Node.saveData Sample.platform Sample.env Bridge.server_init,
        Ok (Bridge.json_response 200 Bridge.DATA_CLEARED))
  /\ status_of (snd (Sample.handle Sample.env (ingest Sample.NUMBER_CLEANED)
                       Bridge.server_init))
     = Some 400%Z
  /\ Sample.handle Sample.env (ingest Sample.NUMBER_CLEANED) Bridge.server_init
     = (Bridge.with_errors
          [Json.VObject [(str "cleaned", Json.VNumber (Json.number_of_Z 5))]]
          Bridge.server_init,
        Ok (Bridge.json_response 400 Bridge.INVALID_JSON)).
Proof.
  split; [|split; [|split]].
  - pose proof (http_routes Sample.platform Sample.env (Sample.get "/ingest")
                  Bridge.server_init) as H.
    cbv zeta in H. destruct H as (_ & _ & _ & H404 & _).
    apply H404. vm_compute. repeat split; try discriminate.
    + intros [_ H]. discriminate H.
    + intros H. repeat (destruct H as [H|H]; [discriminate H|]). exact H.
  - pose proof (http_routes Sample.platform Sample.env
                  {| Bridge.req_method := str "DELETE"; Bridge.req_url := str "/clear?x=1";
                     Bridge.req_body := [] |} Bridge.server_init) as H.
    cbv zeta in H. destruct H as (_ & _ & _ & _ & _ & _ & Hroutes & _).
    apply Hroutes.
    + discriminate.
    + intros [_ H]. discriminate H.
    + reflexivity.
  - pose proof (http_routes Sample.platform Sample.env (ingest Sample.NUMBER_CLEANED)
                  Bridge.server_init) as H.
    cbv zeta in H. destruct H as (_ & _ & H400 & _).
    apply H400.
    split; [split; reflexivity|]. right. eexists. split; [reflexivity|].
    right. split; [reflexivity|]. exists Json.TypeError. reflexivity.
  - pose proof (http_routes Sample.platform Sample.env (ingest Sample.NUMBER_CLEANED)
                  Bridge.server_init) as H.
    cbv zeta in H. destruct H as (_ & _ & _ & _ & _ & Hpost & _).
    destruct (Hpost (conj eq_refl eq_refl)) as [_ Hstored].
    etransitivity; [exact (Hstored _ eq_refl eq_refl)|].
    vm_compute. reflexivity.
Defined.
